(** * Crop price service: retry / failover orchestration and record validation

    A shallow embedding of [models.py], [mock_data_provider.py],
    [exceptions.py] and the orchestrator [get_crop_prices] of
    [crop_price_fetcher.py], together with the properties stated about them.

    Conventions of the embedding
    - Python [str] is [string]: the bytes of its UTF-8 encoding, so that
      ASCII text is itself, equality is equality of the text and
      concatenation is concatenation.  [str.lower], [str.strip] and
      [str.title] follow the Unicode tables of the interpreter; they are
      taken as an interface ([PyStr.Methods]) of which only the behaviour on
      ASCII text is fixed.
    - Python [float] is [pyfloat]: a finite rational, an infinity or NaN, with
      the IEEE comparisons (every comparison with NaN is false).  The code
      only compares prices, it never does arithmetic on them.
    - A keyword-argument dictionary is a [gmap string pyval].
    - A raised exception is a value of [exn]; a computation returns a
      [result].  The orchestrator runs in a state monad over the list of
      observable events (adapter calls, sleeps, mock-provider calls).
    - Calls to [logger] have no influence on results and are left out. *)

From Stdlib Require Import ZArith QArith Ascii String List Bool Lia.
From Stdlib Require Import DecimalString.
From stdpp Require Import base option list gmap strings.
Import ListNotations.

Local Open Scope string_scope.
Local Open Scope list_scope.

(* ===================================================================== *)
(** ** Python strings                                                     *)
(* ===================================================================== *)

Module PyStr.

(** *** The ASCII range *)

Definition code (c : ascii) : nat := nat_of_ascii c.

Definition is_upper (c : ascii) : bool := (65 <=? code c)%nat && (code c <=? 90)%nat.
Definition is_lower (c : ascii) : bool := (97 <=? code c)%nat && (code c <=? 122)%nat.
Definition is_cased (c : ascii) : bool := is_upper c || is_lower c.

(** [str.isspace] on the ASCII range: TAB, LF, VT, FF, CR, FS, GS, RS, US
    and the space. *)
Definition is_space (c : ascii) : bool :=
  ((9 <=? code c)%nat && (code c <=? 13)%nat)
  || ((28 <=? code c)%nat && (code c <=? 32)%nat).

Definition lower_char (c : ascii) : ascii :=
  if is_upper c then ascii_of_nat (code c + 32) else c.
Definition upper_char (c : ascii) : ascii :=
  if is_lower c then ascii_of_nat (code c - 32) else c.

(** [s.lower()] for ASCII [s] *)
Fixpoint ascii_lower (s : string) : string :=
  match s with
  | EmptyString => EmptyString
  | String c r => String (lower_char c) (ascii_lower r)
  end.

(** [s.lstrip()], [s.rstrip()], [s.strip()] for ASCII [s] *)
Fixpoint ascii_lstrip (s : string) : string :=
  match s with
  | EmptyString => EmptyString
  | String c r => if is_space c then ascii_lstrip r else s
  end.

Fixpoint ascii_rstrip (s : string) : string :=
  match s with
  | EmptyString => EmptyString
  | String c r =>
      match ascii_rstrip r with
      | EmptyString => if is_space c then EmptyString else String c EmptyString
      | r' => String c r'
      end
  end.

Definition ascii_strip (s : string) : string := ascii_rstrip (ascii_lstrip s).

(** [s.title()] for ASCII [s]: a cased character is upper-cased when the
    previous character is not cased, lower-cased otherwise. *)
Fixpoint ascii_title_from (previous_is_cased : bool) (s : string) : string :=
  match s with
  | EmptyString => EmptyString
  | String c r =>
      String (if previous_is_cased then lower_char c else upper_char c)
             (ascii_title_from (is_cased c) r)
  end.

Definition ascii_title (s : string) : string := ascii_title_from false s.

(** The text is ASCII: every byte is below 128. *)
Fixpoint is_ascii (s : string) : bool :=
  match s with
  | EmptyString => true
  | String c r => (code c <? 128)%nat && is_ascii r
  end.

(** *** The methods of [str] *)

(** [s.lower()], [s.strip()] and [s.title()] are built into the
    interpreter and follow its Unicode tables: [strip] removes every
    character that [str.isspace] accepts (the no-break space among them),
    [lower] and [title] map every cased letter.  They are an interface; what
    is fixed is their behaviour on ASCII text. *)
Class Methods : Type := {
  lower : string -> string;
  strip : string -> string;
  title : string -> string;
  lower_ascii : forall s, is_ascii s = true -> lower s = ascii_lower s;
  strip_ascii : forall s, is_ascii s = true -> strip s = ascii_strip s;
  title_ascii : forall s, is_ascii s = true -> title s = ascii_title s
}.

(** The methods that treat every byte as the ASCII functions do; on ASCII
    text they are the methods of the interpreter. *)
Definition ascii_methods : Methods :=
  {| lower := ascii_lower;
     strip := ascii_strip;
     title := ascii_title;
     lower_ascii := fun _ _ => eq_refl;
     strip_ascii := fun _ _ => eq_refl;
     title_ascii := fun _ _ => eq_refl |}.

(** Truthiness of a string: [bool(s)]. *)
Definition truthy (s : string) : bool :=
  match s with EmptyString => false | _ => true end.

(** [str(n)] for a non-negative integer. *)
Definition of_nat (n : nat) : string := NilEmpty.string_of_uint (Nat.to_uint n).

(** [str(z)] for an integer. *)
Definition of_Z (z : Z) : string := NilEmpty.string_of_int (Z.to_int z).

End PyStr.

(** Closed examples are run with the ASCII methods, on ASCII text. *)
#[global] Existing Instance PyStr.ascii_methods.

(** An [Optional[str]] that is [None] or ASCII text. *)
Definition opt_is_ascii (o : option string) : bool :=
  match o with
  | Some s => PyStr.is_ascii s
  | None => true
  end.

(** Truthiness of an [Optional[str]]: [None] and the empty string are falsy. *)
Definition opt_truthy (o : option string) : bool :=
  match o with
  | Some s => PyStr.truthy s
  | None => false
  end.

(* ===================================================================== *)
(** ** Python floats, dates                                               *)
(* ===================================================================== *)

Inductive pyfloat : Type :=
| FNaN
| FNegInf
| FFinite (q : Q)
| FPosInf.

(** [a <= b] and [a < b] on floats. *)
Definition fle (a b : pyfloat) : bool :=
  match a, b with
  | FNaN, _ | _, FNaN => false
  | FNegInf, _ => true
  | _, FPosInf => true
  | FFinite x, FFinite y => Qle_bool x y
  | _, _ => false
  end.

Definition flt (a b : pyfloat) : bool :=
  match a, b with
  | FNaN, _ | _, FNaN => false
  | FNegInf, FNegInf => false
  | FNegInf, _ => true
  | FPosInf, _ => false
  | FFinite _, FNegInf => false
  | FFinite x, FFinite y => negb (Qle_bool y x)
  | FFinite _, FPosInf => true
  end.

Definition fzero : pyfloat := FFinite 0.
Definition fl (z : Z) : pyfloat := FFinite (inject_Z z).

Record date : Type := mkDate { year : Z; month : Z; day : Z }.

Record datetime : Type := mkDatetime { dt_date : date; dt_seconds : Z; dt_micros : Z }.

(* ===================================================================== *)
(** ** models.py: CropPrice                                               *)
(* ===================================================================== *)

Record CropPrice : Type := mkCropPrice {
  crop_name : string;
  min_price : pyfloat;
  max_price : pyfloat;
  modal_price : pyfloat;
  market_name : string;
  district : string;
  state : string;
  price_date : date;
  unit : string
}.

(** Values that can be passed as keyword arguments or appear in raw data. *)
#[warnings="-register-all"]
Inductive pyval : Type :=
| PyNone
| PyBool (b : bool)
| PyInt (z : Z)
| PyFloat (f : pyfloat)
| PyStr (s : string)
| PyDate (d : date)
| PyDatetime (t : datetime)
| PyCropPrice (c : CropPrice)
| PyList (l : list pyval)
| PyDict (kv : list (string * pyval)).

Abbreviation kwargs := (gmap string pyval).

(** One line of a pydantic [ValidationError]: the field and what went wrong. *)
Inductive line_error : Type :=
| Missing (field : string)
| WrongType (field : string)
| Constraint (field : string) (msg : string)
| ValueErr (field : string) (msg : string).

(** Pydantic validates in lax mode: besides a value of the declared type a
    field accepts some values of other types (a numeric string for a
    [float], an ISO string for a [date], ...).  These conversions belong to
    the library; they are taken as an interface. *)
Class Pydantic : Type := {
  lax_float : pyval -> option pyfloat;
  lax_int : pyval -> option Z;
  lax_bool : pyval -> option bool;
  lax_date : pyval -> option date;
  lax_datetime : pyval -> option datetime;
  (** [str(e)] of a [ValidationError] with the given lines *)
  error_text : list line_error -> string
}.

(** Strict mode: nothing but the declared type is accepted. *)
Definition strict_mode : Pydantic :=
  {| lax_float := fun _ => None;
     lax_int := fun _ => None;
     lax_bool := fun _ => None;
     lax_date := fun _ => None;
     lax_datetime := fun _ => None;
     error_text := fun errs => PyStr.of_nat (length errs) +:+ " validation errors" |}.

Section Models.

Context {str_methods : PyStr.Methods} {pydantic : Pydantic}.

Definition validate_str (v : pyval) : option string :=
  match v with PyStr s => Some s | _ => None end.

Definition validate_float (v : pyval) : option pyfloat :=
  match v with PyFloat f => Some f | _ => lax_float v end.

Definition validate_int (v : pyval) : option Z :=
  match v with PyInt z => Some z | _ => lax_int v end.

Definition validate_bool (v : pyval) : option bool :=
  match v with PyBool b => Some b | _ => lax_bool v end.

Definition validate_date (v : pyval) : option date :=
  match v with PyDate d => Some d | _ => lax_date v end.

Definition validate_datetime (v : pyval) : option datetime :=
  match v with PyDatetime t => Some t | _ => lax_datetime v end.

(** [Optional[str]] *)
Definition validate_opt_str (v : pyval) : option (option string) :=
  match v with
  | PyNone => Some None
  | PyStr s => Some (Some s)
  | _ => None
  end.

(** The outcome of validating one field: the validated value (which then
    enters [info.data]) or the errors of that field. *)
Definition field_result (A : Type) : Type := (list line_error + A)%type.

(** A required field, [Field(...)], of a given type. *)
Definition required {A} (raw : kwargs) (name : string)
           (validate : pyval -> option A) : field_result A :=
  match raw !! name with
  | None => inl [Missing name]
  | Some v =>
      match validate v with
      | None => inl [WrongType name]
      | Some a => inr a
      end
  end.

(** A field with a default. *)
Definition with_default {A} (raw : kwargs) (name : string)
           (validate : pyval -> option A) (default : A) : field_result A :=
  match raw !! name with
  | None => inr default
  | Some v =>
      match validate v with
      | None => inl [WrongType name]
      | Some a => inr a
      end
  end.

(** [Field(..., ge=0)] on a float. *)
Definition ge0 (name : string) (r : field_result pyfloat) : field_result pyfloat :=
  match r with
  | inr f => if fle fzero f then inr f
             else inl [Constraint name "Input should be greater than or equal to 0"]
  | inl e => inl e
  end.

(** An after-validator runs on the value that passed the field's own
    validation. *)
Definition after {A} (name : string) (check : A -> string + A)
           (r : field_result A) : field_result A :=
  match r with
  | inr a => match check a with
             | inr a' => inr a'
             | inl msg => inl [ValueErr name msg]
             end
  | inl e => inl e
  end.

(** ["f" in info.data]: the field [f] has been validated successfully. *)
Definition in_data {A} (r : field_result A) : option A :=
  match r with inr a => Some a | inl _ => None end.

Definition errors_of {A} (r : field_result A) : list line_error :=
  match r with inr _ => [] | inl e => e end.

(** [CropPrice.validate_max_price] *)
Definition validate_max_price (v : pyfloat) (data_min_price : option pyfloat)
  : string + pyfloat :=
  match data_min_price with
  | Some min_p =>
      if flt v min_p
      then inl "max_price must be greater than or equal to min_price"
      else inr v
  | None => inr v
  end.

(** [CropPrice.validate_modal_price] *)
Definition validate_modal_price (v : pyfloat)
           (data_min_price data_max_price : option pyfloat) : string + pyfloat :=
  match data_min_price, data_max_price with
  | Some min_p, Some max_p =>
      if negb (fle min_p v && fle v max_p)
      then inl "modal_price must be between min_price and max_price"
      else inr v
  | _, _ => inr v
  end.

(** [CropPrice] called with the keyword arguments [raw]: the fields are
    validated in declaration order, all errors are collected, and the model
    is built only when there is none. *)
Definition CropPrice_new (raw : kwargs) : list line_error + CropPrice :=
  let f_crop_name := required raw "crop_name" validate_str in
  let f_min_price := ge0 "min_price" (required raw "min_price" validate_float) in
  let f_max_price :=
    after "max_price" (fun v => validate_max_price v (in_data f_min_price))
          (ge0 "max_price" (required raw "max_price" validate_float)) in
  let f_modal_price :=
    after "modal_price"
          (fun v => validate_modal_price v (in_data f_min_price) (in_data f_max_price))
          (ge0 "modal_price" (required raw "modal_price" validate_float)) in
  let f_market_name := required raw "market_name" validate_str in
  let f_district := required raw "district" validate_str in
  let f_state := required raw "state" validate_str in
  let f_price_date := required raw "price_date" validate_date in
  let f_unit := with_default raw "unit" validate_str "Quintal" in
  match f_crop_name, f_min_price, f_max_price, f_modal_price,
        f_market_name, f_district, f_state, f_price_date, f_unit with
  | inr cn, inr mn, inr mx, inr md, inr mk, inr di, inr st, inr pd, inr un =>
      inr (mkCropPrice cn mn mx md mk di st pd un)
  | _, _, _, _, _, _, _, _, _ =>
      inl (errors_of f_crop_name ++ errors_of f_min_price ++ errors_of f_max_price
           ++ errors_of f_modal_price ++ errors_of f_market_name
           ++ errors_of f_district ++ errors_of f_state
           ++ errors_of f_price_date ++ errors_of f_unit)
  end.

End Models.

(* ===================================================================== *)
(** ** models.py: PriceResponse                                           *)
(* ===================================================================== *)

Record PriceResponse : Type := mkPriceResponse {
  success : bool;
  data : list CropPrice;
  count : Z;
  resp_state : string;
  resp_district : option string;
  resp_crop_name : option string;
  fetched_at : datetime;
  message : option string
}.

(** A Python dict built from its items: a later item overrides an earlier
    one with the same key. *)
Definition dict_of (kv : list (string * pyval)) : kwargs :=
  fold_left (fun m p => <[p.1 := p.2]> m) kv ∅.

Section Response.

Context {str_methods : PyStr.Methods} {pydantic : Pydantic}.

(** An item of [List[CropPrice]]: an instance is taken as it is, a dict is
    validated as a [CropPrice]. *)
Definition validate_item (v : pyval) : option CropPrice :=
  match v with
  | PyCropPrice c => Some c
  | PyDict kv => match CropPrice_new (dict_of kv) with
                 | inr c => Some c
                 | inl _ => None
                 end
  | _ => None
  end.

Fixpoint validate_items (l : list pyval) : option (list CropPrice) :=
  match l with
  | [] => Some []
  | v :: r =>
      match validate_item v, validate_items r with
      | Some c, Some cs => Some (c :: cs)
      | _, _ => None
      end
  end.

Definition validate_data (v : pyval) : option (list CropPrice) :=
  match v with PyList l => validate_items l | _ => None end.

(** [PriceResponse.set_count], a before-validator: it sees the raw value
    [v] and the fields validated so far. *)
Definition set_count (v : pyval) (info_data : option (list CropPrice)) : pyval :=
  match info_data with
  | Some d => PyInt (Z.of_nat (length d))
  | None => v
  end.

(** A required field whose raw value first goes through a before-validator. *)
Definition required_before {A} (raw : kwargs) (name : string)
           (before : pyval -> pyval) (validate : pyval -> option A) : field_result A :=
  match raw !! name with
  | None => inl [Missing name]
  | Some v =>
      match validate (before v) with
      | None => inl [WrongType name]
      | Some a => inr a
      end
  end.

(** [PriceResponse] called with the keyword arguments [raw]; [now] is what
    [datetime.now()] returns. *)
Definition PriceResponse_new (now : datetime) (raw : kwargs)
  : list line_error + PriceResponse :=
  let f_success := required raw "success" validate_bool in
  let f_data := with_default raw "data" validate_data [] in
  let f_count :=
    required_before raw "count" (fun v => set_count v (in_data f_data)) validate_int in
  let f_state := required raw "state" validate_str in
  let f_district := with_default raw "district" validate_opt_str None in
  let f_crop_name := with_default raw "crop_name" validate_opt_str None in
  let f_fetched_at := with_default raw "fetched_at" validate_datetime now in
  let f_message := with_default raw "message" validate_opt_str None in
  match f_success, f_data, f_count, f_state, f_district, f_crop_name,
        f_fetched_at, f_message with
  | inr su, inr da, inr co, inr st, inr di, inr cr, inr fe, inr me =>
      inr (mkPriceResponse su da co st di cr fe me)
  | _, _, _, _, _, _, _, _ =>
      inl (errors_of f_success ++ errors_of f_data ++ errors_of f_count
           ++ errors_of f_state ++ errors_of f_district ++ errors_of f_crop_name
           ++ errors_of f_fetched_at ++ errors_of f_message)
  end.

End Response.

(* ===================================================================== *)
(** ** exceptions.py                                                      *)
(* ===================================================================== *)

(** The [Exception] subclasses that can occur.  [CropPriceError] is the base
    class of the next four; [ValidationError] is pydantic's;
    [OtherException] stands for any other subclass of [Exception], with its
    [str()].  What is not a subclass of [Exception] (a cancellation, a
    keyboard interrupt) is caught nowhere in the code and is not modelled. *)
Inductive exn : Type :=
| CropPriceError (msg : string)
| DataSourceError (msg : string) (source : string)
| NetworkError (msg : string) (status_code : option Z)
| DataNotFoundError (msg : string) (state district : option string)
| DataValidationError (msg : string)
| ValueError (msg : string)
| ValidationError (errors : list line_error)
| OtherException (msg : string).

(** [str(e)] *)
Definition exn_str {pydantic : Pydantic} (e : exn) : string :=
  match e with
  | CropPriceError m => m
  | DataSourceError m src => "[" +:+ src +:+ "] " +:+ m
  | NetworkError m _ => m
  | DataNotFoundError m _ _ => m
  | DataValidationError m => m
  | ValueError m => m
  | ValidationError errs => error_text errs
  | OtherException m => m
  end.

(** [isinstance(e, (NetworkError, DataSourceError))] *)
Definition is_network_or_source (e : exn) : bool :=
  match e with
  | NetworkError _ _ | DataSourceError _ _ => true
  | _ => false
  end.

Inductive result (A : Type) : Type :=
| Returns (a : A)
| Raises (e : exn).
Arguments Returns {A} a.
Arguments Raises {A} e.

(** Building a model inside Python code: a failed validation is raised. *)
Definition construct {A} (r : list line_error + A) : result A :=
  match r with
  | inr a => Returns a
  | inl errs => Raises (ValidationError errs)
  end.

(* ===================================================================== *)
(** ** mock_data_provider.py                                              *)
(* ===================================================================== *)

(** An entry of the sample catalog (a dict literal with these seven keys). *)
Record crop_entry : Type := mkEntry {
  e_crop_name : string;
  e_min_price : pyfloat;
  e_max_price : pyfloat;
  e_modal_price : pyfloat;
  e_market_name : string;
  e_district : string;
  e_state : string
}.

Definition all_crops : list crop_entry :=
  [ mkEntry "Wheat" (fl 2100) (fl 2300) (fl 2200) "Azadpur Mandi" "North Delhi" "Delhi";
    mkEntry "Rice" (fl 1800) (fl 2000) (fl 1900) "Azadpur Mandi" "North Delhi" "Delhi";
    mkEntry "Tomato" (fl 1200) (fl 1500) (fl 1350) "Azadpur Mandi" "North Delhi" "Delhi";
    mkEntry "Potato" (fl 800) (fl 1000) (fl 900) "Azadpur Mandi" "North Delhi" "Delhi";
    mkEntry "Onion" (fl 1500) (fl 1800) (fl 1650) "Azadpur Mandi" "North Delhi" "Delhi";
    mkEntry "Wheat" (fl 2050) (fl 2250) (fl 2150) "Khanna Mandi" "Ludhiana" "Punjab";
    mkEntry "Rice" (fl 1750) (fl 1950) (fl 1850) "Khanna Mandi" "Ludhiana" "Punjab";
    mkEntry "Cotton" (fl 5500) (fl 6000) (fl 5750) "Yavatmal Mandi" "Yavatmal" "Maharashtra";
    mkEntry "Sugarcane" (fl 280) (fl 320) (fl 300) "Kolhapur Mandi" "Kolhapur" "Maharashtra";
    mkEntry "Turmeric" (fl 12000) (fl 14000) (fl 13000) "Erode Mandi" "Erode" "Tamil Nadu" ].

Section MockProvider.

Context {str_methods : PyStr.Methods} {pydantic : Pydantic}.

(** [a.lower() == b.lower()] *)
Definition same_ci (a b : string) : bool := String.eqb (PyStr.lower a) (PyStr.lower b).

(** [[x for x in l if key(x).lower() == wanted.lower()]] when [wanted] is
    truthy, [l] otherwise. *)
Definition restrict {A} (key : A -> string) (wanted : option string) (l : list A) : list A :=
  match wanted with
  | Some w => if PyStr.truthy w then List.filter (fun x => same_ci (key x) w) l else l
  | None => l
  end.

(** The keyword arguments of the [CropPrice(...)] call in [get_mock_prices]. *)
Definition entry_kwargs (crop_data : crop_entry) (price_date : date) : kwargs :=
  list_to_map
    [ ("crop_name", PyStr (e_crop_name crop_data));
      ("min_price", PyFloat (e_min_price crop_data));
      ("max_price", PyFloat (e_max_price crop_data));
      ("modal_price", PyFloat (e_modal_price crop_data));
      ("market_name", PyStr (e_market_name crop_data));
      ("district", PyStr (e_district crop_data));
      ("state", PyStr (e_state crop_data));
      ("price_date", PyDate price_date) ].

(** The loop appending [CropPrice(...)] to [prices]; the first failing
    construction raises. *)
Fixpoint materialize (filtered : list crop_entry) (price_date : date)
  : result (list CropPrice) :=
  match filtered with
  | [] => Returns []
  | crop_data :: rest =>
      match construct (CropPrice_new (entry_kwargs crop_data price_date)) with
      | Raises e => Raises e
      | Returns p =>
          match materialize rest price_date with
          | Raises e => Raises e
          | Returns ps => Returns (p :: ps)
          end
      end
  end.

(** [get_mock_prices(state, district, crop_name, price_date)]; [today] is
    what [date.today()] returns. *)
Definition get_mock_prices (today : date) (state : string)
           (district crop_name : option string) (price_date : option date)
  : result (list CropPrice) :=
  let price_date := match price_date with Some d => d | None => today end in
  let filtered := List.filter (fun crop => same_ci (e_state crop) state) all_crops in
  let filtered := restrict e_district district filtered in
  let filtered := restrict e_crop_name crop_name filtered in
  materialize filtered price_date.

End MockProvider.

(* ===================================================================== *)
(** ** crop_price_fetcher.py: the world of the orchestrator               *)
(* ===================================================================== *)

Definition MAX_RETRIES : nat := 3.
Definition RETRY_DELAY : Z := 2.

Inductive source : Type := Agmarknet | Enam.

Definition source_eqb (a b : source) : bool :=
  match a, b with
  | Agmarknet, Agmarknet | Enam, Enam => true
  | _, _ => false
  end.

(** What a call of [get_crop_prices] does to the outside: it awaits an
    adapter, it sleeps, it calls the mock provider. *)
Inductive event : Type :=
| Fetch (src : source)
| Sleep (seconds : Z)
| MockCall.

Definition trace : Type := list event.

(** Number of calls so far to the adapter of [src]. *)
Definition fetches (src : source) (tr : trace) : nat :=
  length (List.filter (fun ev => match ev with Fetch s => source_eqb s src | _ => false end) tr).

(** Durations of the sleeps, in order. *)
Definition sleeps (tr : trace) : list Z :=
  omap (fun ev => match ev with Sleep n => Some n | _ => None end) tr.

Definition total_sleep (tr : trace) : Z := fold_right Z.add 0%Z (sleeps tr).

(** The surroundings of a call.  The two source adapters cross the network:
    each is given by what its [n]-th call does, for the arguments it gets.
    [mock_provider_imported] is false when [import mock_data_provider]
    failed (then [get_mock_prices] is [None]). *)
Record environment : Type := mkEnv {
  fetch_agmarknet_prices :
    string -> option string -> option string -> option date -> nat -> result (list CropPrice);
  fetch_enam_prices :
    string -> option string -> option string -> nat -> result (list CropPrice);
  mock_provider_imported : bool;
  DEV_MODE : bool;
  today : date;
  now : datetime
}.

(** How the single HTTP request of an adapter ends: with a status code, with
    an [aiohttp.ClientError], or with any other exception inside the [try]. *)
Inductive http_reply : Type :=
| Status (code : Z)
| ClientError (msg : string)
| OtherFailure (msg : string).

(** The body of [fetch_agmarknet_prices]: a status other than 200 and a
    client error are network errors; with status 200 the unfinished scraper
    raises [DataSourceError]; anything else is wrapped into one. *)
Definition agmarknet_stub (reply : http_reply) : result (list CropPrice) :=
  match reply with
  | Status code =>
      if (code =? 200)%Z
      then Raises (DataSourceError
                     ("AGMARKNET form submission not fully implemented. "
                      +:+ "Use alternative data source or implement form handling.")
                     "agmarknet")
      else Raises (NetworkError
                     ("Failed to fetch AGMARKNET page: HTTP " +:+ PyStr.of_Z code)
                     (Some code))
  | ClientError msg =>
      Raises (NetworkError ("Network error while fetching from AGMARKNET: " +:+ msg) None)
  | OtherFailure msg =>
      Raises (DataSourceError ("Unexpected error fetching from AGMARKNET: " +:+ msg)
                              "agmarknet")
  end.

(** The body of [fetch_enam_prices]. *)
Definition enam_stub (reply : http_reply) : result (list CropPrice) :=
  match reply with
  | Status code =>
      if (code =? 200)%Z
      then Raises (DataSourceError
                     ("e-NAM API integration not fully implemented. "
                      +:+ "Use alternative data source or implement API authentication.")
                     "enam")
      else Raises (NetworkError
                     ("Failed to fetch e-NAM page: HTTP " +:+ PyStr.of_Z code)
                     (Some code))
  | ClientError msg =>
      Raises (NetworkError ("Network error while fetching from e-NAM: " +:+ msg) None)
  | OtherFailure msg =>
      Raises (DataSourceError ("Unexpected error fetching from e-NAM: " +:+ msg) "enam")
  end.

(** The environment of the repository as it is: both adapters are the stubs,
    the mock provider is importable. *)
Definition repository_environment (agmarknet_replies enam_replies : nat -> http_reply)
           (dev_mode : bool) (today : date) (now : datetime) : environment :=
  {| fetch_agmarknet_prices := fun _ _ _ _ n => agmarknet_stub (agmarknet_replies n);
     fetch_enam_prices := fun _ _ _ n => enam_stub (enam_replies n);
     mock_provider_imported := true;
     DEV_MODE := dev_mode;
     today := today;
     now := now |}.

(** Computations of the orchestrator: they may raise and they extend the
    trace. *)
Definition M (A : Type) : Type := trace -> result A * trace.

Definition ret {A} (a : A) : M A := fun tr => (Returns a, tr).
Definition raise {A} (e : exn) : M A := fun tr => (Raises e, tr).
Definition bind {A B} (m : M A) (k : A -> M B) : M B :=
  fun tr => match m tr with
            | (Returns a, tr') => k a tr'
            | (Raises e, tr') => (Raises e, tr')
            end.
(** [try: m  except Exception as e: handler(e)] *)
Definition try_except {A} (m : M A) (handler : exn -> M A) : M A :=
  fun tr => match m tr with
            | (Returns a, tr') => (Returns a, tr')
            | (Raises e, tr') => handler e tr'
            end.
(** Run [m] and hand back how it ended, without propagating. *)
Definition observe {A} (m : M A) : M (result A) :=
  fun tr => match m tr with (r, tr') => (Returns r, tr') end.
Definition emit (ev : event) : M () := fun tr => (Returns (), tr ++ [ev]).
Definition lift {A} (r : result A) : M A := fun tr => (r, tr).

Declare Scope orch_scope.
Delimit Scope orch_scope with orch.
Notation "x <- m ;; k" := (bind m (fun x => k))
  (at level 100, m at next level, right associativity) : orch_scope.
Notation "m ;;; k" := (bind m (fun _ => k))
  (at level 100, right associativity) : orch_scope.
Local Open Scope orch_scope.

(** [await asyncio.sleep(seconds)] *)
Definition sleep (seconds : Z) : M () := emit (Sleep seconds).

Definition nonempty {A} (l : list A) : bool :=
  match l with [] => false | _ => true end.

Definition opt_to_py (o : option string) : pyval :=
  match o with Some s => PyStr s | None => PyNone end.

(** The keyword arguments of the [PriceResponse(...)] calls. *)
Definition response_kwargs (success : bool) (data : list CropPrice) (count : nat)
           (state : string) (district crop_name : option string) (message : string)
  : kwargs :=
  list_to_map
    [ ("success", PyBool success);
      ("data", PyList (map PyCropPrice data));
      ("count", PyInt (Z.of_nat count));
      ("state", PyStr state);
      ("district", opt_to_py district);
      ("crop_name", opt_to_py crop_name);
      ("message", PyStr message) ].

Section Filters.

Context {str_methods : PyStr.Methods}.

(** [s.strip().title()] *)
Definition normalize (s : string) : string := PyStr.title (PyStr.strip s).

(** [if x: x = x.strip().title()] *)
Definition normalize_opt (o : option string) : option string :=
  match o with
  | Some s => if PyStr.truthy s then Some (normalize s) else Some s
  | None => None
  end.

(** [[p for p in prices if p.district.lower() == district.lower()]] under
    [if district:], and the same for the crop. *)
Definition by_district (wanted : option string) (prices : list CropPrice) : list CropPrice :=
  restrict district wanted prices.
Definition by_crop (wanted : option string) (prices : list CropPrice) : list CropPrice :=
  restrict crop_name wanted prices.

(** The district / crop filter of the live path ([if prices: ...]). *)
Definition post_filter (district crop_name : option string) (prices : list CropPrice)
  : list CropPrice :=
  if nonempty prices then by_crop crop_name (by_district district prices) else prices.

(** The message of the failure response. *)
Definition failure_message {pydantic : Pydantic} (state : string)
           (district crop_name : option string) (last_error : option exn) : string :=
  let message := "No price data found for state=" +:+ state in
  let message :=
    match district with
    | Some d => if PyStr.truthy d then message +:+ ", district=" +:+ d else message
    | None => message
    end in
  let message :=
    match crop_name with
    | Some c => if PyStr.truthy c then message +:+ ", crop=" +:+ c else message
    | None => message
    end in
  match last_error with
  | Some e => message +:+ ". Last error: " +:+ exn_str e
  | None => message
  end.

End Filters.

(* ===================================================================== *)
(** ** crop_price_fetcher.py: get_crop_prices                             *)
(* ===================================================================== *)

Section Orchestrator.

Context {str_methods : PyStr.Methods} {pydantic : Pydantic}.
Variable E : environment.

(** [await fetch_agmarknet_prices(...)] or [await fetch_enam_prices(...)] *)
Definition call_adapter (src : source) (state : string)
           (district crop_name : option string) (price_date : option date)
  : M (list CropPrice) :=
  fun tr =>
    (match src with
     | Agmarknet =>
         fetch_agmarknet_prices E state district crop_name price_date (fetches src tr)
     | Enam => fetch_enam_prices E state district crop_name (fetches src tr)
     end, tr ++ [Fetch src]).

(** [get_mock_prices(state, district, crop_name, price_date)] *)
Definition call_mock (state : string) (district crop_name : option string)
           (price_date : option date) : M (list CropPrice) :=
  fun tr => (get_mock_prices (today E) state district crop_name price_date,
             tr ++ [MockCall]).

(** [PriceResponse(success=..., data=..., count=..., ...)] *)
Definition respond (success : bool) (data : list CropPrice) (count : nat)
           (state : string) (district crop_name : option string) (message : string)
  : M PriceResponse :=
  lift (construct (PriceResponse_new (now E)
          (response_kwargs success data count state district crop_name message))).

Section Live.

Variables (state : string) (district crop_name : option string)
          (price_date : option date) (data_source : string).

(** The body of the [try:] of the retry loop, up to the assignment of
    [prices]. *)
Definition primary_attempt : M (list CropPrice) :=
  if String.eqb (PyStr.lower data_source) "agmarknet"
  then call_adapter Agmarknet state district crop_name price_date
  else if String.eqb (PyStr.lower data_source) "enam"
  then call_adapter Enam state district crop_name price_date
  else raise (ValueError ("Unknown data source: " +:+ data_source)).

(** [for attempt in attempts: ...], with the loop variables [prices] and
    [last_error]; [max_retries] and [retry_delay] are the module
    constants. *)
Fixpoint retry_loop (max_retries : nat) (retry_delay : Z) (attempts : list nat)
         (prices : list CropPrice) (last_error : option exn)
  : M (list CropPrice * option exn) :=
  match attempts with
  | [] => ret (prices, last_error)
  | attempt :: rest =>
      outcome <- observe primary_attempt ;;
      match outcome with
      | Returns fetched =>
          if nonempty fetched
          then ret (fetched, last_error)
          else retry_loop max_retries retry_delay rest fetched last_error
      | Raises e =>
          if is_network_or_source e
          then
            (if (attempt <? max_retries - 1)%nat
             then sleep (retry_delay * (Z.of_nat attempt + 1))
             else ret ()) ;;;
            retry_loop max_retries retry_delay rest prices (Some e)
          else raise (CropPriceError
                        ("Unexpected error fetching prices: " +:+ exn_str e))
      end
  end.

Variable use_mock_fallback : bool.

(** [if not prices and last_error: ...]: the other source, once. *)
Definition failover (prices : list CropPrice) (last_error : option exn)
  : M (list CropPrice) :=
  if negb (nonempty prices) && bool_decide (is_Some last_error)
  then
    try_except
      (let fallback_source :=
         if String.eqb (PyStr.lower data_source) "agmarknet"
         then "enam" else "agmarknet" in
       if String.eqb fallback_source "agmarknet"
       then call_adapter Agmarknet state district crop_name price_date
       else call_adapter Enam state district crop_name price_date)
      (fun _ => ret prices)
  else ret prices.

(** [if not prices and use_mock_fallback and get_mock_prices: ...] *)
Definition mock_fallback (prices : list CropPrice) : M (list CropPrice) :=
  if negb (nonempty prices) && use_mock_fallback && mock_provider_imported E
  then try_except (call_mock state district crop_name price_date)
                  (fun _ => ret prices)
  else ret prices.

(** Filtering and building the response. *)
Definition finalize (prices : list CropPrice) (last_error : option exn)
  : M PriceResponse :=
  let prices := post_filter district crop_name prices in
  if negb (nonempty prices)
  then respond false [] 0 state district crop_name
               (failure_message state district crop_name last_error)
  else respond true prices (length prices) state district crop_name
               ("Successfully fetched " +:+ PyStr.of_nat (length prices)
                +:+ " price entries").

(** The live path, from the retry loop to the response. *)
Definition live_path : M PriceResponse :=
  looped <- retry_loop MAX_RETRIES RETRY_DELAY (seq 0 MAX_RETRIES) [] None ;;
  let '(prices, last_error) := looped in
  prices <- failover prices last_error ;;
  prices <- mock_fallback prices ;;
  finalize prices last_error.

(** The body of [if use_mock_only:]. *)
Definition mock_only_path : M PriceResponse :=
  early <-
    (if mock_provider_imported E
     then
       try_except
         (prices <- call_mock state district crop_name price_date ;;
          if nonempty prices
          then
            let prices := by_crop crop_name (by_district district prices) in
            r <- respond true prices (length prices) state district crop_name
                   ("Successfully fetched " +:+ PyStr.of_nat (length prices)
                    +:+ " mock price entries (dev mode)") ;;
            ret (Some r)
          else ret None)
         (fun _ => ret None)
     else ret None) ;;
  match early with
  | Some r => ret r
  | None => respond false [] 0 state district crop_name
                    "Mock data provider unavailable"
  end.

End Live.

(** [get_crop_prices(state, district, crop_name, price_date, data_source,
    use_mock_fallback, use_mock_only)].  The defaults of the Python
    signature are [None] for the optional arguments, ["agmarknet"] for
    [data_source] and [True] for [use_mock_fallback]; here every argument is
    passed. *)
Definition get_crop_prices (state : string) (district crop_name : option string)
           (price_date : option date) (data_source : string)
           (use_mock_fallback : bool) (use_mock_only : option bool)
  : M PriceResponse :=
  if negb (PyStr.truthy state) || negb (PyStr.truthy (PyStr.strip state))
  then raise (ValueError "State parameter is required and cannot be empty")
  else
    let state := normalize state in
    let district := normalize_opt district in
    let crop_name := normalize_opt crop_name in
    let use_mock_only :=
      match use_mock_only with None => DEV_MODE E | Some b => b end in
    if use_mock_only
    then mock_only_path state district crop_name price_date
    else live_path state district crop_name price_date data_source use_mock_fallback.

End Orchestrator.

(* ===================================================================== *)
(** * Vocabulary of the properties                                       *)
(* ===================================================================== *)

Section Vocabulary.

Context {str_methods : PyStr.Methods}.

(** ** Records *)

(** The raw mapping [raw] has every required field, each of a type its
    field accepts, and these are the fields of [c]. *)
Definition typed_input {pydantic : Pydantic} (raw : kwargs) (c : CropPrice) : Prop :=
  (exists v, raw !! "crop_name" = Some v /\ validate_str v = Some (crop_name c))
  /\ (exists v, raw !! "min_price" = Some v /\ validate_float v = Some (min_price c))
  /\ (exists v, raw !! "max_price" = Some v /\ validate_float v = Some (max_price c))
  /\ (exists v, raw !! "modal_price" = Some v /\ validate_float v = Some (modal_price c))
  /\ (exists v, raw !! "market_name" = Some v /\ validate_str v = Some (market_name c))
  /\ (exists v, raw !! "district" = Some v /\ validate_str v = Some (district c))
  /\ (exists v, raw !! "state" = Some v /\ validate_str v = Some (state c))
  /\ (exists v, raw !! "price_date" = Some v /\ validate_date v = Some (price_date c))
  /\ match raw !! "unit" with
     | Some v => validate_str v = Some (unit c)
     | None => unit c = "Quintal"
     end.

Definition price_constraints (c : CropPrice) : Prop :=
  fle fzero (min_price c) = true
  /\ fle fzero (max_price c) = true
  /\ fle fzero (modal_price c) = true
  /\ fle (min_price c) (max_price c) = true
  /\ fle (min_price c) (modal_price c) = true
  /\ fle (modal_price c) (max_price c) = true.

(** A field that fails reports at least one line. *)
Definition reports {A} (r : field_result A) : Prop :=
  match r with inl [] => False | _ => True end.

(** The example of [CropPrice.Config], as raw data. *)
Definition example_raw : kwargs :=
  list_to_map
    [ ("crop_name", PyStr "Wheat"); ("min_price", PyFloat (fl 2100));
      ("max_price", PyFloat (fl 2300)); ("modal_price", PyFloat (fl 2200));
      ("market_name", PyStr "Azadpur Mandi"); ("district", PyStr "North Delhi");
      ("state", PyStr "Delhi"); ("price_date", PyDate (mkDate 2024 1 15));
      ("unit", PyStr "Quintal") ].

Definition example_price : CropPrice :=
  mkCropPrice "Wheat" (fl 2100) (fl 2300) (fl 2200) "Azadpur Mandi" "North Delhi"
              "Delhi" (mkDate 2024 1 15) "Quintal".

(** A response built with a count of 99 for one record has count 1. *)
Definition miscounted_raw : kwargs :=
  <["count" := PyInt 99]> (response_kwargs true [example_price] 1 "Delhi" None None "ok").

Definition ten_thirty : datetime := mkDatetime (mkDate 2024 1 15) 37800 0.

Definition recounted : PriceResponse :=
  mkPriceResponse true [example_price] 1 "Delhi" None None ten_thirty (Some "ok").

(** ** The mock catalog *)

(** The states of the catalog, each once, in order of first appearance. *)
Definition catalog_states : list string := remove_dups (map e_state all_crops).

(** The record made from a catalog entry for a given date. *)
Definition stamp (price_date : date) (e : crop_entry) : CropPrice :=
  mkCropPrice (e_crop_name e) (e_min_price e) (e_max_price e) (e_modal_price e)
              (e_market_name e) (e_district e) (e_state e) price_date "Quintal".

(** A filter is given when it is neither [None] nor empty; an entry passes a
    filter that is not given. *)
Definition passes (wanted : option string) (actual : string) : bool :=
  match wanted with
  | Some w => if PyStr.truthy w then same_ci actual w else true
  | None => true
  end.

(** The entry matches the state, and the district and crop when given. *)
Definition matches (state : string) (district crop_name : option string)
           (e : crop_entry) : bool :=
  same_ci (e_state e) state
  && (passes district (e_district e) && passes crop_name (e_crop_name e)).

(** The part of the catalog a query selects, stamped with the date. *)
Definition catalog_subset (today : date) (state : string)
           (district crop_name : option string) (price_date : option date)
  : list CropPrice :=
  map (stamp (default today price_date))
      (List.filter (matches state district crop_name) all_crops).

(** The prices of a catalog entry satisfy the constraints of [CropPrice]. *)
Definition entry_ok (e : crop_entry) : Prop :=
  fle fzero (e_min_price e) = true
  /\ fle fzero (e_max_price e) = true
  /\ fle fzero (e_modal_price e) = true
  /\ fle (e_min_price e) (e_max_price e) = true
  /\ fle (e_min_price e) (e_modal_price e) = true
  /\ fle (e_modal_price e) (e_max_price e) = true.

(** The claim that the catalog spans five states. *)
Definition ten_entries_five_states : Prop :=
  length all_crops = 10%nat /\ length catalog_states = 5%nat.

(** ** The orchestrator *)

(** The adapter a [data_source] names, if any. *)
Definition selected_source (data_source : string) : option source :=
  if String.eqb (PyStr.lower data_source) "agmarknet" then Some Agmarknet
  else if String.eqb (PyStr.lower data_source) "enam" then Some Enam
  else None.

Definition other_source (src : source) : source :=
  match src with Agmarknet => Enam | Enam => Agmarknet end.

(** What the [n]-th call of the adapter of [src] does. *)
Definition adapter_outcome (E : environment) (src : source) (state : string)
           (district crop_name : option string) (price_date : option date) (n : nat)
  : result (list CropPrice) :=
  match src with
  | Agmarknet => fetch_agmarknet_prices E state district crop_name price_date n
  | Enam => fetch_enam_prices E state district crop_name n
  end.

(** The call is in live mode: [use_mock_only] resolves to false. *)
Definition live_mode (E : environment) (use_mock_only : option bool) : Prop :=
  default (DEV_MODE E) use_mock_only = false.

Definition mock_only_mode (E : environment) (use_mock_only : option bool) : Prop :=
  default (DEV_MODE E) use_mock_only = true.

(** The text consists of ASCII whitespace only (it may be empty). *)
Fixpoint ascii_blank (s : string) : bool :=
  match s with
  | EmptyString => true
  | String c r => PyStr.is_space c && ascii_blank r
  end.

(** The state passes the input validation. *)
Definition state_given (state : string) : Prop := PyStr.strip state <> "".

(** An attempt raised [NetworkError] or [DataSourceError]. *)
Definition raises_retryable {A} (o : result A) : Prop :=
  exists e, o = Raises e /\ is_network_or_source e = true.

(** An attempt returned a non-empty list. *)
Definition produces (o : result (list CropPrice)) : Prop :=
  exists ps, o = Returns ps /\ ps <> [].

(** An attempt after which the retry loop goes on: it returned the empty
    list or raised a retryable error. *)
Definition goes_on (o : result (list CropPrice)) : Prop :=
  o = Returns [] \/ raises_retryable o.

(** The events of the attempts numbered [attempts] that all go on, the first
    of them being call number [base] of the adapter: a fetch, followed by a
    sleep when the attempt raised and is not the last one. *)
Fixpoint attempt_events (src : source) (outcome : nat -> result (list CropPrice))
         (max_retries : nat) (retry_delay : Z) (base : nat) (attempts : list nat)
  : trace :=
  match attempts with
  | [] => []
  | attempt :: rest =>
      Fetch src
      :: match outcome base with
         | Raises _ =>
             if (attempt <? max_retries - 1)%nat
             then [Sleep (retry_delay * (Z.of_nat attempt + 1))] else []
         | Returns _ => []
         end
      ++ attempt_events src outcome max_retries retry_delay (S base) rest
  end.

(** The error recorded last by [count] attempts that all go on. *)
Fixpoint last_raised (outcome : nat -> result (list CropPrice)) (base count : nat)
         (last_error : option exn) : option exn :=
  match count with
  | O => last_error
  | S count' =>
      last_raised outcome (S base) count'
        (match outcome base with
         | Raises e => Some e
         | Returns _ => last_error
         end)
  end.

(** The schedule when every attempt raises: fetch, sleep [retry_delay * 1],
    fetch, sleep [retry_delay * 2], ..., fetch. *)
Definition backoff (src : source) (max_retries : nat) (retry_delay : Z) : trace :=
  flat_map (fun attempt =>
              Fetch src :: if (attempt <? max_retries - 1)%nat
                           then [Sleep (retry_delay * (Z.of_nat attempt + 1))]
                           else [])
           (seq 0 max_retries).

(** [1 + 2 + ... + n] *)
Fixpoint triangle (n : nat) : Z :=
  match n with
  | O => 0
  | S m => triangle m + Z.of_nat n
  end.

(** ** After the retry loop *)

(** The source the failover turns to. *)
Definition fallback_of (data_source : string) : source :=
  if String.eqb (PyStr.lower data_source) "agmarknet" then Enam else Agmarknet.

(** The records and the trace after the failover step. *)
Definition failover_step (E : environment) (st : string) (d c : option string)
           (pd : option date) (ds : string) (prices : list CropPrice)
           (last_error : option exn) (tr : trace) : list CropPrice * trace :=
  if negb (nonempty prices) && bool_decide (is_Some last_error)
  then (match adapter_outcome E (fallback_of ds) st d c pd
                              (fetches (fallback_of ds) tr) with
        | Returns ps => ps
        | Raises _ => prices
        end, tr ++ [Fetch (fallback_of ds)])
  else (prices, tr).

(** The records and the trace after the mock fallback step. *)
Definition mock_step (E : environment) (st : string) (d c : option string)
           (pd : option date) (use_mock_fallback : bool) (prices : list CropPrice)
           (tr : trace) : list CropPrice * trace :=
  if negb (nonempty prices) && use_mock_fallback && mock_provider_imported E
  then (catalog_subset (today E) st d c pd, tr ++ [MockCall])
  else (prices, tr).

(** The two responses of the live path. *)
Definition failure_response {pydantic : Pydantic} (E : environment) (st : string)
           (d c : option string) (last_error : option exn) : PriceResponse :=
  mkPriceResponse false [] 0 st d c (now E) (Some (failure_message st d c last_error)).

Definition success_response (E : environment) (st : string) (d c : option string)
           (kept : list CropPrice) : PriceResponse :=
  mkPriceResponse true kept (Z.of_nat (length kept)) st d c (now E)
    (Some ("Successfully fetched " +:+ PyStr.of_nat (length kept) +:+ " price entries")).

Definition final_response {pydantic : Pydantic} (E : environment) (st : string)
           (d c : option string) (prices : list CropPrice) (last_error : option exn)
  : PriceResponse :=
  match post_filter d c prices with
  | [] => failure_response E st d c last_error
  | kept => success_response E st d c kept
  end.

(** ** Environments of the examples *)

(** Environments used in the examples below. *)
Definition jan15 : date := mkDate 2024 1 15.

(** Both portals answer 200: the stubs raise [DataSourceError] each time. *)
Definition portals_up : environment :=
  repository_environment (fun _ => Status 200) (fun _ => Status 200) false jan15 ten_thirty.

Definition ludhiana_wheat : CropPrice :=
  mkCropPrice "Wheat" (fl 2050) (fl 2250) (fl 2150) "Khanna Mandi" "Ludhiana" "Punjab"
              jan15 "Quintal".

(** A working AGMARKNET adapter whose first call times out and whose later
    calls return one record; e-NAM is down. *)
Definition agmarknet_recovers : environment :=
  {| fetch_agmarknet_prices := fun _ _ _ _ n =>
       match n with
       | O => Raises (NetworkError "timeout" None)
       | _ => Returns [ludhiana_wheat]
       end;
     fetch_enam_prices := fun _ _ _ _ => Raises (NetworkError "down" None);
     mock_provider_imported := true;
     DEV_MODE := false;
     today := jan15;
     now := ten_thirty |}.

(** An AGMARKNET adapter whose first call fails and whose later calls find
    nothing, without raising; e-NAM is down. *)
Definition agmarknet_fails_then_empty : environment :=
  {| fetch_agmarknet_prices := fun _ _ _ _ n =>
       match n with
       | O => Raises (NetworkError "timeout" None)
       | _ => Returns []
       end;
     fetch_enam_prices := fun _ _ _ _ => Raises (NetworkError "down" None);
     mock_provider_imported := true;
     DEV_MODE := false;
     today := jan15;
     now := ten_thirty |}.

(** An AGMARKNET adapter that always returns the Ludhiana record. *)
Definition agmarknet_ludhiana : environment :=
  {| fetch_agmarknet_prices := fun _ _ _ _ _ => Returns [ludhiana_wheat];
     fetch_enam_prices := fun _ _ _ _ => Raises (NetworkError "down" None);
     mock_provider_imported := true;
     DEV_MODE := false;
     today := jan15;
     now := ten_thirty |}.

(** The sentence of C2 on an empty last attempt: whenever the last primary
    attempt returns the empty list without raising, after attempts that all
    went on, the other source is not called. *)
Definition failover_skipped_when_last_attempt_empty : Prop :=
  forall (E : environment) (state : string) (district crop_name : option string)
         (requested : option date) (data_source : string) (use_mock_fallback : bool)
         (use_mock_only : option bool) (src : source) (tr : trace),
    state_given state ->
    live_mode E use_mock_only ->
    selected_source data_source = Some src ->
    let outcome := adapter_outcome E src (normalize state) (normalize_opt district)
                                   (normalize_opt crop_name) requested in
    (forall j, (j < MAX_RETRIES - 1)%nat -> goes_on (outcome (fetches src tr + j)%nat)) ->
    outcome (fetches src tr + (MAX_RETRIES - 1))%nat = Returns [] ->
    fetches (other_source src)
            (get_crop_prices (pydantic := strict_mode) E state district crop_name
                 requested data_source use_mock_fallback use_mock_only tr).2
    = fetches (other_source src) tr.

(** An attempt that does not abort the call: it returns, or it raises
    [NetworkError] or [DataSourceError]. *)
Definition benign (o : result (list CropPrice)) : Prop :=
  (exists ps, o = Returns ps) \/ raises_retryable o.

(** What the retry loop ends with when none of its [count] attempts aborts
    the call: the records of the first attempt that returns a non-empty
    list, none when there is no such attempt... *)
Fixpoint loop_records (outcome : nat -> result (list CropPrice)) (base count : nat)
  : list CropPrice :=
  match count with
  | O => []
  | S count' =>
      match outcome base with
      | Returns (p :: ps) => p :: ps
      | _ => loop_records outcome (S base) count'
      end
  end.

(** ... and the error of the last attempt that raised before the loop
    ended, if any attempt raised. *)
Fixpoint loop_error (outcome : nat -> result (list CropPrice)) (base count : nat)
         (last_error : option exn) : option exn :=
  match count with
  | O => last_error
  | S count' =>
      match outcome base with
      | Returns (_ :: _) => last_error
      | Returns [] => loop_error outcome (S base) count' last_error
      | Raises e => loop_error outcome (S base) count' (Some e)
      end
  end.

(** The sentence of C4 on success: whenever the first primary attempt
    returns records, the response has [success = true]. *)
Definition success_whenever_records_obtained : Prop :=
  forall (E : environment) (state : string) (district crop_name : option string)
         (requested : option date) (data_source : string) (use_mock_fallback : bool)
         (use_mock_only : option bool) (src : source) (tr : trace)
         (ps : list CropPrice),
    state_given state ->
    live_mode E use_mock_only ->
    selected_source data_source = Some src ->
    adapter_outcome E src (normalize state) (normalize_opt district)
                    (normalize_opt crop_name) requested (fetches src tr) = Returns ps ->
    ps <> [] ->
    exists response final,
      get_crop_prices (pydantic := strict_mode) E state district crop_name requested
          data_source use_mock_fallback use_mock_only tr = (Returns response, final)
      /\ success response = true.

(** The two responses of the mock-only path. *)
Definition mock_success_response (E : environment) (st : string) (d c : option string)
           (records : list CropPrice) : PriceResponse :=
  mkPriceResponse true records (Z.of_nat (length records)) st d c (now E)
    (Some ("Successfully fetched " +:+ PyStr.of_nat (length records)
           +:+ " mock price entries (dev mode)")).

Definition mock_unavailable_response (E : environment) (st : string)
           (d c : option string) : PriceResponse :=
  mkPriceResponse false [] 0 st d c (now E) (Some "Mock data provider unavailable").

(* ===================================================================== *)
(** * The rest of the code: definitions                                   *)
(* ===================================================================== *)

(** ** crop_price_fetcher.py: parse_price_data *)

(** [parse_price_data(raw_data)]: each item is given to [CropPrice]; the
    first item that fails stops the loop with a [DataValidationError]. *)
Fixpoint parse_price_data {pydantic : Pydantic} (raw_data : list kwargs)
  : result (list CropPrice) :=
  match raw_data with
  | [] => Returns []
  | item :: rest =>
      match construct (CropPrice_new item) with
      | Raises e =>
          Raises (DataValidationError ("Invalid price data format: " +:+ exn_str e))
      | Returns price =>
          match parse_price_data rest with
          | Raises e => Raises e
          | Returns prices => Returns (price :: prices)
          end
      end
  end.

(** The item [item] is accepted as the record [p]. *)
Definition accepted_as {pydantic : Pydantic} (item : kwargs) (p : CropPrice) : Prop :=
  typed_input item p /\ price_constraints p.

(** ** Inputs and environments of the examples *)

(** A batch of two items, the second with a modal price above the maximum. *)
Definition bad_modal_raw : kwargs := <["modal_price" := PyFloat (fl 2400)]> example_raw.

(** The names of the fields of [CropPrice]. *)
Definition CropPrice_fields : list string :=
  ["crop_name"; "min_price"; "max_price"; "modal_price"; "market_name"; "district";
   "state"; "price_date"; "unit"].

(** A record with all three prices in disorder: only [max_price] is reported. *)
Definition disordered_raw : kwargs :=
  <["max_price" := PyFloat (fl 2000)]> (<["modal_price" := PyFloat (fl 9000)]> example_raw).

Definition disordered_price : CropPrice :=
  mkCropPrice "Wheat" (fl 2100) (fl 2000) (fl 9000) "Azadpur Mandi" "North Delhi"
              "Delhi" (mkDate 2024 1 15) "Quintal".

(** A response built without [data], with a count of 7. *)
Definition no_data_raw : kwargs :=
  list_to_map [("success", PyBool false); ("count", PyInt 7); ("state", PyStr "Goa")].

(** The adapter returns records of two districts; the request names one. *)
Definition amritsar_wheat : CropPrice :=
  mkCropPrice "Wheat" (fl 2000) (fl 2200) (fl 2100) "Amritsar Mandi" "Amritsar" "Punjab"
              jan15 "Quintal".

Definition agmarknet_two_districts : environment :=
  {| fetch_agmarknet_prices := fun _ _ _ _ _ => Returns [ludhiana_wheat; amritsar_wheat];
     fetch_enam_prices := fun _ _ _ _ => Raises (NetworkError "down" None);
     mock_provider_imported := true;
     DEV_MODE := false;
     today := jan15;
     now := ten_thirty |}.

Definition amritsar_response : PriceResponse :=
  mkPriceResponse true [amritsar_wheat] 1 "Punjab" (Some "Amritsar") None ten_thirty
                  (Some "Successfully fetched 1 price entries").

(** ** What a call costs *)

(** Number of calls of the mock provider. *)
Definition mock_calls (tr : trace) : nat :=
  length (List.filter (fun ev => match ev with MockCall => true | _ => false end) tr).

(** Number of calls of the two adapters. *)
Definition adapter_calls (tr : trace) : nat :=
  (fetches Agmarknet tr + fetches Enam tr)%nat.

(** The sleep of the attempts [attempts] when each of them fails. *)
Fixpoint sleep_budget (max_retries : nat) (retry_delay : Z) (attempts : list nat) : Z :=
  match attempts with
  | [] => 0
  | attempt :: rest =>
      (if (attempt <? max_retries - 1)%nat
       then retry_delay * (Z.of_nat attempt + 1) else 0)
      + sleep_budget max_retries retry_delay rest
  end.

(** The events [ext] cost at most [calls] adapter calls, [mocks] calls of
    the mock provider and [slept] seconds of sleep. *)
Definition costs_at_most (ext : trace) (calls mocks : nat) (slept : Z) : Prop :=
  (adapter_calls ext <= calls)%nat
  /\ (mock_calls ext <= mocks)%nat
  /\ (0 <= total_sleep ext <= slept)%Z.

(** An AGMARKNET adapter whose second call raises what its docstring
    announces for missing data. *)
Definition agmarknet_not_found : environment :=
  {| fetch_agmarknet_prices := fun _ _ _ _ n =>
       match n with
       | O => Raises (NetworkError "timeout" None)
       | _ => Raises (DataNotFoundError "no rows" (Some "Punjab") None)
       end;
     fetch_enam_prices := fun _ _ _ _ => Returns [ludhiana_wheat];
     mock_provider_imported := true;
     DEV_MODE := false;
     today := jan15;
     now := ten_thirty |}.

(** AGMARKNET is down, e-NAM answers with one record. *)
Definition enam_answers : environment :=
  {| fetch_agmarknet_prices := fun _ _ _ _ _ => Raises (NetworkError "down" (Some 503%Z));
     fetch_enam_prices := fun _ _ _ _ => Returns [ludhiana_wheat];
     mock_provider_imported := true;
     DEV_MODE := false;
     today := jan15;
     now := ten_thirty |}.

(** The filter an optional argument gives ([if district:]): none when the
    argument is [None] or the empty string. *)
Definition given_filter (o : option string) : option string :=
  match o with
  | Some w => if PyStr.truthy w then Some w else None
  | None => None
  end.

(** Two optional arguments that ask for the same thing: both give no filter
    (each is [None] or empty), or both give one and the two are equal
    without case. *)
Definition same_wanted (a b : option string) : Prop :=
  match given_filter a, given_filter b with
  | Some x, Some y => PyStr.lower x = PyStr.lower y
  | None, None => True
  | _, _ => False
  end.

(** ** fastapi_integration_example.py: the route fetch_crop_prices *)

(** How a call of the route ends: it returns the response, which is sent
    with status 200, or it raises [HTTPException(status_code, detail)]. *)
Inductive route_result : Type :=
| Responds (body : PriceResponse)
| RaisesHTTP (status_code : Z) (detail : string).

(** What can be raised inside the [try:] of the route: an exception of the
    orchestrator, or the [HTTPException] the route raises itself. *)
Inductive raised_in_route : Type :=
| Called (e : exn)
| OwnHTTPException (status_code : Z) (detail : string).

(** [not response.success or response.count == 0] *)
Definition no_data (response : PriceResponse) : bool :=
  negb (success response) || (count response =? 0)%Z.

(** [response.message or "No price data found for the given parameters"] *)
Definition detail_of (response : PriceResponse) : string :=
  match message response with
  | Some m => if PyStr.truthy m then m else "No price data found for the given parameters"
  | None => "No price data found for the given parameters"
  end.

(** The body of the [try:]. *)
Definition route_try {pydantic : Pydantic} (E : environment) (state : string)
           (district crop_name : option string) (price_date : option date)
           (data_source : string) (use_mock_fallback : bool)
           (use_mock_only : option bool)
  : trace -> (raised_in_route + PriceResponse) * trace :=
  fun tr =>
    match get_crop_prices E state district crop_name price_date data_source
                          use_mock_fallback use_mock_only tr with
    | (Returns response, tr') =>
        if no_data response
        then (inl (OwnHTTPException 404 (detail_of response)), tr')
        else (inr response, tr')
    | (Raises e, tr') => (inl (Called e), tr')
    end.

(** The [except] clauses of the route, in their order: [DataNotFoundError],
    [NetworkError], [CropPriceError] (with its remaining subclasses), and
    [Exception], which also catches the route's own [HTTPException]. *)
Definition route_except {pydantic : Pydantic}
           (http_exception_str : Z -> string -> string) (x : raised_in_route) : route_result :=
  match x with
  | Called (DataNotFoundError _ _ _ as e) => RaisesHTTP 404 (exn_str e)
  | Called (NetworkError _ _ as e) => RaisesHTTP 503 ("Network error: " +:+ exn_str e)
  | Called (CropPriceError _ as e)
  | Called (DataSourceError _ _ as e)
  | Called (DataValidationError _ as e) =>
      RaisesHTTP 500 ("Error fetching prices: " +:+ exn_str e)
  | Called e => RaisesHTTP 500 ("Unexpected error: " +:+ exn_str e)
  | OwnHTTPException status_code detail =>
      RaisesHTTP 500 ("Unexpected error: " +:+ http_exception_str status_code detail)
  end.

(** [fetch_crop_prices(state, district, crop_name, price_date, data_source,
    use_mock_fallback, use_mock_only)]; [http_exception_str] is [str(e)] of
    an [HTTPException], which belongs to the web framework. *)
Definition fetch_crop_prices {pydantic : Pydantic}
           (http_exception_str : Z -> string -> string) (E : environment) (state : string)
           (district crop_name : option string) (price_date : option date)
           (data_source : string) (use_mock_fallback : bool)
           (use_mock_only : option bool) : trace -> route_result * trace :=
  fun tr =>
    match route_try E state district crop_name price_date data_source
                    use_mock_fallback use_mock_only tr with
    | (inr response, tr') => (Responds response, tr')
    | (inl x, tr') => (route_except http_exception_str x, tr')
    end.

(** The text of an [HTTPException] as Starlette prints it. *)
Definition starlette_str (status_code : Z) (detail : string) : string :=
  PyStr.of_Z status_code +:+ ": " +:+ detail.

End Vocabulary.

(* ===================================================================== *)
(** * Properties                                                          *)
(* ===================================================================== *)

(** ** Strings *)

Section AsciiText.

Context {str_methods : PyStr.Methods}.

Lemma map_lower_ascii (l : list string) :
  forallb PyStr.is_ascii l = true -> map PyStr.lower l = map PyStr.ascii_lower l.
Proof.
  induction l as [|x l IH]; simpl; [reflexivity|].
  intros H. apply andb_true_iff in H as [Hx Hl].
  now rewrite (PyStr.lower_ascii x Hx), IH.
Qed.

Lemma same_ci_ascii (a b : string) :
  PyStr.is_ascii a = true -> PyStr.is_ascii b = true ->
  same_ci a b = String.eqb (PyStr.ascii_lower a) (PyStr.ascii_lower b).
Proof.
  intros Ha Hb. unfold same_ci.
  now rewrite (PyStr.lower_ascii a Ha), (PyStr.lower_ascii b Hb).
Qed.

End AsciiText.

(** ** Floats *)

Lemma fle_zero_not_nan (f : pyfloat) : fle fzero f = true -> f <> FNaN.
Proof. destruct f; simpl; congruence. Qed.

(** Between two non-negative prices, [not (b < a)] is [a <= b]. *)
Lemma flt_false_fle (a b : pyfloat) :
  fle fzero a = true -> fle fzero b = true -> flt b a = false -> fle a b = true.
Proof.
  destruct a, b; simpl; try congruence.
  intros _ _ H. now apply negb_false_iff in H.
Qed.

Lemma fle_flt_false (a b : pyfloat) : fle a b = true -> flt b a = false.
Proof.
  destruct a, b; simpl; try congruence.
  intros H. now rewrite H.
Qed.

(** ** CropPrice *)

Section CropPriceFacts.

Context {str_methods : PyStr.Methods} {pydantic : Pydantic}.

Lemma required_inr {A} raw name (validate : pyval -> option A) a :
  required raw name validate = inr a <->
  exists v, raw !! name = Some v /\ validate v = Some a.
Proof.
  unfold required. split.
  - destruct (raw !! name) as [v|]; [|discriminate].
    destruct (validate v) eqn:Hv; [|discriminate].
    intros [= <-]. eauto.
  - intros (v & -> & ->). reflexivity.
Qed.

Lemma with_default_inr {A} raw name (validate : pyval -> option A) dflt a :
  with_default raw name validate dflt = inr a <->
  match raw !! name with
  | Some v => validate v = Some a
  | None => a = dflt
  end.
Proof.
  unfold with_default. destruct (raw !! name) as [v|].
  - destruct (validate v); split; congruence.
  - split; congruence.
Qed.

Lemma ge0_inr name r f :
  ge0 name r = inr f <-> r = inr f /\ fle fzero f = true.
Proof.
  unfold ge0. destruct r as [e|g]; [split; [discriminate|intros [? _]; discriminate]|].
  destruct (fle fzero g) eqn:Hg; split.
  - intros [= <-]. auto.
  - intros [[= <-] _]. reflexivity.
  - discriminate.
  - intros [[= <-] ?]. congruence.
Qed.

Lemma required_reports {A} raw name (validate : pyval -> option A) :
  reports (required raw name validate).
Proof. unfold required. repeat case_match; exact I. Qed.

Lemma with_default_reports {A} raw name (validate : pyval -> option A) dflt :
  reports (with_default raw name validate dflt).
Proof. unfold with_default. repeat case_match; exact I. Qed.

Lemma ge0_reports name r : reports r -> reports (ge0 name r).
Proof. unfold ge0. destruct r as [[|]|]; simpl; try tauto. intros _. case_match; exact I. Qed.

Lemma after_reports {A} name (check : A -> string + A) r :
  reports r -> reports (after name check r).
Proof. unfold after. destruct r as [[|]|]; simpl; try tauto. intros _. case_match; exact I. Qed.

Lemma reports_errors {A} (r : field_result A) :
  reports r -> in_data r = None -> errors_of r <> [].
Proof. destruct r as [[|]|]; simpl; intros; congruence || tauto. Qed.

Lemma after_inr {A} name (check : A -> string + A) r a :
  after name check r = inr a <-> exists b, r = inr b /\ check b = inr a.
Proof.
  unfold after. destruct r as [e|b].
  - split; [discriminate|]. intros (? & ? & _). discriminate.
  - destruct (check b) eqn:Hc; split.
    + discriminate.
    + intros (? & [= <-] & ?). congruence.
    + intros [= <-]. eauto.
    + intros (? & [= <-] & ?). congruence.
Qed.

(** Construction succeeds exactly on the well-typed inputs that meet the
    price constraints. *)
Lemma CropPrice_new_sound raw c :
  CropPrice_new raw = inr c -> typed_input raw c /\ price_constraints c.
Proof.
  unfold CropPrice_new. intros H.
  destruct (required raw "crop_name" validate_str) as [|cn] eqn:H1; [discriminate|].
  destruct (ge0 "min_price" _) as [|mn] eqn:H2; [discriminate|].
  cbn [in_data] in H.
  destruct (after "max_price" _ _) as [|mx] eqn:H3; [discriminate|].
  cbn [in_data] in H.
  destruct (after "modal_price" _ _) as [|md] eqn:H4; [discriminate|].
  destruct (required raw "market_name" validate_str) as [|mk] eqn:H5; [discriminate|].
  destruct (required raw "district" validate_str) as [|di] eqn:H6; [discriminate|].
  destruct (required raw "state" validate_str) as [|st] eqn:H7; [discriminate|].
  destruct (required raw "price_date" validate_date) as [|pd] eqn:H8; [discriminate|].
  destruct (with_default raw "unit" validate_str "Quintal") as [|un] eqn:H9;
    [discriminate|].
  injection H as <-.
  apply required_inr in H1, H5, H6, H7, H8.
  apply ge0_inr in H2 as [H2 Hmn]. apply required_inr in H2.
  apply after_inr in H3 as (mx' & H3 & Hmax).
  apply ge0_inr in H3 as [H3 Hmx]. apply required_inr in H3.
  apply after_inr in H4 as (md' & H4 & Hmodal).
  apply ge0_inr in H4 as [H4 Hmd]. apply required_inr in H4.
  apply with_default_inr in H9.
  unfold validate_max_price in Hmax.
  destruct (flt mx' mn) eqn:Hlt; [discriminate|]. injection Hmax as ->.
  unfold validate_modal_price in Hmodal.
  destruct (fle mn md' && fle md' mx) eqn:Hbetween; [|discriminate].
  injection Hmodal as ->. apply andb_true_iff in Hbetween as [Hlo Hhi].
  split.
  - unfold typed_input; cbn. repeat split; assumption.
  - unfold price_constraints; cbn. repeat split; try assumption.
    now apply flt_false_fle.
Qed.

Lemma CropPrice_new_complete raw c :
  typed_input raw c -> price_constraints c -> CropPrice_new raw = inr c.
Proof.
  destruct c as [cn mn mx md mk di st pd un].
  unfold typed_input, price_constraints;
    cbn [crop_name min_price max_price modal_price market_name district state
         price_date unit].
  intros (H1 & H2 & H3 & H4 & H5 & H6 & H7 & H8 & H9)
         (Hmn & Hmx & Hmd & Hle & Hlo & Hhi).
  apply required_inr in H1, H2, H3, H4, H5, H6, H7, H8.
  assert (H9' : with_default raw "unit" validate_str "Quintal" = inr un)
    by (apply with_default_inr; destruct (raw !! "unit"); congruence).
  unfold CropPrice_new.
  rewrite H1, H2, H3, H4, H5, H6, H7, H8, H9'.
  cbn [ge0]. rewrite Hmn, Hmx, Hmd.
  cbn [after in_data validate_max_price].
  rewrite (fle_flt_false _ _ Hle).
  cbn [in_data validate_modal_price]. rewrite Hlo, Hhi. reflexivity.
Qed.

(** When construction fails, the error has at least one line. *)
Lemma CropPrice_new_failure raw errs :
  CropPrice_new raw = inl errs -> errs <> [].
Proof.
  unfold CropPrice_new.
  pose proof (required_reports raw "crop_name" validate_str) as R1.
  pose proof (ge0_reports "min_price" _ (required_reports raw "min_price" validate_float)) as R2.
  set (f1 := required raw "crop_name" validate_str) in *.
  set (f2 := ge0 "min_price" _) in *.
  pose proof (after_reports "max_price"
                (fun v => validate_max_price v (in_data f2)) _
                (ge0_reports "max_price" _
                   (required_reports raw "max_price" validate_float))) as R3.
  set (f3 := after "max_price" _ _) in *.
  pose proof (after_reports "modal_price"
                (fun v => validate_modal_price v (in_data f2) (in_data f3)) _
                (ge0_reports "modal_price" _
                   (required_reports raw "modal_price" validate_float))) as R4.
  set (f4 := after "modal_price" _ _) in *.
  pose proof (required_reports raw "market_name" validate_str) as R5.
  set (f5 := required raw "market_name" _) in *.
  pose proof (required_reports raw "district" validate_str) as R6.
  set (f6 := required raw "district" _) in *.
  pose proof (required_reports raw "state" validate_str) as R7.
  set (f7 := required raw "state" _) in *.
  pose proof (required_reports raw "price_date" validate_date) as R8.
  set (f8 := required raw "price_date" _) in *.
  pose proof (with_default_reports raw "unit" validate_str "Quintal") as R9.
  set (f9 := with_default raw "unit" _ _) in *.
  clearbody f1 f2 f3 f4 f5 f6 f7 f8 f9.
  destruct f1 as [[|? ?]|?]; [tauto | intros [= <-]; discriminate | clear R1].
  destruct f2 as [[|? ?]|?]; [tauto | intros [= <-]; discriminate | clear R2].
  destruct f3 as [[|? ?]|?]; [tauto | intros [= <-]; discriminate | clear R3].
  destruct f4 as [[|? ?]|?]; [tauto | intros [= <-]; discriminate | clear R4].
  destruct f5 as [[|? ?]|?]; [tauto | intros [= <-]; discriminate | clear R5].
  destruct f6 as [[|? ?]|?]; [tauto | intros [= <-]; discriminate | clear R6].
  destruct f7 as [[|? ?]|?]; [tauto | intros [= <-]; discriminate | clear R7].
  destruct f8 as [[|? ?]|?]; [tauto | intros [= <-]; discriminate | clear R8].
  destruct f9 as [[|? ?]|?]; [tauto | intros [= <-]; discriminate | clear R9].
  discriminate.
Qed.

End CropPriceFacts.

Section CropPriceClaims.

Context {str_methods : PyStr.Methods} {pydantic : Pydantic}.

(** C3. Construction of a [CropPrice] is all-or-nothing.  It succeeds, with
    the record [c], exactly when every required field is present with a
    value its type accepts and the prices are non-negative with
    [min_price <= max_price] and [min_price <= modal_price <= max_price];
    on every other input it fails with a validation error that has at
    least one line; and every constructed record satisfies
    [min_price <= modal_price <= max_price]. *)
Theorem CropPrice_construction_all_or_nothing (raw : kwargs) :
  (forall c, CropPrice_new raw = inr c <-> typed_input raw c /\ price_constraints c)
  /\ ((~ exists c, typed_input raw c /\ price_constraints c) ->
      exists errs, CropPrice_new raw = inl errs /\ errs <> [])
  /\ (forall c, CropPrice_new raw = inr c ->
                fle (min_price c) (modal_price c) = true
                /\ fle (modal_price c) (max_price c) = true).
Proof.
  split; [|split].
  - intros c. split.
    + apply CropPrice_new_sound.
    + intros [Ht Hp]. now apply CropPrice_new_complete.
  - intros Hnone. destruct (CropPrice_new raw) as [errs|c] eqn:Hnew.
    + exists errs. split; [reflexivity|]. now apply (CropPrice_new_failure raw).
    + exfalso. apply Hnone. exists c. now apply CropPrice_new_sound.
  - intros c Hc. apply CropPrice_new_sound in Hc as [_ Hp].
    unfold price_constraints in Hp. tauto.
Qed.

End CropPriceClaims.

(** The documented example is accepted; a modal price above the maximum, a
    negative price, a NaN and a missing field are refused. *)
Example CropPrice_example_accepted :
  CropPrice_new (pydantic := strict_mode) example_raw = inr example_price.
Proof. reflexivity. Qed.

Example CropPrice_modal_above_max_refused :
  CropPrice_new (pydantic := strict_mode) (<["modal_price" := PyFloat (fl 2400)]> example_raw)
  = inl [ValueErr "modal_price" "modal_price must be between min_price and max_price"].
Proof. reflexivity. Qed.

Example CropPrice_max_below_min_refused :
  CropPrice_new (pydantic := strict_mode) (<["max_price" := PyFloat (fl 2000)]> example_raw)
  = inl [ValueErr "max_price" "max_price must be greater than or equal to min_price"].
Proof. reflexivity. Qed.

Example CropPrice_negative_refused :
  CropPrice_new (pydantic := strict_mode) (<["min_price" := PyFloat (fl (-1))]> example_raw)
  = inl [Constraint "min_price" "Input should be greater than or equal to 0"].
Proof. reflexivity. Qed.

Example CropPrice_nan_refused :
  CropPrice_new (pydantic := strict_mode) (<["max_price" := PyFloat FNaN]> example_raw)
  = inl [Constraint "max_price" "Input should be greater than or equal to 0"].
Proof. reflexivity. Qed.

Example CropPrice_missing_refused :
  CropPrice_new (pydantic := strict_mode) (delete "state" example_raw) = inl [Missing "state"].
Proof. reflexivity. Qed.

(** ** PriceResponse *)

Section ResponseFacts.

Context {str_methods : PyStr.Methods} {pydantic : Pydantic}.

Lemma validate_items_instances (l : list CropPrice) :
  validate_items (map PyCropPrice l) = Some l.
Proof. induction l as [|c l IH]; simpl; [reflexivity|]. now rewrite IH. Qed.

(** The responses the orchestrator builds are always accepted, and their
    count is the length of the data. *)
Lemma PriceResponse_new_kwargs now success data count state district crop_name message :
  PriceResponse_new now
    (response_kwargs success data count state district crop_name message)
  = inr (mkPriceResponse success data (Z.of_nat (length data)) state district
           crop_name now (Some message)).
Proof.
  unfold PriceResponse_new, required, required_before, with_default.
  replace (response_kwargs success data count state district crop_name message !! "success")
    with (Some (PyBool success)) by reflexivity.
  replace (response_kwargs success data count state district crop_name message !! "data")
    with (Some (PyList (map PyCropPrice data))) by reflexivity.
  replace (response_kwargs success data count state district crop_name message !! "count")
    with (Some (PyInt (Z.of_nat count))) by reflexivity.
  replace (response_kwargs success data count state district crop_name message !! "state")
    with (Some (PyStr state)) by reflexivity.
  replace (response_kwargs success data count state district crop_name message !! "district")
    with (Some (opt_to_py district)) by reflexivity.
  replace (response_kwargs success data count state district crop_name message !! "crop_name")
    with (Some (opt_to_py crop_name)) by reflexivity.
  replace (response_kwargs success data count state district crop_name message !! "fetched_at")
    with (@None pyval) by reflexivity.
  replace (response_kwargs success data count state district crop_name message !! "message")
    with (Some (PyStr message)) by reflexivity.
  cbn [validate_bool validate_data validate_str].
  rewrite validate_items_instances.
  cbn [in_data set_count validate_int].
  destruct district, crop_name; reflexivity.
Qed.

(** C5. In every constructed [PriceResponse] the count is the length of
    the data, whatever value was passed for [count]. *)
Theorem PriceResponse_count_is_length (now : datetime) (raw : kwargs) (r : PriceResponse) :
  PriceResponse_new now raw = inr r -> count r = Z.of_nat (length (data r)).
Proof.
  unfold PriceResponse_new. intros H.
  destruct (required raw "success" validate_bool) as [|su]; [discriminate|].
  destruct (with_default raw "data" validate_data []) as [|da]; [discriminate|].
  cbn [in_data set_count] in H.
  destruct (required_before raw "count" _ validate_int) as [|co] eqn:Hco; [discriminate|].
  destruct (required raw "state" validate_str) as [|st]; [discriminate|].
  destruct (with_default raw "district" validate_opt_str None) as [|di]; [discriminate|].
  destruct (with_default raw "crop_name" validate_opt_str None) as [|cr]; [discriminate|].
  destruct (with_default raw "fetched_at" validate_datetime now) as [|fe]; [discriminate|].
  destruct (with_default raw "message" validate_opt_str None) as [|me]; [discriminate|].
  injection H as <-. cbn [count data].
  unfold required_before in Hco.
  destruct (raw !! "count"); [|discriminate].
  cbn [validate_int] in Hco. congruence.
Qed.

End ResponseFacts.

Lemma PriceResponse_count_is_length_witness :
  miscounted_raw !! "count" = Some (PyInt 99)
  /\ PriceResponse_new (pydantic := strict_mode) ten_thirty miscounted_raw = inr recounted
  /\ count recounted = Z.of_nat (length (data recounted)).
Proof.
  split; [reflexivity|]. split; [reflexivity|].
  apply (PriceResponse_count_is_length (pydantic := strict_mode) ten_thirty miscounted_raw).
  reflexivity.
Defined.

(** ** The mock catalog and provider *)

(** C7, as stated, fails: the ten entries span four states, not five. *)
Lemma catalog_does_not_span_five_states : ~ ten_entries_five_states.
Proof. unfold ten_entries_five_states. intros [_ H]. vm_compute in H. discriminate. Qed.

Lemma catalog_states_complete (e : crop_entry) :
  In e all_crops -> In (e_state e) catalog_states.
Proof.
  intros He. unfold catalog_states.
  apply list_elem_of_In, elem_of_remove_dups, list_elem_of_In, in_map, He.
Qed.

(** C7, amended. The catalog has exactly ten entries, and their states are
    exactly the four states Delhi, Punjab, Maharashtra and Tamil Nadu (also
    when compared without case). *)
Theorem catalog_ten_entries_four_states {str_methods : PyStr.Methods} :
  length all_crops = 10%nat
  /\ catalog_states = ["Delhi"; "Punjab"; "Maharashtra"; "Tamil Nadu"]
  /\ length catalog_states = 4%nat
  /\ NoDup (map PyStr.lower catalog_states)
  /\ (forall e, In e all_crops -> In (e_state e) catalog_states).
Proof.
  split; [reflexivity|]. split; [reflexivity|]. split; [reflexivity|]. split.
  - rewrite (map_lower_ascii catalog_states eq_refl).
    apply NoDup_ListNoDup. vm_compute. repeat constructor; simpl; intuition discriminate.
  - apply catalog_states_complete.
Qed.

Lemma all_crops_ok : Forall entry_ok all_crops.
Proof. repeat constructor. Qed.

Lemma filter_filter {A} (f g : A -> bool) (l : list A) :
  List.filter g (List.filter f l) = List.filter (fun x => f x && g x) l.
Proof.
  induction l as [|x l IH]; simpl; [reflexivity|].
  destruct (f x); simpl; [destruct (g x)|]; now rewrite IH.
Qed.

Lemma restrict_filter {str_methods : PyStr.Methods} {A} (key : A -> string) wanted
      (l : list A) :
  restrict key wanted l = List.filter (fun x => passes wanted (key x)) l.
Proof.
  unfold restrict, passes. destruct wanted as [w|].
  - destruct (PyStr.truthy w); [reflexivity|].
    induction l as [|x l IH]; simpl; congruence.
  - induction l as [|x l IH]; simpl; congruence.
Qed.

Lemma Forall_filter_keep {A} (P : A -> Prop) (f : A -> bool) (l : list A) :
  Forall P l -> Forall P (List.filter f l).
Proof.
  induction 1 as [|x l Hx Hl IH]; simpl; [constructor|].
  destruct (f x); [constructor|]; assumption.
Qed.

Section MockFacts.

Context {str_methods : PyStr.Methods} {pydantic : Pydantic}.

Lemma CropPrice_new_entry (e : crop_entry) (pd : date) :
  entry_ok e -> CropPrice_new (entry_kwargs e pd) = inr (stamp pd e).
Proof.
  intros (H1 & H2 & H3 & H4 & H5 & H6).
  apply CropPrice_new_complete.
  - unfold typed_input, stamp;
      cbn [crop_name min_price max_price modal_price market_name district state
           price_date unit].
    repeat split; try (eexists; split; [reflexivity|reflexivity]).
  - unfold price_constraints, stamp;
      cbn [crop_name min_price max_price modal_price market_name district state
           price_date unit].
    tauto.
Qed.

Lemma materialize_ok (l : list crop_entry) (pd : date) :
  Forall entry_ok l -> materialize l pd = Returns (map (stamp pd) l).
Proof.
  induction 1 as [|e l He Hl IH]; simpl; [reflexivity|].
  rewrite (CropPrice_new_entry e pd He). cbn [construct]. now rewrite IH.
Qed.

(** The provider returns the selected part of the catalog; it never raises. *)
Lemma get_mock_prices_subset today state district crop_name price_date :
  get_mock_prices today state district crop_name price_date
  = Returns (catalog_subset today state district crop_name price_date).
Proof.
  unfold get_mock_prices, catalog_subset.
  rewrite !restrict_filter, !filter_filter.
  rewrite materialize_ok by (apply Forall_filter_keep, all_crops_ok).
  destruct price_date; reflexivity.
Qed.

End MockFacts.

(** The catalog is ASCII text, so a query in ASCII text selects what the
    ASCII comparison selects. *)
Lemma all_crops_ascii :
  Forall (fun e => PyStr.is_ascii (e_state e) = true
                   /\ PyStr.is_ascii (e_district e) = true
                   /\ PyStr.is_ascii (e_crop_name e) = true) all_crops.
Proof. repeat constructor. Qed.

Lemma passes_ascii {str_methods : PyStr.Methods} (wanted : option string) (actual : string) :
  opt_is_ascii wanted = true -> PyStr.is_ascii actual = true ->
  passes wanted actual = @passes PyStr.ascii_methods wanted actual.
Proof.
  intros Hw Ha. unfold passes. destruct wanted as [w|]; [|reflexivity].
  destruct (PyStr.truthy w); [|reflexivity].
  rewrite !same_ci_ascii by assumption. reflexivity.
Qed.

Lemma catalog_filter_ascii {str_methods : PyStr.Methods} (state : string)
      (district crop_name : option string) :
  PyStr.is_ascii state = true ->
  opt_is_ascii district = true -> opt_is_ascii crop_name = true ->
  List.filter (matches state district crop_name) all_crops
  = List.filter (@matches PyStr.ascii_methods state district crop_name) all_crops.
Proof.
  intros Hs Hd Hc. apply filter_ext_in. intros e He.
  pose proof all_crops_ascii as Hall. rewrite List.Forall_forall in Hall.
  destruct (Hall e He) as (Hes & Hed & Hec).
  unfold matches.
  rewrite !same_ci_ascii, (passes_ascii district), (passes_ascii crop_name)
    by assumption.
  reflexivity.
Qed.

Lemma passes_true_iff {str_methods : PyStr.Methods} wanted actual :
  passes wanted actual = true <->
  forall w, wanted = Some w -> w <> "" -> PyStr.lower actual = PyStr.lower w.
Proof.
  unfold passes, same_ci. destruct wanted as [w|].
  - destruct w as [|a w]; cbn [PyStr.truthy].
    + split; [intros _ ? [= <-] ?; congruence | reflexivity].
    + rewrite String.eqb_eq. split.
      * intros H ? [= <-] _. exact H.
      * intros H. now apply H.
  - split; [intros _ ? ?; discriminate | reflexivity].
Qed.

(** C6. For every query the mock provider returns, without ever raising,
    exactly the catalog entries whose state is the given state up to case
    and, when a district or a crop is given, whose district and crop are the
    given ones up to case, in catalog order and each stamped with the given
    date or, by default, with the current date.  Delhi, North Delhi, Wheat
    selects exactly one record; nothing matching gives the empty list. *)
Theorem mock_provider_returns_matching_entries {str_methods : PyStr.Methods}
        {pydantic : Pydantic} (today : date) (state : string)
        (district crop_name : option string) (requested : option date) :
  let stamped := default today requested in
  let selected := List.filter (matches state district crop_name) all_crops in
  get_mock_prices today state district crop_name requested
  = Returns (map (stamp stamped) selected)
  /\ (forall e, In e selected <->
                In e all_crops
                /\ PyStr.lower (e_state e) = PyStr.lower state
                /\ (forall d, district = Some d -> d <> "" ->
                              PyStr.lower (e_district e) = PyStr.lower d)
                /\ (forall c, crop_name = Some c -> c <> "" ->
                              PyStr.lower (e_crop_name e) = PyStr.lower c))
  /\ (forall p, In p (map (stamp stamped) selected) -> price_date p = stamped)
  /\ (selected = [] ->
      get_mock_prices today state district crop_name requested = Returns [])
  /\ get_mock_prices today "Delhi" (Some "North Delhi") (Some "Wheat") requested
     = Returns [mkCropPrice "Wheat" (fl 2100) (fl 2300) (fl 2200) "Azadpur Mandi"
                            "North Delhi" "Delhi" stamped "Quintal"]
  /\ get_mock_prices today "DELHI" (Some "north delhi") (Some "wHEAT") requested
     = Returns [mkCropPrice "Wheat" (fl 2100) (fl 2300) (fl 2200) "Azadpur Mandi"
                            "North Delhi" "Delhi" stamped "Quintal"]
  /\ get_mock_prices today "delhi" (Some "North Delhi") (Some "Cotton") requested
     = Returns [].
Proof.
  intros stamped selected.
  assert (Hget : forall st di cr,
             get_mock_prices today st di cr requested
             = Returns (map (stamp stamped)
                            (List.filter (matches st di cr) all_crops)))
    by (intros; apply get_mock_prices_subset).
  split; [apply Hget|]. split; [|split; [|split; [|split; [|split]]]].
  - intros e. unfold selected. rewrite filter_In. unfold matches.
    rewrite !andb_true_iff, !passes_true_iff.
    unfold same_ci. rewrite String.eqb_eq. tauto.
  - intros p Hp. apply in_map_iff in Hp as (e & <- & _). reflexivity.
  - intros Hnone. rewrite Hget. fold selected. now rewrite Hnone.
  - rewrite Hget, catalog_filter_ascii by reflexivity. reflexivity.
  - rewrite Hget, catalog_filter_ascii by reflexivity. reflexivity.
  - rewrite Hget, catalog_filter_ascii by reflexivity. reflexivity.
Qed.

(** ** The orchestrator: how each step runs *)

Lemma fetches_app src tr tr' : fetches src (tr ++ tr') = (fetches src tr + fetches src tr')%nat.
Proof. unfold fetches. now rewrite List.filter_app, length_app. Qed.

Lemma sleeps_app tr tr' : sleeps (tr ++ tr') = sleeps tr ++ sleeps tr'.
Proof. unfold sleeps. apply omap_app. Qed.

Lemma total_sleep_app tr tr' : total_sleep (tr ++ tr') = (total_sleep tr + total_sleep tr')%Z.
Proof.
  unfold total_sleep. rewrite sleeps_app.
  induction (sleeps tr) as [|x l IH]; simpl; [reflexivity|]. rewrite IH. lia.
Qed.

Lemma fetches_fetch_same src tr : fetches src (tr ++ [Fetch src]) = S (fetches src tr).
Proof. rewrite fetches_app. unfold fetches at 2. simpl. destruct src; simpl; lia. Qed.

Lemma strip_blank_iff {str_methods : PyStr.Methods} state :
  negb (PyStr.truthy state) || negb (PyStr.truthy (PyStr.strip state)) = true
  <-> PyStr.strip state = "".
Proof.
  destruct state as [|a s].
  - rewrite (PyStr.strip_ascii "" eq_refl). simpl. tauto.
  - cbn [PyStr.truthy negb orb].
    destruct (PyStr.strip (String a s)); simpl; split; congruence.
Qed.

Lemma lower_char_idempotent a : PyStr.lower_char (PyStr.lower_char a) = PyStr.lower_char a.
Proof. destruct a as [[] [] [] [] [] [] [] []]; reflexivity. Qed.

(** The lower-case form of a name that selects an adapter is its own
    lower-case form. *)
Lemma lower_of_known {str_methods : PyStr.Methods} ds :
  selected_source ds <> None -> PyStr.lower (PyStr.lower ds) = PyStr.lower ds.
Proof.
  unfold selected_source.
  destruct (String.eqb_spec (PyStr.lower ds) "agmarknet") as [->|_];
    [intros _; exact (PyStr.lower_ascii "agmarknet" eq_refl)|].
  destruct (String.eqb_spec (PyStr.lower ds) "enam") as [->|_];
    [intros _; exact (PyStr.lower_ascii "enam" eq_refl)|].
  congruence.
Qed.

Lemma selected_source_lower {str_methods : PyStr.Methods} ds :
  selected_source ds <> None -> selected_source (PyStr.lower ds) = selected_source ds.
Proof. intros Hknown. unfold selected_source. now rewrite lower_of_known. Qed.

Section OrchestratorFacts.

Context {str_methods : PyStr.Methods} {pydantic : Pydantic}.
Variable E : environment.

Lemma call_adapter_run src st d c pd tr :
  call_adapter E src st d c pd tr
  = (adapter_outcome E src st d c pd (fetches src tr), tr ++ [Fetch src]).
Proof. destruct src; reflexivity. Qed.

Lemma call_mock_run st d c pd tr :
  call_mock E st d c pd tr
  = (Returns (catalog_subset (today E) st d c pd), tr ++ [MockCall]).
Proof. unfold call_mock. now rewrite get_mock_prices_subset. Qed.

Lemma respond_run su da n st d c msg tr :
  respond E su da n st d c msg tr
  = (Returns (mkPriceResponse su da (Z.of_nat (length da)) st d c (now E) (Some msg)), tr).
Proof. unfold respond, lift. now rewrite PriceResponse_new_kwargs. Qed.

Lemma primary_attempt_known st d c pd ds src :
  selected_source ds = Some src ->
  primary_attempt E st d c pd ds = call_adapter E src st d c pd.
Proof.
  unfold selected_source, primary_attempt.
  destruct (String.eqb (PyStr.lower ds) "agmarknet"); [now intros [= <-]|].
  destruct (String.eqb (PyStr.lower ds) "enam"); [now intros [= <-]|discriminate].
Qed.

Lemma primary_attempt_unknown st d c pd ds :
  selected_source ds = None ->
  primary_attempt E st d c pd ds = raise (ValueError ("Unknown data source: " +:+ ds)).
Proof.
  unfold selected_source, primary_attempt.
  destruct (String.eqb (PyStr.lower ds) "agmarknet"); [discriminate|].
  destruct (String.eqb (PyStr.lower ds) "enam"); [discriminate|reflexivity].
Qed.

End OrchestratorFacts.

(** ** The retry loop *)

Lemma fetches_attempt_events src outcome n dl base attempts :
  fetches src (attempt_events src outcome n dl base attempts) = length attempts.
Proof.
  revert base. induction attempts as [|x l IHl]; intros base; [reflexivity|].
  cbn [attempt_events length].
  change (Fetch src :: ?t) with ([Fetch src] ++ t).
  rewrite !fetches_app, IHl.
  replace (fetches src [Fetch src]) with 1%nat
    by (unfold fetches; simpl; destruct src; reflexivity).
  destruct (outcome base); [reflexivity|].
  destruct (x <? n - 1)%nat; reflexivity.
Qed.

Lemma fetches_other_attempt_events src outcome n dl base attempts :
  fetches (other_source src) (attempt_events src outcome n dl base attempts) = 0%nat.
Proof.
  revert base. induction attempts as [|x l IHl]; intros base; [reflexivity|].
  cbn [attempt_events].
  change (Fetch src :: ?t) with ([Fetch src] ++ t).
  rewrite !fetches_app, IHl.
  replace (fetches (other_source src) [Fetch src]) with 0%nat
    by (unfold fetches; simpl; destruct src; reflexivity).
  destruct (outcome base); [reflexivity|].
  destruct (x <? n - 1)%nat; reflexivity.
Qed.

Section RetryLoop.

Context {str_methods : PyStr.Methods} {pydantic : Pydantic}.
Variables (E : environment) (st : string) (d c : option string) (pd : option date)
          (ds : string).

(** The loop raises nothing but the generic orchestration error. *)
Lemma retry_loop_raises n dl attempts prices le tr e tr' :
  retry_loop E st d c pd ds n dl attempts prices le tr = (Raises e, tr') ->
  exists m, e = CropPriceError m.
Proof.
  revert prices le tr.
  induction attempts as [|a rest IH]; intros prices le tr; cbn [retry_loop].
  - unfold ret. discriminate.
  - unfold bind at 1, observe.
    destruct (primary_attempt E st d c pd ds tr) as [[fetched|e0] tr0].
    + destruct (nonempty fetched); [unfold ret; discriminate | apply IH].
    + destruct (is_network_or_source e0).
      * unfold bind, sleep, emit, ret.
        destruct (a <? n - 1)%nat; apply IH.
      * unfold raise. intros [= <- _]. eauto.
Qed.

(** With an unknown data source the first attempt aborts the loop. *)
Lemma retry_loop_unknown_source n dl a rest prices le tr :
  selected_source ds = None ->
  retry_loop E st d c pd ds n dl (a :: rest) prices le tr
  = (Raises (CropPriceError
               ("Unexpected error fetching prices: Unknown data source: " +:+ ds)), tr).
Proof.
  intros Hnone. cbn [retry_loop]. unfold bind, observe.
  rewrite (primary_attempt_unknown E st d c pd ds Hnone). reflexivity.
Qed.

Variable src : source.
Hypothesis Hsrc : selected_source ds = Some src.

Let outcome := adapter_outcome E src st d c pd.

(** Attempts that go on leave the loop where it was, with the events and the
    last error they produced. *)
Lemma retry_loop_goes_on n dl attempts post le tr :
  (forall j, (j < length attempts)%nat -> goes_on (outcome (fetches src tr + j))) ->
  retry_loop E st d c pd ds n dl (attempts ++ post) [] le tr
  = retry_loop E st d c pd ds n dl post []
      (last_raised outcome (fetches src tr) (length attempts) le)
      (tr ++ attempt_events src outcome n dl (fetches src tr) attempts).
Proof.
  revert le tr.
  induction attempts as [|a rest IH]; intros le tr Hgo.
  - simpl. now rewrite app_nil_r.
  - cbn [app retry_loop length last_raised attempt_events].
    unfold bind at 1, observe.
    rewrite (primary_attempt_known E st d c pd ds src Hsrc), call_adapter_run.
    fold outcome.
    assert (Hrest : forall j, (j < length rest)%nat ->
                              goes_on (outcome (S (fetches src tr) + j))).
    { intros j Hj. replace (S (fetches src tr) + j)%nat with (fetches src tr + S j)%nat by lia.
      apply Hgo. simpl. lia. }
    pose proof (Hgo 0%nat ltac:(simpl; lia)) as H0.
    rewrite Nat.add_0_r in H0.
    destruct H0 as [H0 | (e & H0 & Hretry)]; rewrite H0.
    + cbn [nonempty].
      rewrite <- (fetches_fetch_same src tr) in Hrest |- *.
      rewrite (IH le (tr ++ [Fetch src]) Hrest).
      now rewrite <- app_assoc.
    + rewrite Hretry. unfold bind, sleep, emit, ret.
      destruct (a <? n - 1)%nat.
      * assert (Hf : fetches src ((tr ++ [Fetch src]) ++ [Sleep (dl * (Z.of_nat a + 1))])
                     = S (fetches src tr))
          by (rewrite fetches_app, fetches_fetch_same; unfold fetches; simpl; lia).
        rewrite <- Hf in Hrest |- *.
        rewrite (IH (Some e) _ Hrest). now rewrite <- !app_assoc.
      * rewrite <- (fetches_fetch_same src tr) in Hrest |- *.
        rewrite (IH (Some e) (tr ++ [Fetch src]) Hrest).
        now rewrite <- app_assoc.
Qed.

(** When no attempt produces records the loop ends without records. *)
Lemma retry_loop_exhausted n dl attempts le tr :
  (forall j, (j < length attempts)%nat -> goes_on (outcome (fetches src tr + j))) ->
  retry_loop E st d c pd ds n dl attempts [] le tr
  = (Returns ([], last_raised outcome (fetches src tr) (length attempts) le),
     tr ++ attempt_events src outcome n dl (fetches src tr) attempts).
Proof.
  intros Hgo. rewrite <- (app_nil_r attempts) at 1.
  rewrite retry_loop_goes_on by assumption. reflexivity.
Qed.

(** The first attempt that produces records ends the loop at once. *)
Lemma retry_loop_stops n dl pre a post le tr ps :
  (forall j, (j < length pre)%nat -> goes_on (outcome (fetches src tr + j))) ->
  outcome (fetches src tr + length pre) = Returns ps -> ps <> [] ->
  retry_loop E st d c pd ds n dl (pre ++ a :: post) [] le tr
  = (Returns (ps, last_raised outcome (fetches src tr) (length pre) le),
     tr ++ attempt_events src outcome n dl (fetches src tr) pre ++ [Fetch src]).
Proof.
  intros Hgo Hk Hps. rewrite retry_loop_goes_on by assumption.
  cbn [retry_loop]. unfold bind at 1, observe.
  rewrite (primary_attempt_known E st d c pd ds src Hsrc), call_adapter_run.
  assert (Hf : fetches src (tr ++ attempt_events src outcome n dl (fetches src tr) pre)
               = (fetches src tr + length pre)%nat)
    by (now rewrite fetches_app, fetches_attempt_events).
  fold outcome. rewrite Hf, Hk.
  destruct ps; [congruence|]. cbn [nonempty]. unfold ret.
  now rewrite <- app_assoc.
Qed.

End RetryLoop.

(** ** After the retry loop *)

Lemma fallback_of_selected {str_methods : PyStr.Methods} ds src :
  selected_source ds = Some src -> fallback_of ds = other_source src.
Proof.
  unfold selected_source, fallback_of.
  destruct (String.eqb (PyStr.lower ds) "agmarknet"); [now intros [= <-]|].
  destruct (String.eqb (PyStr.lower ds) "enam"); [now intros [= <-]|discriminate].
Qed.

Section LivePath.

Context {str_methods : PyStr.Methods} {pydantic : Pydantic}.
Variables (E : environment) (st : string) (d c : option string) (pd : option date)
          (ds : string) (umf : bool).

Lemma failover_run prices le tr :
  failover E st d c pd ds prices le tr
  = (Returns (failover_step E st d c pd ds prices le tr).1,
     (failover_step E st d c pd ds prices le tr).2).
Proof.
  unfold failover, failover_step, fallback_of.
  destruct (negb (nonempty prices) && bool_decide (is_Some le)); [|reflexivity].
  unfold try_except.
  destruct (String.eqb (PyStr.lower ds) "agmarknet"); cbn [String.eqb Ascii.eqb Bool.eqb];
    rewrite call_adapter_run;
    match goal with |- context [adapter_outcome ?a ?b ?c ?d ?e ?f ?g] =>
      destruct (adapter_outcome a b c d e f g) end; reflexivity.
Qed.

Lemma mock_fallback_run prices tr :
  mock_fallback E st d c pd umf prices tr
  = (Returns (mock_step E st d c pd umf prices tr).1,
     (mock_step E st d c pd umf prices tr).2).
Proof.
  unfold mock_fallback, mock_step.
  destruct (negb (nonempty prices) && umf && mock_provider_imported E); [|reflexivity].
  unfold try_except. now rewrite call_mock_run.
Qed.

Lemma finalize_run prices le tr :
  finalize E st d c prices le tr = (Returns (final_response E st d c prices le), tr).
Proof.
  unfold finalize, final_response.
  destruct (post_filter d c prices) as [|p kept]; cbn [nonempty negb];
    now rewrite respond_run.
Qed.

(** The live path once the loop has returned. *)
Lemma live_path_after_loop tr prices le tr1 :
  retry_loop E st d c pd ds MAX_RETRIES RETRY_DELAY (seq 0 MAX_RETRIES) [] None tr
  = (Returns (prices, le), tr1) ->
  let after_failover := failover_step E st d c pd ds prices le tr1 in
  let after_mock := mock_step E st d c pd umf after_failover.1 after_failover.2 in
  live_path E st d c pd ds umf tr
  = (Returns (final_response E st d c after_mock.1 le), after_mock.2).
Proof.
  intros Hloop. unfold live_path, bind. rewrite Hloop.
  rewrite failover_run, mock_fallback_run, finalize_run. reflexivity.
Qed.

(** The live path when the loop has raised. *)
Lemma live_path_loop_raises tr e tr1 :
  retry_loop E st d c pd ds MAX_RETRIES RETRY_DELAY (seq 0 MAX_RETRIES) [] None tr
  = (Raises e, tr1) ->
  live_path E st d c pd ds umf tr = (Raises e, tr1).
Proof. intros Hloop. unfold live_path, bind. now rewrite Hloop. Qed.

End LivePath.

Section EntryPoint.

Context {str_methods : PyStr.Methods} {pydantic : Pydantic}.
Variables (E : environment) (state : string) (district crop_name : option string)
          (requested : option date) (data_source : string) (use_mock_fallback : bool)
          (use_mock_only : option bool).

Lemma get_crop_prices_blank tr :
  PyStr.strip state = "" ->
  get_crop_prices E state district crop_name requested data_source use_mock_fallback
                  use_mock_only tr
  = (Raises (ValueError "State parameter is required and cannot be empty"), tr).
Proof.
  intros Hblank. unfold get_crop_prices.
  apply strip_blank_iff in Hblank. now rewrite Hblank.
Qed.

Lemma get_crop_prices_live :
  state_given state -> live_mode E use_mock_only ->
  get_crop_prices E state district crop_name requested data_source use_mock_fallback
                  use_mock_only
  = live_path E (normalize state) (normalize_opt district) (normalize_opt crop_name)
              requested data_source use_mock_fallback.
Proof.
  unfold state_given, live_mode. intros Hgiven Hlive. unfold get_crop_prices.
  destruct (negb (PyStr.truthy state) || negb (PyStr.truthy (PyStr.strip state))) eqn:Hb.
  - now apply strip_blank_iff in Hb.
  - destruct use_mock_only as [b|]; simpl in Hlive; now rewrite Hlive.
Qed.

Lemma get_crop_prices_mock_only :
  state_given state -> mock_only_mode E use_mock_only ->
  get_crop_prices E state district crop_name requested data_source use_mock_fallback
                  use_mock_only
  = mock_only_path E (normalize state) (normalize_opt district) (normalize_opt crop_name)
                   requested.
Proof.
  unfold state_given, mock_only_mode. intros Hgiven Hmock. unfold get_crop_prices.
  destruct (negb (PyStr.truthy state) || negb (PyStr.truthy (PyStr.strip state))) eqn:Hb.
  - now apply strip_blank_iff in Hb.
  - destruct use_mock_only as [b|]; simpl in Hmock; now rewrite Hmock.
Qed.

End EntryPoint.

(** ** The retry schedule *)

Lemma last_raised_snoc outcome base n le :
  last_raised outcome base (S n) le
  = match outcome (base + n)%nat with
    | Raises e => Some e
    | Returns _ => last_raised outcome base n le
    end.
Proof.
  revert base le. induction n as [|n IH]; intros base le.
  - cbn [last_raised]. now rewrite Nat.add_0_r.
  - change (last_raised outcome base (S (S n)) le)
      with (last_raised outcome (S base) (S n)
              (match outcome base with Raises e => Some e | Returns _ => le end)).
    rewrite IH. replace (S base + n)%nat with (base + S n)%nat by lia.
    reflexivity.
Qed.

Lemma last_raised_none outcome base n :
  (forall j, (j < n)%nat -> outcome (base + j)%nat = Returns []) ->
  last_raised outcome base n None = None.
Proof.
  induction n as [|n IH]; intros Hall; [reflexivity|].
  rewrite last_raised_snoc, (Hall n) by lia. apply IH. intros j Hj. apply Hall. lia.
Qed.

Lemma attempt_events_all_raise src outcome n dl base attempts :
  (forall j, (j < length attempts)%nat -> exists e, outcome (base + j)%nat = Raises e) ->
  attempt_events src outcome n dl base attempts
  = flat_map (fun attempt =>
                Fetch src :: if (attempt <? n - 1)%nat
                             then [Sleep (dl * (Z.of_nat attempt + 1))]
                             else [])
             attempts.
Proof.
  revert base. induction attempts as [|a rest IH]; intros base Hall; [reflexivity|].
  cbn [attempt_events flat_map].
  destruct (Hall 0%nat ltac:(simpl; lia)) as [e He].
  rewrite Nat.add_0_r in He. rewrite He, IH; [reflexivity|].
  intros j Hj. replace (S base + j)%nat with (base + S j)%nat by lia.
  apply Hall. simpl. lia.
Qed.

(** The sleeps of the schedule, for any number of retries and any delay. *)
Lemma sleeps_schedule_below (m : nat) (dl : Z) (src : source) (len a : nat) :
  (a + len <= m)%nat ->
  sleeps (flat_map (fun attempt =>
                      Fetch src :: if (attempt <? m)%nat
                                   then [Sleep (dl * (Z.of_nat attempt + 1))]
                                   else [])
                   (seq a len))
  = map (fun k => dl * Z.of_nat k)%Z (seq (S a) len).
Proof.
  revert a. induction len as [|len IH]; intros a Hle; [reflexivity|].
  cbn [seq flat_map map].
  replace (a <? m)%nat with true by (symmetry; apply Nat.ltb_lt; lia).
  change (Fetch src :: [Sleep (dl * (Z.of_nat a + 1))] ++ ?t)
    with ([Fetch src; Sleep (dl * (Z.of_nat a + 1))] ++ t).
  rewrite sleeps_app, IH by lia.
  cbn. f_equal. f_equal. lia.
Qed.

Lemma sleeps_backoff (src : source) (n : nat) (dl : Z) :
  sleeps (backoff src n dl) = map (fun k => dl * Z.of_nat k)%Z (seq 1 (n - 1)).
Proof.
  unfold backoff. destruct n as [|n]; [reflexivity|].
  replace (S n - 1)%nat with n by lia.
  replace (S n) with (n + 1)%nat at 1 by lia.
  rewrite seq_app, flat_map_app, sleeps_app.
  rewrite (sleeps_schedule_below n dl src n 0) by lia.
  cbn [seq flat_map]. rewrite Nat.ltb_irrefl. cbn. apply app_nil_r.
Qed.

Lemma sum_multiples (dl : Z) (n : nat) :
  fold_right Z.add 0%Z (map (fun k => dl * Z.of_nat k)%Z (seq 1 n)) = (dl * triangle n)%Z.
Proof.
  induction n as [|n IH]; [simpl; lia|].
  rewrite seq_S, map_app, fold_right_app. cbn [map fold_right].
  change (triangle (S n)) with (triangle n + Z.of_nat (S n))%Z.
  assert (Hshift : forall (l : list Z) (x : Z),
             fold_right Z.add x l = (fold_right Z.add 0 l + x)%Z)
    by (induction l as [|y l IHl]; intros x; simpl; [lia | rewrite IHl; lia]).
  rewrite Hshift, IH. lia.
Qed.

Lemma total_sleep_backoff (src : source) (n : nat) (dl : Z) :
  total_sleep (backoff src n dl) = (dl * triangle (n - 1))%Z.
Proof. unfold total_sleep. rewrite sleeps_backoff. apply sum_multiples. Qed.

Lemma fetches_backoff (src : source) (n : nat) (dl : Z) :
  fetches src (backoff src n dl) = n.
Proof.
  unfold backoff.
  assert (Hgen : forall l : list nat,
             fetches src
               (flat_map (fun attempt =>
                            Fetch src :: if (attempt <? n - 1)%nat
                                         then [Sleep (dl * (Z.of_nat attempt + 1))]
                                         else []) l) = length l);
    [|now rewrite Hgen, length_seq].
  induction l as [|a l IH]; [reflexivity|].
  cbn [flat_map length]. rewrite fetches_app, IH.
  destruct (a <? n - 1)%nat, src; reflexivity.
Qed.

(** For any number of retries and any delay: when every attempt raises a
    retryable error the loop runs the whole schedule and ends without
    records. *)
Lemma retry_loop_all_raise {str_methods : PyStr.Methods} {pydantic : Pydantic}
      E st d c pd ds src n dl tr :
  selected_source ds = Some src ->
  (forall k, (k < n)%nat ->
             raises_retryable (adapter_outcome E src st d c pd (fetches src tr + k)%nat)) ->
  exists last_error,
    retry_loop E st d c pd ds n dl (seq 0 n) [] None tr
    = (Returns ([], last_error), tr ++ backoff src n dl)
    /\ (n <> 0%nat -> is_Some last_error).
Proof.
  intros Hsrc Hraise.
  rewrite (retry_loop_exhausted E st d c pd ds src Hsrc n dl (seq 0 n) None tr)
    by (intros j Hj; right; apply Hraise; now rewrite length_seq in Hj).
  rewrite (attempt_events_all_raise src _ n dl (fetches src tr) (seq 0 n))
    by (intros j Hj; rewrite length_seq in Hj;
        destruct (Hraise j Hj) as (e & He & _); eauto).
  eexists. split; [reflexivity|].
  intros Hn. rewrite length_seq. destruct n as [|n]; [congruence|].
  rewrite last_raised_snoc.
  destruct (Hraise n ltac:(lia)) as (e & He & _). rewrite He. eauto.
Qed.

(** C1. In live mode, with a data source that names an adapter: when every
    one of the [MAX_RETRIES] attempts raises [NetworkError] or
    [DataSourceError], the orchestrator calls the adapter exactly
    [MAX_RETRIES] times and sleeps [RETRY_DELAY * k] seconds after the
    [k]-th failed attempt, for [k] from 1 to [MAX_RETRIES - 1], a total of
    [RETRY_DELAY * (1 + ... + (MAX_RETRIES - 1))]; and when an attempt
    returns a non-empty list after attempts that all went on, that call is
    the last event of the run: no further attempt and no sleep follow. *)
Theorem retry_backoff_schedule {str_methods : PyStr.Methods}
        {pydantic : Pydantic} (E : environment) (state : string)
        (district crop_name : option string) (requested : option date)
        (data_source : string) (use_mock_fallback : bool)
        (use_mock_only : option bool) (src : source) (tr : trace) :
  state_given state ->
  live_mode E use_mock_only ->
  selected_source data_source = Some src ->
  let outcome := adapter_outcome E src (normalize state) (normalize_opt district)
                                 (normalize_opt crop_name) requested in
  let base := fetches src tr in
  let final := (get_crop_prices E state district crop_name requested data_source
                                use_mock_fallback use_mock_only tr).2 in
  ((forall k, (k < MAX_RETRIES)%nat -> raises_retryable (outcome (base + k)%nat)) ->
   exists rest,
     final = tr ++ backoff src MAX_RETRIES RETRY_DELAY ++ rest
     /\ fetches src rest = 0%nat
     /\ sleeps rest = []
     /\ fetches src final = (base + MAX_RETRIES)%nat
     /\ sleeps final
        = sleeps tr ++ map (fun k => RETRY_DELAY * Z.of_nat k)%Z (seq 1 (MAX_RETRIES - 1))
     /\ total_sleep final
        = (total_sleep tr + RETRY_DELAY * triangle (MAX_RETRIES - 1))%Z)
  /\ (forall k ps,
        (k < MAX_RETRIES)%nat ->
        (forall j, (j < k)%nat -> goes_on (outcome (base + j)%nat)) ->
        outcome (base + k)%nat = Returns ps -> ps <> [] ->
        final = tr ++ attempt_events src outcome MAX_RETRIES RETRY_DELAY base (seq 0 k)
                   ++ [Fetch src]
        /\ fetches src final = (base + k + 1)%nat
        /\ sleeps final
           = sleeps tr
             ++ sleeps (attempt_events src outcome MAX_RETRIES RETRY_DELAY base (seq 0 k))).
Proof.
  intros Hgiven Hlive Hsrc outcome base final.
  assert (Hrun : final
                 = (live_path E (normalize state) (normalize_opt district)
                      (normalize_opt crop_name) requested data_source
                      use_mock_fallback tr).2)
    by (unfold final; now rewrite get_crop_prices_live).
  clearbody final. subst final.
  split.
  - intros Hraise.
    assert (Hgo : forall j, (j < length (seq 0 MAX_RETRIES))%nat ->
                            goes_on (outcome (fetches src tr + j)%nat))
      by (intros j Hj; right; apply Hraise; now rewrite length_seq in Hj).
    pose proof (retry_loop_exhausted E _ _ _ requested data_source src Hsrc
                  MAX_RETRIES RETRY_DELAY (seq 0 MAX_RETRIES) None tr Hgo) as Hloop.
    fold outcome base in Hloop.
    rewrite (attempt_events_all_raise src outcome MAX_RETRIES RETRY_DELAY base
               (seq 0 MAX_RETRIES)) in Hloop
      by (intros j Hj; rewrite length_seq in Hj;
          destruct (Hraise j Hj) as (e & He & _); eauto).
    fold (backoff src MAX_RETRIES RETRY_DELAY) in Hloop.
    assert (Hle : is_Some (last_raised outcome base (length (seq 0 MAX_RETRIES)) None)).
    { change (length (seq 0 MAX_RETRIES)) with 3%nat. rewrite last_raised_snoc.
      destruct (Hraise 2%nat ltac:(unfold MAX_RETRIES; lia)) as (e & He & _).
      rewrite He. eauto. }
    set (rest := (failover_step E (normalize state) (normalize_opt district)
                    (normalize_opt crop_name) requested data_source []
                    (last_raised outcome base (length (seq 0 MAX_RETRIES)) None)
                    (tr ++ backoff src MAX_RETRIES RETRY_DELAY))).
    assert (Hfail : rest.2 = (tr ++ backoff src MAX_RETRIES RETRY_DELAY)
                              ++ [Fetch (other_source src)]).
    { unfold rest, failover_step. cbn [nonempty negb andb].
      rewrite (bool_decide_eq_true_2 _ Hle), (fallback_of_selected _ _ Hsrc).
      reflexivity. }
    exists (Fetch (other_source src)
            :: if negb (nonempty rest.1) && use_mock_fallback && mock_provider_imported E
               then [MockCall] else []).
    assert (Hfinal :
              (live_path E (normalize state) (normalize_opt district)
                 (normalize_opt crop_name) requested data_source use_mock_fallback tr).2
              = tr ++ backoff src MAX_RETRIES RETRY_DELAY
                   ++ Fetch (other_source src)
                      :: (if negb (nonempty rest.1) && use_mock_fallback
                             && mock_provider_imported E
                          then [MockCall] else [])).
    { rewrite (live_path_after_loop E _ _ _ requested data_source use_mock_fallback
                 tr _ _ _ Hloop).
      cbn [snd]. fold rest. unfold mock_step. rewrite Hfail.
      destruct (negb (nonempty rest.1) && use_mock_fallback && mock_provider_imported E);
        cbn [snd]; now rewrite <- !app_assoc. }
    rewrite Hfinal.
    assert (Hrest_f : fetches src
                        (Fetch (other_source src)
                         :: (if negb (nonempty rest.1) && use_mock_fallback
                                && mock_provider_imported E
                             then [MockCall] else [])) = 0%nat)
      by (destruct (negb (nonempty rest.1) && use_mock_fallback
                    && mock_provider_imported E), src; reflexivity).
    assert (Hrest_s : sleeps
                        (Fetch (other_source src)
                         :: (if negb (nonempty rest.1) && use_mock_fallback
                                && mock_provider_imported E
                             then [MockCall] else [])) = [])
      by (destruct (negb (nonempty rest.1) && use_mock_fallback
                    && mock_provider_imported E); reflexivity).
    split; [reflexivity|]. split; [exact Hrest_f|]. split; [exact Hrest_s|].
    split; [|split].
    + rewrite !fetches_app, Hrest_f. fold base.
      rewrite fetches_backoff. lia.
    + rewrite !sleeps_app, Hrest_s, app_nil_r, sleeps_backoff. reflexivity.
    + rewrite !total_sleep_app, total_sleep_backoff.
      unfold total_sleep at 2. rewrite Hrest_s. simpl. lia.
  - intros k ps Hk Hgo Hkth Hps.
    assert (Hsplit : seq 0 MAX_RETRIES = seq 0 k ++ k :: seq (S k) (MAX_RETRIES - S k)).
    { unfold MAX_RETRIES in *.
      destruct k as [|[|[|k]]]; [reflexivity | reflexivity | reflexivity | lia]. }
    assert (Hloop := retry_loop_stops E (normalize state) (normalize_opt district)
                       (normalize_opt crop_name) requested data_source src Hsrc
                       MAX_RETRIES RETRY_DELAY (seq 0 k) k
                       (seq (S k) (MAX_RETRIES - S k)) None tr ps).
    rewrite length_seq, <- Hsplit in Hloop.
    specialize (Hloop Hgo Hkth Hps).
    rewrite (live_path_after_loop E _ _ _ requested data_source use_mock_fallback
               tr _ _ _ Hloop).
    unfold failover_step, mock_step.
    destruct ps as [|p ps]; [congruence|]. cbn [nonempty negb andb fst snd].
    fold outcome base.
    split; [reflexivity|]. split.
    + rewrite !fetches_app, fetches_attempt_events, length_seq. fold base.
      replace (fetches src [Fetch src]) with 1%nat by (destruct src; reflexivity).
      lia.
    + rewrite !sleeps_app. cbn. now rewrite app_nil_r.
Qed.

(** ** The adapters of the repository *)

Lemma stubs_raise_retryable (reply : http_reply) :
  raises_retryable (agmarknet_stub reply) /\ raises_retryable (enam_stub reply).
Proof.
  unfold raises_retryable, agmarknet_stub, enam_stub.
  destruct reply as [code| |]; [destruct (code =? 200)%Z|..]; split; eauto.
Qed.

Example backoff_default :
  backoff Agmarknet MAX_RETRIES RETRY_DELAY
  = [Fetch Agmarknet; Sleep 2; Fetch Agmarknet; Sleep 4; Fetch Agmarknet].
Proof. reflexivity. Qed.

Example live_run_with_stubs :
  get_crop_prices (pydantic := strict_mode) portals_up "  delhi " None (Some "wheat") None
      "agmarknet" true None []
  = (Returns (mkPriceResponse true
                [mkCropPrice "Wheat" (fl 2100) (fl 2300) (fl 2200) "Azadpur Mandi"
                             "North Delhi" "Delhi" jan15 "Quintal"]
                1 "Delhi" None (Some "Wheat") ten_thirty
                (Some "Successfully fetched 1 price entries")),
     [Fetch Agmarknet; Sleep 2; Fetch Agmarknet; Sleep 4; Fetch Agmarknet;
      Fetch Enam; MockCall]).
Proof. reflexivity. Qed.

Example live_run_recovers :
  (get_crop_prices (pydantic := strict_mode) agmarknet_recovers "Punjab" None None None
       "AGMARKNET" true (Some false) []).2
  = [Fetch Agmarknet; Sleep 2; Fetch Agmarknet].
Proof. reflexivity. Qed.

Lemma retry_backoff_schedule_witness :
  (state_given "Delhi" /\ live_mode portals_up None
   /\ selected_source "agmarknet" = Some Agmarknet)
  /\ (exists rest,
        (get_crop_prices (pydantic := strict_mode) portals_up "Delhi" None None None
             "agmarknet" true None []).2
        = [] ++ backoff Agmarknet MAX_RETRIES RETRY_DELAY ++ rest)
  /\ (get_crop_prices (pydantic := strict_mode) agmarknet_recovers "Punjab" None None None
          "agmarknet" true (Some false) []).2
     = [Fetch Agmarknet; Sleep 2] ++ [Fetch Agmarknet].
Proof.
  assert (Hgiven : forall s, PyStr.strip s = s -> s <> "" -> state_given s)
    by (unfold state_given; intros s -> ?; assumption).
  split; [|split].
  - split; [apply Hgiven; [reflexivity|discriminate]|]. split; reflexivity.
  - destruct (retry_backoff_schedule
                (str_methods := PyStr.ascii_methods) (pydantic := strict_mode)
                portals_up "Delhi" None None None "agmarknet" true None Agmarknet [])
      as [Hall _]; [apply Hgiven; [reflexivity|discriminate] | reflexivity | reflexivity |].
    destruct Hall as (rest & Hfinal & _).
    + intros k _. apply stubs_raise_retryable.
    + exists rest. exact Hfinal.
  - destruct (retry_backoff_schedule
                (str_methods := PyStr.ascii_methods) (pydantic := strict_mode)
                agmarknet_recovers "Punjab" None None None "agmarknet" true (Some false)
                Agmarknet [])
      as [_ Hstop]; [apply Hgiven; [reflexivity|discriminate] | reflexivity | reflexivity |].
    destruct (Hstop 1%nat [ludhiana_wheat]) as (Hfinal & _).
    + unfold MAX_RETRIES. lia.
    + intros j Hj. replace j with 0%nat by lia. right. eexists. split; reflexivity.
    + reflexivity.
    + discriminate.
    + exact Hfinal.
Defined.

(** ** Failover *)

(** C2, as stated, fails, whatever the methods of [str] do beyond ASCII:
    when the first attempt raises and the later ones return nothing, the
    last attempt is empty without raising, yet the error of the first
    attempt is still recorded and the other source is called. *)
Lemma failover_after_empty_last_attempt :
  ~ exists str_methods : PyStr.Methods,
      @failover_skipped_when_last_attempt_empty str_methods.
Proof.
  intros [m Hclaim].
  assert (Hgiven : state_given (str_methods := m) "Punjab")
    by (unfold state_given; rewrite (PyStr.strip_ascii "Punjab" eq_refl); discriminate).
  assert (Hsrc : selected_source (str_methods := m) "agmarknet" = Some Agmarknet)
    by (unfold selected_source; now rewrite (PyStr.lower_ascii "agmarknet" eq_refl)).
  specialize (Hclaim agmarknet_fails_then_empty "Punjab" None None None "agmarknet"
                     true (Some false) Agmarknet [] Hgiven eq_refl Hsrc).
  cbv zeta in Hclaim.
  assert (Hgo : forall j, (j < MAX_RETRIES)%nat ->
                goes_on (adapter_outcome agmarknet_fails_then_empty Agmarknet
                           (normalize (str_methods := m) "Punjab") None None None
                           (fetches Agmarknet [] + j)%nat)).
  { intros j Hj. unfold MAX_RETRIES in Hj.
    destruct j as [|[|[|j]]];
      [right; eexists; split; reflexivity | now left | now left | lia]. }
  assert (Hcalls : fetches (other_source Agmarknet)
                     (get_crop_prices (str_methods := m) (pydantic := strict_mode)
                        agmarknet_fails_then_empty "Punjab" None None None "agmarknet"
                        true (Some false) []).2 = 1%nat).
  { rewrite get_crop_prices_live by (assumption || reflexivity).
    pose proof (retry_loop_exhausted (str_methods := m) (pydantic := strict_mode)
                  agmarknet_fails_then_empty (normalize "Punjab") None None None
                  "agmarknet" Agmarknet Hsrc MAX_RETRIES RETRY_DELAY (seq 0 MAX_RETRIES)
                  None []) as Hloop.
    rewrite length_seq in Hloop. specialize (Hloop Hgo).
    cbn [normalize_opt].
    rewrite (live_path_after_loop _ _ _ _ _ _ true [] _ _ _ Hloop).
    cbv zeta. unfold failover_step, mock_step.
    rewrite (fallback_of_selected _ _ Hsrc). reflexivity. }
  rewrite Hclaim in Hcalls; [discriminate| |reflexivity].
  intros j Hj. apply Hgo. unfold MAX_RETRIES in *. lia.
Qed.

Example failover_after_empty_last_attempt_trace :
  (get_crop_prices (pydantic := strict_mode) agmarknet_fails_then_empty "Punjab" None None
       None "agmarknet" true (Some false) []).2
  = [Fetch Agmarknet; Sleep 2; Fetch Agmarknet; Fetch Agmarknet; Fetch Enam; MockCall].
Proof. reflexivity. Qed.

Section Failover.

Context {str_methods : PyStr.Methods} {pydantic : Pydantic}.

(** C2, amended. In live mode, once the retry loop has ended with the
    records [prices] and the recorded error [last_error], the call returns a
    response, whatever the other source does, and after the loop the other
    source is called exactly once when [prices] is empty and [last_error] is
    set, and no adapter is called at all otherwise.  In particular the
    failover is skipped when every primary attempt returns the empty list
    without raising. *)
Theorem failover_once_iff_no_records_and_error
        (E : environment) (state : string) (district crop_name : option string)
        (requested : option date) (data_source : string) (use_mock_fallback : bool)
        (use_mock_only : option bool) (src : source) (tr : trace) :
  state_given state ->
  live_mode E use_mock_only ->
  selected_source data_source = Some src ->
  let st := normalize state in
  let d := normalize_opt district in
  let c := normalize_opt crop_name in
  let outcome := adapter_outcome E src st d c requested in
  let run := get_crop_prices E state district crop_name requested data_source
                             use_mock_fallback use_mock_only tr in
  (forall prices last_error tr1,
      retry_loop E st d c requested data_source MAX_RETRIES RETRY_DELAY
                 (seq 0 MAX_RETRIES) [] None tr
      = (Returns (prices, last_error), tr1) ->
      exists response rest,
        run = (Returns response, tr1 ++ rest)
        /\ sleeps rest = []
        /\ fetches src rest = 0%nat
        /\ (prices = [] /\ is_Some last_error ->
            exists rest', rest = Fetch (other_source src) :: rest'
                          /\ fetches (other_source src) rest' = 0%nat)
        /\ (~ (prices = [] /\ is_Some last_error) ->
            fetches (other_source src) rest = 0%nat))
  /\ ((forall j, (j < MAX_RETRIES)%nat -> outcome (fetches src tr + j)%nat = Returns []) ->
      fetches (other_source src) run.2 = fetches (other_source src) tr).
Proof.
  intros Hgiven Hlive Hsrc st d c outcome run.
  assert (Hrun : run = live_path E st d c requested data_source use_mock_fallback tr)
    by (unfold run; now rewrite get_crop_prices_live).
  clearbody run. subst run.
  assert (Hmock : forall ps tr2,
             exists rest2,
               (mock_step E st d c requested use_mock_fallback ps tr2).2 = tr2 ++ rest2
               /\ sleeps rest2 = [] /\ fetches src rest2 = 0%nat
               /\ fetches (other_source src) rest2 = 0%nat).
  { intros ps tr2. unfold mock_step.
    destruct (negb (nonempty ps) && use_mock_fallback && mock_provider_imported E).
    - exists [MockCall]. repeat split.
    - exists []. cbn [snd]. rewrite app_nil_r. repeat split. }
  split.
  - intros prices last_error tr1 Hloop.
    rewrite (live_path_after_loop E st d c requested data_source use_mock_fallback
               tr _ _ _ Hloop).
    cbv zeta.
    set (after_failover := failover_step E st d c requested data_source prices
                                         last_error tr1).
    destruct (Hmock after_failover.1 after_failover.2)
      as (rest2 & Hrest2 & Hs2 & Hf2 & Ho2).
    rewrite Hrest2.
    assert (Hcases : (prices = [] /\ is_Some last_error
                      /\ after_failover.2 = tr1 ++ [Fetch (other_source src)])
                     \/ (~ (prices = [] /\ is_Some last_error)
                         /\ after_failover.2 = tr1)).
    { unfold after_failover, failover_step.
      rewrite (fallback_of_selected _ _ Hsrc).
      destruct prices as [|p ps]; cbn [nonempty negb andb].
      - destruct (bool_decide (is_Some last_error)) eqn:Hdec.
        + left. apply bool_decide_eq_true in Hdec. auto.
        + right. apply bool_decide_eq_false in Hdec. split; [tauto|reflexivity].
      - right. split; [intros [? _]; discriminate | reflexivity]. }
    destruct Hcases as [(Hp & Hle & Htr) | (Hnot & Htr)]; rewrite Htr.
    + eexists _, (Fetch (other_source src) :: rest2).
      split; [now rewrite <- app_assoc|].
      split; [exact Hs2|].
      split; [destruct src; exact Hf2|].
      split; [intros _; eauto | tauto].
    + eexists _, rest2.
      split; [reflexivity|]. split; [exact Hs2|]. split; [exact Hf2|].
      split; [tauto | intros _; exact Ho2].
  - intros Hempty.
    assert (Hgo : forall j, (j < length (seq 0 MAX_RETRIES))%nat ->
                            goes_on (outcome (fetches src tr + j)%nat))
      by (intros j Hj; left; apply Hempty; now rewrite length_seq in Hj).
    pose proof (retry_loop_exhausted E st d c requested data_source src Hsrc
                  MAX_RETRIES RETRY_DELAY (seq 0 MAX_RETRIES) None tr Hgo) as Hloop.
    fold outcome in Hloop.
    rewrite (last_raised_none outcome (fetches src tr) (length (seq 0 MAX_RETRIES)))
      in Hloop
      by (intros j Hj; apply Hempty; now rewrite length_seq in Hj).
    rewrite (live_path_after_loop E st d c requested data_source use_mock_fallback
               tr _ _ _ Hloop).
    cbv zeta.
    assert (Hskip : forall t, failover_step E st d c requested data_source [] None t
                              = ([], t)).
    { intros t. unfold failover_step. cbn [nonempty negb andb].
      replace (bool_decide (is_Some (@None exn))) with false; [reflexivity|].
      symmetry. apply bool_decide_eq_false. intros [? ?]. discriminate. }
    rewrite Hskip. cbn [fst snd].
    match goal with |- context [mock_step E st d c requested use_mock_fallback ?ps ?t] =>
      destruct (Hmock ps t) as (rest2 & Hrest2 & _ & _ & Ho2) end.
    rewrite Hrest2, !fetches_app, Ho2, fetches_other_attempt_events. lia.
Qed.

End Failover.

Lemma failover_once_iff_no_records_and_error_witness :
  (state_given "Punjab" /\ live_mode agmarknet_fails_then_empty (Some false)
   /\ selected_source "agmarknet" = Some Agmarknet)
  /\ exists response rest,
       get_crop_prices (pydantic := strict_mode) agmarknet_fails_then_empty "Punjab" None
           None None "agmarknet" true (Some false) []
       = (Returns response,
          [Fetch Agmarknet; Sleep 2; Fetch Agmarknet; Fetch Agmarknet] ++ rest)
       /\ exists rest', rest = Fetch Enam :: rest'.
Proof.
  assert (Hgiven : state_given "Punjab") by (unfold state_given; discriminate).
  split; [split; [exact Hgiven | split; reflexivity]|].
  destruct (failover_once_iff_no_records_and_error
              (str_methods := PyStr.ascii_methods) (pydantic := strict_mode)
              agmarknet_fails_then_empty "Punjab" None None None "agmarknet" true
              (Some false) Agmarknet [] Hgiven eq_refl eq_refl) as [Honce _].
  destruct (Honce [] (Some (NetworkError "timeout" None))
                  [Fetch Agmarknet; Sleep 2; Fetch Agmarknet; Fetch Agmarknet] eq_refl)
    as (response & rest & Hrun & _ & _ & Hentered & _).
  exists response, rest. split; [exact Hrun|].
  destruct Hentered as (rest' & Hrest & _); [split; [reflexivity | eauto]|].
  exists rest'. exact Hrest.
Defined.

(** ** The response of the live path *)

(** C4, as stated, fails, whatever the methods of [str] do beyond ASCII:
    records of Ludhiana obtained for a request on the district of Amritsar
    are all removed by the district filter, and the response reports a
    failure. *)
Lemma records_obtained_but_filtered_out :
  ~ exists str_methods : PyStr.Methods,
      @success_whenever_records_obtained str_methods.
Proof.
  intros [m Hclaim].
  assert (Hgiven : state_given (str_methods := m) "Punjab")
    by (unfold state_given; rewrite (PyStr.strip_ascii "Punjab" eq_refl); discriminate).
  assert (Hsrc : selected_source (str_methods := m) "agmarknet" = Some Agmarknet)
    by (unfold selected_source; now rewrite (PyStr.lower_ascii "agmarknet" eq_refl)).
  destruct (Hclaim agmarknet_ludhiana "Punjab" (Some "Amritsar") None None "agmarknet"
                   true (Some false) Agmarknet [] [ludhiana_wheat]
                   Hgiven eq_refl Hsrc eq_refl ltac:(discriminate))
    as (response & final & Hrun & Hsuccess).
  assert (Hamritsar : normalize (str_methods := m) "Amritsar" = "Amritsar").
  { unfold normalize. rewrite (PyStr.strip_ascii "Amritsar" eq_refl).
    now rewrite (PyStr.title_ascii (PyStr.ascii_strip "Amritsar") eq_refl). }
  rewrite get_crop_prices_live in Hrun by (assumption || reflexivity).
  cbn [normalize_opt PyStr.truthy] in Hrun. rewrite Hamritsar in Hrun.
  pose proof (retry_loop_stops (str_methods := m) (pydantic := strict_mode)
                agmarknet_ludhiana (normalize "Punjab") (Some "Amritsar") None None
                "agmarknet" Agmarknet Hsrc MAX_RETRIES RETRY_DELAY [] 0%nat
                (seq 1 (MAX_RETRIES - 1)) None [] [ludhiana_wheat]) as Hloop.
  specialize (Hloop ltac:(intros j Hj; simpl in Hj; lia) eq_refl ltac:(discriminate)).
  rewrite (live_path_after_loop _ _ _ _ _ _ true [] _ _ _ Hloop) in Hrun.
  cbv zeta in Hrun. unfold failover_step, mock_step in Hrun.
  cbn [nonempty negb andb fst snd] in Hrun.
  unfold final_response, post_filter, by_district, by_crop in Hrun.
  cbn [nonempty restrict PyStr.truthy List.filter district ludhiana_wheat] in Hrun.
  rewrite (same_ci_ascii "Ludhiana" "Amritsar" eq_refl eq_refl) in Hrun.
  vm_compute in Hrun. injection Hrun as <- _. discriminate.
Qed.

Example records_obtained_but_filtered_out_response :
  get_crop_prices (pydantic := strict_mode) agmarknet_ludhiana "Punjab" (Some "Amritsar")
      None None "agmarknet" true (Some false) []
  = (Returns (mkPriceResponse false [] 0 "Punjab" (Some "Amritsar") None ten_thirty
                (Some "No price data found for state=Punjab, district=Amritsar")),
     [Fetch Agmarknet]).
Proof. reflexivity. Qed.

Section LiveResponse.

Context {str_methods : PyStr.Methods} {pydantic : Pydantic}.

Lemma append_assoc (a b c : string) : (a +:+ b) +:+ c = a +:+ (b +:+ c).
Proof.
  induction a as [|x a IH]; [reflexivity|].
  change (String x ((a +:+ b) +:+ c) = String x (a +:+ (b +:+ c))). now rewrite IH.
Qed.

Lemma append_empty_r (a : string) : a +:+ "" = a.
Proof.
  induction a as [|x a IH]; [reflexivity|].
  change (String x (a +:+ "") = String x a). now rewrite IH.
Qed.

(** When no attempt aborts the call, the retry loop ends with
    [loop_records] and [loop_error], and it has called no other adapter
    than the primary one. *)
Lemma retry_loop_benign E st d c pd ds src n dl attempts le tr :
  selected_source ds = Some src ->
  (forall j, (j < length attempts)%nat ->
             benign (adapter_outcome E src st d c pd (fetches src tr + j)%nat)) ->
  exists ext,
    retry_loop E st d c pd ds n dl attempts [] le tr
    = (Returns (loop_records (adapter_outcome E src st d c pd) (fetches src tr)
                             (length attempts),
                loop_error (adapter_outcome E src st d c pd) (fetches src tr)
                           (length attempts) le),
       tr ++ ext)
    /\ fetches (other_source src) ext = 0%nat.
Proof.
  intros Hsrc. revert le tr.
  induction attempts as [|a rest IH]; intros le tr Hben.
  - exists []. simpl. unfold ret. now rewrite app_nil_r.
  - cbn [retry_loop length loop_records loop_error]. unfold bind at 1, observe.
    rewrite (primary_attempt_known E st d c pd ds src Hsrc), call_adapter_run.
    assert (Hother : fetches (other_source src) [Fetch src] = 0%nat)
      by (destruct src; reflexivity).
    assert (Hrest : forall tr0, fetches src tr0 = S (fetches src tr) ->
                                forall j, (j < length rest)%nat ->
                                benign (adapter_outcome E src st d c pd
                                                        (fetches src tr0 + j)%nat)).
    { intros tr0 Htr0 j Hj. rewrite Htr0.
      replace (S (fetches src tr) + j)%nat with (fetches src tr + S j)%nat by lia.
      apply Hben. simpl. lia. }
    pose proof (Hben 0%nat ltac:(simpl; lia)) as H0.
    rewrite Nat.add_0_r in H0.
    destruct H0 as [(ps & H0) | (e & H0 & Hretry)]; rewrite H0.
    + destruct ps as [|p ps]; cbn [nonempty].
      * destruct (IH le (tr ++ [Fetch src])
                     (Hrest _ (fetches_fetch_same src tr))) as (ext & Hrun & Hext).
        rewrite fetches_fetch_same in Hrun. rewrite Hrun.
        exists ([Fetch src] ++ ext). rewrite app_assoc. split; [reflexivity|].
        now rewrite fetches_app, Hother, Hext.
      * exists [Fetch src]. unfold ret. split; [reflexivity | exact Hother].
    + rewrite Hretry. unfold bind, sleep, emit, ret.
      destruct (a <? n - 1)%nat.
      * assert (Hf : fetches src ((tr ++ [Fetch src])
                                    ++ [Sleep (dl * (Z.of_nat a + 1))])
                     = S (fetches src tr))
          by (rewrite fetches_app, fetches_fetch_same; unfold fetches; simpl; lia).
        destruct (IH (Some e) _ (Hrest _ Hf)) as (ext & Hrun & Hext).
        rewrite Hf in Hrun. rewrite Hrun.
        exists ([Fetch src] ++ [Sleep (dl * (Z.of_nat a + 1))] ++ ext).
        rewrite !app_assoc. split; [reflexivity|].
        rewrite !fetches_app, Hother, Hext. reflexivity.
      * destruct (IH (Some e) (tr ++ [Fetch src])
                     (Hrest _ (fetches_fetch_same src tr))) as (ext & Hrun & Hext).
        rewrite fetches_fetch_same in Hrun. rewrite Hrun.
        exists ([Fetch src] ++ ext). rewrite app_assoc. split; [reflexivity|].
        now rewrite fetches_app, Hother, Hext.
Qed.

(** The loop ends without records exactly when no attempt produces any;
    the error it has recorded is then the one [last_raised] gives. *)
Lemma loop_records_none outcome base count :
  loop_records outcome base count = []
  <-> forall k, (k < count)%nat -> ~ produces (outcome (base + k)%nat).
Proof.
  revert base. induction count as [|count IH]; intros base; cbn [loop_records].
  - split; [intros _ k Hk; lia | reflexivity].
  - split.
    + intros Hnone k Hk.
      destruct k as [|k].
      * rewrite Nat.add_0_r. intros (ps & Hps & Hne). rewrite Hps in Hnone.
        destruct ps; [congruence | discriminate].
      * replace (base + S k)%nat with (S base + k)%nat by lia.
        apply (IH (S base)); [|lia].
        destruct (outcome base) as [[|p ps]|e]; [exact Hnone | discriminate | exact Hnone].
    + intros Hno.
      assert (Hrest : loop_records outcome (S base) count = []).
      { apply IH. intros k Hk.
        replace (S base + k)%nat with (base + S k)%nat by lia. apply Hno. lia. }
      destruct (outcome base) as [[|p ps]|e] eqn:H0; [exact Hrest| |exact Hrest].
      exfalso. apply (Hno 0%nat); [lia|]. rewrite Nat.add_0_r.
      exists (p :: ps). split; [exact H0 | discriminate].
Qed.

Lemma loop_error_last_raised outcome base count le :
  loop_records outcome base count = [] ->
  loop_error outcome base count le = last_raised outcome base count le.
Proof.
  revert base le. induction count as [|count IH]; intros base le; [reflexivity|].
  cbn [loop_records loop_error last_raised].
  destruct (outcome base) as [[|p ps]|e]; [apply IH | discriminate | apply IH].
Qed.

Lemma failure_message_spelled st d c le :
  failure_message st d c le
  = ("No price data found for state=" +:+ st)
    +:+ match d with
        | Some x => if PyStr.truthy x then ", district=" +:+ x else ""
        | None => ""
        end
    +:+ match c with
        | Some x => if PyStr.truthy x then ", crop=" +:+ x else ""
        | None => ""
        end
    +:+ match le with
        | Some e => ". Last error: " +:+ exn_str e
        | None => ""
        end.
Proof.
  unfold failure_message.
  destruct d as [x|]; [destruct (PyStr.truthy x)|];
    (destruct c as [y|]; [destruct (PyStr.truthy y)|]);
    destruct le as [e|];
    rewrite ?append_assoc, ?append_empty_r; cbn [String.append];
    rewrite ?append_assoc, ?append_empty_r; reflexivity.
Qed.

Lemma final_response_facts E st d c obtained le :
  let response := final_response E st d c obtained le in
  count response = Z.of_nat (length (data response))
  /\ resp_state response = st
  /\ resp_district response = d
  /\ resp_crop_name response = c
  /\ data response = post_filter d c obtained
  /\ (success response = true <-> post_filter d c obtained <> [])
  /\ (success response = true ->
      message response
      = Some ("Successfully fetched " +:+ PyStr.of_nat (length (data response))
              +:+ " price entries"))
  /\ (success response = false ->
      data response = [] /\ count response = 0%Z
      /\ message response = Some (failure_message st d c le)).
Proof.
  unfold final_response.
  destruct (post_filter d c obtained) as [|p kept]; cbn.
  - repeat split; congruence.
  - repeat split; congruence.
Qed.

(** C4, amended. In live mode, with a state that is given and a data source
    that names an adapter, when every primary attempt returns or raises
    [NetworkError] or [DataSourceError], the orchestrator does not raise.
    The records obtained are those of the first primary attempt that
    returns some; failing that, and if an error was recorded, those the
    other source returns; failing that, those of the mock catalog when the
    mock fallback is enabled and importable.  The response carries the
    records that remain after the district and crop filter.  Exactly when
    some remain it has [success = true], their count and the success
    message; otherwise, also when records were obtained and the filter
    removed them all, it has [success = false], no data, count 0 and a
    message that names the state, the district and the crop when given, and
    the last recorded error when one is set.  Nothing is obtained exactly
    when the primary attempts, the failover attempt and the mock fallback
    all fail to produce records. *)
Theorem live_call_reports_failure_or_success
        (E : environment) (state : string) (district crop_name : option string)
        (requested : option date) (data_source : string) (use_mock_fallback : bool)
        (use_mock_only : option bool) (src : source) (tr : trace) :
  state_given state ->
  live_mode E use_mock_only ->
  selected_source data_source = Some src ->
  let st := normalize state in
  let d := normalize_opt district in
  let c := normalize_opt crop_name in
  let outcome := adapter_outcome E src st d c requested in
  let base := fetches src tr in
  (forall k, (k < MAX_RETRIES)%nat -> benign (outcome (base + k)%nat)) ->
  let primary := loop_records outcome base MAX_RETRIES in
  let last_error := loop_error outcome base MAX_RETRIES None in
  let failover_outcome :=
    adapter_outcome E (other_source src) st d c requested
                    (fetches (other_source src) tr) in
  let secondary :=
    match primary, last_error with
    | [], Some _ => match failover_outcome with
                    | Returns ps => ps
                    | Raises _ => []
                    end
    | _, _ => primary
    end in
  let obtained :=
    match secondary with
    | [] => if use_mock_fallback && mock_provider_imported E
            then catalog_subset (today E) st d c requested
            else []
    | _ => secondary
    end in
  let kept := post_filter d c obtained in
  exists response final,
    get_crop_prices E state district crop_name requested data_source
                    use_mock_fallback use_mock_only tr = (Returns response, final)
    /\ resp_state response = st
    /\ resp_district response = d
    /\ resp_crop_name response = c
    /\ fetched_at response = now E
    /\ data response = kept
    /\ count response = Z.of_nat (length kept)
    /\ (success response = true <-> kept <> [])
    /\ (kept <> [] ->
        message response
        = Some ("Successfully fetched " +:+ PyStr.of_nat (length kept)
                +:+ " price entries"))
    /\ (kept = [] ->
        success response = false /\ data response = [] /\ count response = 0%Z
        /\ message response
           = Some (("No price data found for state=" +:+ st)
                   +:+ match d with
                       | Some x => if PyStr.truthy x then ", district=" +:+ x else ""
                       | None => ""
                       end
                   +:+ match c with
                       | Some x => if PyStr.truthy x then ", crop=" +:+ x else ""
                       | None => ""
                       end
                   +:+ match last_error with
                       | Some e => ". Last error: " +:+ exn_str e
                       | None => ""
                       end))
    /\ (obtained = []
        <-> (forall k, (k < MAX_RETRIES)%nat -> ~ produces (outcome (base + k)%nat))
            /\ (is_Some last_error -> ~ produces failover_outcome)
            /\ (use_mock_fallback = true -> mock_provider_imported E = true ->
                catalog_subset (today E) st d c requested = []))
    /\ (obtained = [] ->
        kept = [] /\ last_error = last_raised outcome base MAX_RETRIES None).
Proof.
  intros Hgiven Hlive Hsrc st d c outcome base Hben primary last_error
         failover_outcome secondary obtained kept.
  rewrite get_crop_prices_live by assumption. fold st d c.
  destruct (retry_loop_benign E st d c requested data_source src MAX_RETRIES
              RETRY_DELAY (seq 0 MAX_RETRIES) None tr Hsrc)
    as (ext & Hloop & Hext);
    [intros j Hj; apply Hben; now rewrite length_seq in Hj|].
  rewrite length_seq in Hloop. fold outcome base primary last_error in Hloop.
  rewrite (live_path_after_loop E st d c requested data_source use_mock_fallback
             tr _ _ _ Hloop).
  cbv zeta.
  assert (Hfo : (failover_step E st d c requested data_source primary last_error
                               (tr ++ ext)).1 = secondary).
  { unfold failover_step, secondary.
    rewrite (fallback_of_selected _ _ Hsrc), fetches_app, Hext, Nat.add_0_r.
    fold failover_outcome.
    destruct primary as [|p ps]; cbn [nonempty negb andb]; [|reflexivity].
    destruct last_error as [e|].
    - rewrite bool_decide_eq_true_2 by eauto. cbn [fst].
      destruct failover_outcome; reflexivity.
    - rewrite bool_decide_eq_false_2 by (intros [? ?]; discriminate). reflexivity. }
  assert (Hmo : forall t, (mock_step E st d c requested use_mock_fallback secondary
                                     t).1 = obtained).
  { intros t. unfold mock_step, obtained.
    destruct secondary as [|p ps]; cbn [nonempty negb andb]; [|reflexivity].
    destruct (use_mock_fallback && mock_provider_imported E); reflexivity. }
  rewrite Hfo, Hmo.
  eexists _, _. split; [reflexivity|].
  assert (Hnone_iff : obtained = []
            <-> (forall k, (k < MAX_RETRIES)%nat -> ~ produces (outcome (base + k)%nat))
                /\ (is_Some last_error -> ~ produces failover_outcome)
                /\ (use_mock_fallback = true -> mock_provider_imported E = true ->
                    catalog_subset (today E) st d c requested = [])).
  { pose proof (loop_records_none outcome base MAX_RETRIES) as Hprim.
    fold primary in Hprim. unfold obtained, secondary.
    destruct primary as [|p ps].
    - destruct last_error as [e|].
      + destruct failover_outcome as [[|q qs]|e'].
        * destruct use_mock_fallback, (mock_provider_imported E); cbn [andb];
            split;
            try (intros H; split; [now apply Hprim|];
                 split; [intros _ (x & [= <-] & Hx); congruence|]; intros; congruence);
            try (intros (_ & _ & H); first [now apply H | reflexivity]);
            try (intros H; split; [now apply Hprim|];
                 split; [intros _ (x & [= <-] & Hx); congruence|];
                 intros; first [exact H | discriminate]).
        * split; [discriminate|].
          intros (_ & H & _). exfalso. apply H; [eauto|].
          exists (q :: qs). split; [reflexivity|discriminate].
        * destruct use_mock_fallback, (mock_provider_imported E); cbn [andb];
            split;
            try (intros (_ & _ & H); first [now apply H | reflexivity]);
            try (intros H; split; [now apply Hprim|];
                 split; [intros _ (x & Hx & _); discriminate|];
                 intros; first [exact H | discriminate]).
      + destruct use_mock_fallback, (mock_provider_imported E); cbn [andb];
          split;
          try (intros (_ & _ & H); first [now apply H | reflexivity]);
          try (intros H; split; [now apply Hprim|];
               split; [intros [? ?]; discriminate|];
               intros; first [exact H | discriminate]).
    - split; [discriminate|].
      intros (H & _). apply Hprim in H. discriminate. }
  unfold final_response. fold kept.
  destruct kept as [|p rest] eqn:Hkept.
  - cbn [success data count message resp_state resp_district resp_crop_name fetched_at
         failure_response length].
    rewrite failure_message_spelled.
    do 6 (split; [reflexivity|]).
    split; [split; congruence|].
    split; [congruence|].
    split; [intros _; repeat split|].
    split; [exact Hnone_iff|].
    intros Hn. split; [reflexivity|]. apply loop_error_last_raised.
    apply loop_records_none. now apply Hnone_iff.
  - cbn [success data count message resp_state resp_district resp_crop_name fetched_at
         success_response].
    do 6 (split; [reflexivity|]).
    split; [split; [discriminate | reflexivity]|].
    split; [reflexivity|].
    split; [discriminate|].
    split; [exact Hnone_iff|].
    intros Hn. exfalso. unfold kept in Hkept. rewrite Hn in Hkept. discriminate.
Qed.

End LiveResponse.

Lemma live_call_reports_failure_or_success_witness :
  (state_given "Atlantis" /\ live_mode portals_up None
   /\ selected_source "agmarknet" = Some Agmarknet)
  /\ exists response final,
       get_crop_prices (pydantic := strict_mode) portals_up "Atlantis" None (Some "rice")
           None "agmarknet" true None []
       = (Returns response, final)
       /\ success response = false
       /\ data response = []
       /\ count response = 0%Z
       /\ message response
          = Some ("No price data found for state=Atlantis, crop=Rice. Last error: "
                  +:+ "[agmarknet] AGMARKNET form submission not fully implemented. "
                  +:+ "Use alternative data source or implement form handling.").
Proof.
  assert (Hgiven : state_given "Atlantis") by (unfold state_given; discriminate).
  split; [split; [exact Hgiven | split; reflexivity]|].
  destruct (live_call_reports_failure_or_success
              (str_methods := PyStr.ascii_methods) (pydantic := strict_mode)
              portals_up "Atlantis" None (Some "rice") None
              "agmarknet" true None Agmarknet [] Hgiven eq_refl eq_refl)
    as (response & final & Hrun & _ & _ & _ & _ & _ & _ & _ & _ & Hfailure & _).
  - intros k _. right. apply stubs_raise_retryable.
  - exists response, final. split; [exact Hrun|].
    destruct (Hfailure eq_refl) as (Hs & Hd & Hc & Hm).
    split; [exact Hs|]. split; [exact Hd|]. split; [exact Hc | exact Hm].
Defined.

Example live_call_keeps_filtered_records :
  get_crop_prices (pydantic := strict_mode) agmarknet_recovers "punjab" None
      (Some "WHEAT") None "agmarknet" false None []
  = (Returns (mkPriceResponse true [ludhiana_wheat] 1 "Punjab" None (Some "Wheat")
                              ten_thirty (Some "Successfully fetched 1 price entries")),
     [Fetch Agmarknet; Sleep 2; Fetch Agmarknet]).
Proof. reflexivity. Qed.

(** ** Mock-only mode *)

Lemma filter_map_comm {A B} (h : A -> B) (f : B -> bool) (l : list A) :
  List.filter f (map h l) = map h (List.filter (fun x => f (h x)) l).
Proof.
  induction l as [|x l IH]; simpl; [reflexivity|].
  destruct (f (h x)); simpl; now rewrite IH.
Qed.

Lemma filter_implied {A} (f g : A -> bool) (l : list A) :
  (forall x, g x = true -> f x = true) ->
  List.filter f (List.filter g l) = List.filter g l.
Proof.
  intros Himp. induction l as [|x l IH]; simpl; [reflexivity|].
  destruct (g x) eqn:Hg; [|exact IH].
  simpl. now rewrite (Himp x Hg), IH.
Qed.

(** The records of the mock provider already satisfy the district and crop
    filter of the orchestrator. *)
Lemma catalog_subset_filtered {str_methods : PyStr.Methods} today st d c pd :
  by_crop c (by_district d (catalog_subset today st d c pd))
  = catalog_subset today st d c pd.
Proof.
  unfold by_crop, by_district, catalog_subset.
  rewrite !restrict_filter, !filter_map_comm.
  cbn [district crop_name stamp].
  rewrite (filter_implied (fun x => passes d (e_district x))),
          (filter_implied (fun x => passes c (e_crop_name x))); [reflexivity|..];
    intros e He; unfold matches in He;
    apply andb_true_iff in He as [_ He]; apply andb_true_iff in He; tauto.
Qed.

Lemma post_filter_catalog_subset {str_methods : PyStr.Methods} today st d c pd :
  post_filter d c (catalog_subset today st d c pd) = catalog_subset today st d c pd.
Proof.
  unfold post_filter.
  destruct (nonempty (catalog_subset today st d c pd)); [|reflexivity].
  apply catalog_subset_filtered.
Qed.

Lemma filter_none {A} (f : A -> bool) (l : list A) :
  (forall x, In x l -> f x = false) -> List.filter f l = [].
Proof.
  induction l as [|x l IH]; intros Hall; simpl; [reflexivity|].
  rewrite (Hall x) by now left. apply IH. intros y Hy. apply Hall. now right.
Qed.

(** A state that is not in the catalog selects nothing. *)
Lemma no_match_when_state_absent {str_methods : PyStr.Methods} st d c :
  ~ In (PyStr.lower st) (map PyStr.lower catalog_states) ->
  List.filter (matches st d c) all_crops = [].
Proof.
  intros Hnot. apply filter_none. intros e He.
  unfold matches. destruct (same_ci (e_state e) st) eqn:Hsame; [|reflexivity].
  exfalso. apply Hnot. unfold same_ci in Hsame. apply String.eqb_eq in Hsame.
  rewrite <- Hsame. apply in_map. now apply catalog_states_complete.
Qed.

Section MockOnly.

Context {str_methods : PyStr.Methods} {pydantic : Pydantic}.

Lemma mock_only_path_run E st d c pd tr :
  mock_only_path E st d c pd tr
  = if mock_provider_imported E
    then (Returns (match catalog_subset (today E) st d c pd with
                   | [] => mock_unavailable_response E st d c
                   | records => mock_success_response E st d c records
                   end), tr ++ [MockCall])
    else (Returns (mock_unavailable_response E st d c), tr).
Proof.
  unfold mock_only_path, bind at 1.
  destruct (mock_provider_imported E).
  - unfold try_except, bind at 1. rewrite call_mock_run.
    pose proof (catalog_subset_filtered (today E) st d c pd) as Hsame.
    destruct (catalog_subset (today E) st d c pd) as [|p records] eqn:Hsub.
    + cbn [nonempty]. unfold ret. now rewrite respond_run.
    + cbn [nonempty]. rewrite Hsame. unfold bind, ret. now rewrite respond_run.
  - unfold ret. now rewrite respond_run.
Qed.

Lemma string_append_nonempty (a b : string) : a <> "" -> a +:+ b <> "".
Proof. destruct a; [congruence | discriminate]. Qed.

(** Atlantis is not a state of the catalog, with or without case. *)
Lemma atlantis_not_in_catalog :
  ~ In (PyStr.lower (normalize "Atlantis")) (map PyStr.lower catalog_states).
Proof.
  unfold normalize. rewrite (PyStr.strip_ascii "Atlantis" eq_refl).
  rewrite (PyStr.title_ascii (PyStr.ascii_strip "Atlantis") eq_refl).
  rewrite (PyStr.lower_ascii (PyStr.ascii_title (PyStr.ascii_strip "Atlantis")) eq_refl).
  rewrite (map_lower_ascii catalog_states eq_refl).
  vm_compute. intuition discriminate.
Qed.

(** C8. In mock-only mode, with the mock provider importable,
    [get_crop_prices] returns a response right after its one call of the
    mock provider: no adapter is called and nothing is slept; the response
    has [success = true] exactly when the filtered record set is not empty.
    For a state that is not in the catalog, such as Atlantis, the response
    has [success = false], count 0 and a non-empty message. *)
Theorem mock_only_mode_answers_from_catalog
        (E : environment) (state : string) (district crop_name : option string)
        (requested : option date) (data_source : string) (use_mock_fallback : bool)
        (use_mock_only : option bool) (tr : trace) :
  state_given state ->
  mock_only_mode E use_mock_only ->
  mock_provider_imported E = true ->
  let st := normalize state in
  let d := normalize_opt district in
  let c := normalize_opt crop_name in
  let records := post_filter d c (catalog_subset (today E) st d c requested) in
  exists response,
    get_crop_prices E state district crop_name requested data_source
                    use_mock_fallback use_mock_only tr
    = (Returns response, tr ++ [MockCall])
    /\ (forall src, fetches src (tr ++ [MockCall]) = fetches src tr)
    /\ sleeps (tr ++ [MockCall]) = sleeps tr
    /\ (success response = true <-> records <> [])
    /\ data response = records
    /\ count response = Z.of_nat (length records)
    /\ (exists m, message response = Some m /\ m <> "")
    /\ (~ In (PyStr.lower st) (map PyStr.lower catalog_states) ->
        success response = false /\ count response = 0%Z /\ data response = [])
    /\ (state = "Atlantis" ->
        success response = false /\ count response = 0%Z /\ data response = []).
Proof.
  intros Hgiven Hmode Himported st d c records.
  rewrite get_crop_prices_mock_only by assumption. fold st d c.
  rewrite mock_only_path_run, Himported.
  unfold records. rewrite post_filter_catalog_subset.
  assert (Habsent : ~ In (PyStr.lower st) (map PyStr.lower catalog_states) ->
                    catalog_subset (today E) st d c requested = []).
  { intros Hnot. unfold catalog_subset.
    now rewrite no_match_when_state_absent. }
  eexists. split; [reflexivity|].
  split; [intros src; rewrite fetches_app; unfold fetches at 2; simpl; lia|].
  split; [rewrite sleeps_app; simpl; apply app_nil_r|].
  destruct (catalog_subset (today E) st d c requested) as [|p rest] eqn:Hsub.
  - cbn [success data count message mock_unavailable_response length].
    split; [split; congruence|]. split; [reflexivity|]. split; [reflexivity|].
    split; [|auto].
    exists "Mock data provider unavailable". split; [reflexivity|discriminate].
  - cbn [success data count message mock_success_response].
    split; [split; congruence|]. split; [reflexivity|]. split; [reflexivity|].
    split.
    + eexists. split; [reflexivity|]. apply string_append_nonempty. discriminate.
    + split; [intros Hnot; specialize (Habsent Hnot); discriminate|].
      intros Hstate.
      assert (Hnot : ~ In (PyStr.lower st) (map PyStr.lower catalog_states))
        by (unfold st; rewrite Hstate; apply atlantis_not_in_catalog).
      specialize (Habsent Hnot). discriminate.
Qed.

End MockOnly.

Lemma mock_only_mode_answers_from_catalog_witness :
  (state_given "Atlantis" /\ mock_only_mode portals_up (Some true)
   /\ mock_provider_imported portals_up = true)
  /\ exists response,
       get_crop_prices (pydantic := strict_mode) portals_up "Atlantis" None None None
           "agmarknet" true (Some true) []
       = (Returns response, [] ++ [MockCall])
       /\ success response = false /\ count response = 0%Z
       /\ exists m, message response = Some m /\ m <> "".
Proof.
  assert (Hgiven : state_given "Atlantis") by (unfold state_given; discriminate).
  split; [split; [exact Hgiven | split; reflexivity]|].
  destruct (mock_only_mode_answers_from_catalog
              (str_methods := PyStr.ascii_methods) (pydantic := strict_mode)
              portals_up "Atlantis"
              None None None "agmarknet" true (Some true) [] Hgiven eq_refl eq_refl)
    as (response & Hrun & _ & _ & _ & _ & _ & Hmsg & Habsent & _).
  exists response. split; [exact Hrun|].
  destruct Habsent as (Hs & Hc & _).
  - vm_compute. intuition discriminate.
  - split; [exact Hs|]. split; [exact Hc | exact Hmsg].
Defined.

Example mock_only_delhi :
  exists response,
    get_crop_prices (pydantic := strict_mode) portals_up "delhi" None None None
        "agmarknet" true (Some true) [] = (Returns response, [MockCall])
    /\ success response = true /\ count response = 5%Z
    /\ message response = Some "Successfully fetched 5 mock price entries (dev mode)".
Proof. eexists. split; [vm_compute; reflexivity|]. repeat split. Qed.

(** ** Input validation and the data source *)

Section Validation.

Context {str_methods : PyStr.Methods} {pydantic : Pydantic}.

Lemma retry_loop_ext E st d c pd ds1 ds2 n dl attempts prices le tr :
  primary_attempt E st d c pd ds1 = primary_attempt E st d c pd ds2 ->
  retry_loop E st d c pd ds1 n dl attempts prices le tr
  = retry_loop E st d c pd ds2 n dl attempts prices le tr.
Proof.
  intros Hsame. revert prices le tr.
  induction attempts as [|a rest IH]; intros prices le tr; [reflexivity|].
  cbn [retry_loop]. unfold bind at 1 3, observe. rewrite Hsame.
  destruct (primary_attempt E st d c pd ds2 tr) as [[fetched|e] tr0].
  - destruct (nonempty fetched); [reflexivity | apply IH].
  - destruct (is_network_or_source e); [|reflexivity].
    unfold bind, sleep, emit, ret. destruct (a <? n - 1)%nat; apply IH.
Qed.

(** The orchestrator looks at [data_source] only through its lower-case
    form, as long as that form names an adapter. *)
Lemma live_path_lower E st d c pd ds umf tr :
  selected_source ds <> None ->
  live_path E st d c pd ds umf tr = live_path E st d c pd (PyStr.lower ds) umf tr.
Proof.
  intros Hknown.
  destruct (selected_source ds) as [src|] eqn:Hsrc; [clear Hknown | congruence].
  assert (Hattempt : primary_attempt E st d c pd ds
                     = primary_attempt E st d c pd (PyStr.lower ds)).
  { rewrite (primary_attempt_known E st d c pd ds src Hsrc).
    symmetry. apply primary_attempt_known.
    rewrite selected_source_lower; [exact Hsrc | congruence]. }
  unfold live_path, bind at 1 4.
  rewrite (retry_loop_ext E st d c pd ds (PyStr.lower ds) _ _ _ _ _ _ Hattempt).
  destruct (retry_loop _ _ _ _ _ (PyStr.lower ds) _ _ _ _ _ _) as [[[prices le]|e] tr1];
    [|reflexivity].
  unfold bind. rewrite !failover_run.
  unfold failover_step, fallback_of.
  rewrite lower_of_known; [reflexivity | congruence].
Qed.

(** Each path ends with a response or with the generic orchestration error. *)
Lemma mock_only_path_returns E st d c pd tr :
  exists response final, mock_only_path E st d c pd tr = (Returns response, final).
Proof. rewrite mock_only_path_run. destruct (mock_provider_imported E); eauto. Qed.

Lemma live_path_outcome E st d c pd ds umf tr :
  (exists response final, live_path E st d c pd ds umf tr = (Returns response, final))
  \/ (exists m final, live_path E st d c pd ds umf tr = (Raises (CropPriceError m), final)).
Proof.
  destruct (retry_loop E st d c pd ds MAX_RETRIES RETRY_DELAY (seq 0 MAX_RETRIES) [] None tr)
    as [[[prices le]|e] tr1] eqn:Hloop.
  - left. rewrite (live_path_after_loop E st d c pd ds umf tr _ _ _ Hloop). eauto.
  - right. destruct (retry_loop_raises _ _ _ _ _ _ _ _ _ _ _ _ _ _ Hloop) as [m ->].
    rewrite (live_path_loop_raises E st d c pd ds umf tr _ _ Hloop). eauto.
Qed.

Lemma ascii_lstrip_blank (s : string) :
  PyStr.ascii_lstrip s = "" <-> ascii_blank s = true.
Proof.
  induction s as [|a s IH]; [simpl; tauto|].
  cbn [PyStr.ascii_lstrip ascii_blank].
  destruct (PyStr.is_space a); cbn [andb]; [exact IH|].
  split; discriminate.
Qed.

Lemma ascii_rstrip_blank (s : string) :
  PyStr.ascii_rstrip s = "" <-> ascii_blank s = true.
Proof.
  induction s as [|a s IH]; [simpl; tauto|].
  cbn [PyStr.ascii_rstrip ascii_blank].
  destruct (PyStr.ascii_rstrip s) as [|x y].
  - destruct (PyStr.is_space a); cbn [andb]; [tauto|]. split; discriminate.
  - split; [discriminate|]. intros H. apply andb_true_iff in H as [_ H].
    apply IH in H. discriminate.
Qed.

Lemma ascii_blank_lstrip (s : string) :
  ascii_blank (PyStr.ascii_lstrip s) = ascii_blank s.
Proof.
  induction s as [|a s IH]; [reflexivity|].
  cbn [PyStr.ascii_lstrip]. destruct (PyStr.is_space a) eqn:Hsp.
  - cbn [ascii_blank]. now rewrite Hsp.
  - reflexivity.
Qed.

(** On ASCII text the state is blank for [strip] exactly when it consists
    of whitespace only. *)
Lemma strip_blank_ascii (s : string) :
  PyStr.is_ascii s = true -> (PyStr.strip s = "" <-> ascii_blank s = true).
Proof.
  intros H. rewrite (PyStr.strip_ascii s H). unfold PyStr.ascii_strip.
  now rewrite ascii_rstrip_blank, ascii_blank_lstrip.
Qed.

(** C9. [get_crop_prices] raises the input error exactly when the state is
    empty or blank, that is when [strip] leaves nothing of it (for ASCII
    text: when it consists of whitespace only); the error is raised at
    once, before any adapter, sleep or mock call, and is not turned into a
    response.  For any other state no input error is raised. *)
Theorem input_error_iff_state_blank
        (E : environment) (state : string) (district crop_name : option string)
        (requested : option date) (data_source : string) (use_mock_fallback : bool)
        (use_mock_only : option bool) (tr : trace) :
  let run := get_crop_prices E state district crop_name requested data_source
                             use_mock_fallback use_mock_only tr in
  ((exists msg, run.1 = Raises (ValueError msg)) <-> PyStr.strip state = "")
  /\ (PyStr.strip state = "" ->
      run = (Raises (ValueError "State parameter is required and cannot be empty"), tr))
  /\ (state = "" -> PyStr.strip state = "")
  /\ (PyStr.is_ascii state = true ->
      (PyStr.strip state = "" <-> ascii_blank state = true)).
Proof.
  intros run.
  assert (Hblank : PyStr.strip state = "" ->
                   run = (Raises (ValueError
                                    "State parameter is required and cannot be empty"), tr))
    by (intros Hb; unfold run; now apply get_crop_prices_blank).
  split; [|split; [exact Hblank|split; [|apply strip_blank_ascii]]];
    [|intros ->; exact (PyStr.strip_ascii "" eq_refl)].
  split.
  - intros [msg Hmsg].
    destruct (String.string_dec (PyStr.strip state) "") as [Hb|Hgiven]; [exact Hb|].
    exfalso. unfold run in Hmsg.
    destruct (default (DEV_MODE E) use_mock_only) eqn:Hmode.
    + rewrite get_crop_prices_mock_only in Hmsg by assumption.
      destruct (mock_only_path_returns E (normalize state) (normalize_opt district)
                  (normalize_opt crop_name) requested tr) as (r & t & Hr).
      rewrite Hr in Hmsg. discriminate.
    + rewrite get_crop_prices_live in Hmsg by assumption.
      destruct (live_path_outcome E (normalize state) (normalize_opt district)
                  (normalize_opt crop_name) requested data_source use_mock_fallback tr)
        as [(r & t & Hr) | (m & t & Hr)]; rewrite Hr in Hmsg; discriminate.
  - intros Hb. rewrite (Hblank Hb). eauto.
Qed.

(** C10. The data source is compared without case: a name whose lower-case
    form is [agmarknet] or [enam] behaves as that lower-case form, so
    [AGMARKNET] selects the AGMARKNET adapter and [Enam] the e-NAM one.  In
    live mode any other name makes the first attempt fail with an error that
    is wrapped into [CropPriceError]; the call ends there, with no adapter
    call, no sleep and no mock call. *)
Theorem data_source_without_case_unknown_aborts
        (E : environment) (state : string) (district crop_name : option string)
        (requested : option date) (data_source : string) (use_mock_fallback : bool)
        (use_mock_only : option bool) (tr : trace) :
  (PyStr.lower data_source = "agmarknet" \/ PyStr.lower data_source = "enam" ->
   get_crop_prices E state district crop_name requested data_source
                   use_mock_fallback use_mock_only tr
   = get_crop_prices E state district crop_name requested (PyStr.lower data_source)
                     use_mock_fallback use_mock_only tr)
  /\ (PyStr.lower data_source = "agmarknet" ->
      primary_attempt E state district crop_name requested data_source
      = call_adapter E Agmarknet state district crop_name requested)
  /\ (PyStr.lower data_source = "enam" ->
      primary_attempt E state district crop_name requested data_source
      = call_adapter E Enam state district crop_name requested)
  /\ PyStr.lower "AGMARKNET" = "agmarknet"
  /\ PyStr.lower "Enam" = "enam"
  /\ (state_given state -> live_mode E use_mock_only ->
      PyStr.lower data_source <> "agmarknet" -> PyStr.lower data_source <> "enam" ->
      get_crop_prices E state district crop_name requested data_source
                      use_mock_fallback use_mock_only tr
      = (Raises (CropPriceError
                   ("Unexpected error fetching prices: Unknown data source: "
                    +:+ data_source)), tr)).
Proof.
  assert (Hsel : forall ds src,
             PyStr.lower ds = match src with Agmarknet => "agmarknet" | Enam => "enam" end ->
             selected_source ds = Some src)
    by (intros ds [] H; unfold selected_source; rewrite H; reflexivity).
  split; [|split; [|split; [|split; [|split]]]].
  4: exact (PyStr.lower_ascii "AGMARKNET" eq_refl).
  4: exact (PyStr.lower_ascii "Enam" eq_refl).
  - intros Hknown.
    assert (Hsome : selected_source data_source <> None)
      by (destruct Hknown as [H|H];
          [rewrite (Hsel _ Agmarknet H) | rewrite (Hsel _ Enam H)]; discriminate).
    unfold get_crop_prices.
    destruct (negb (PyStr.truthy state) || negb (PyStr.truthy (PyStr.strip state)));
      [reflexivity|].
    destruct (match use_mock_only with Some b => b | None => DEV_MODE E end);
      [reflexivity|].
    now apply live_path_lower.
  - intros H. apply primary_attempt_known. now apply (Hsel _ Agmarknet).
  - intros H. apply primary_attempt_known. now apply (Hsel _ Enam).
  - intros Hgiven Hlive Hna Hne.
    rewrite get_crop_prices_live by assumption.
    assert (Hnone : selected_source data_source = None).
    { unfold selected_source.
      destruct (String.eqb_spec (PyStr.lower data_source) "agmarknet"); [contradiction|].
      destruct (String.eqb_spec (PyStr.lower data_source) "enam"); [contradiction|].
      reflexivity. }
    apply live_path_loop_raises.
    change (seq 0 MAX_RETRIES) with (0%nat :: seq 1 (MAX_RETRIES - 1)).
    now apply retry_loop_unknown_source.
Qed.

End Validation.

Lemma input_error_iff_state_blank_witness :
  PyStr.strip "   " = ""
  /\ get_crop_prices (pydantic := strict_mode) portals_up "   " None None None "agmarknet"
         true None []
     = (Raises (ValueError "State parameter is required and cannot be empty"), [])
  /\ PyStr.strip " Goa " = "Goa".
Proof.
  split; [reflexivity|]. split; [|reflexivity].
  apply (input_error_iff_state_blank
           (str_methods := PyStr.ascii_methods) (pydantic := strict_mode)
           portals_up "   " None None None "agmarknet" true None []).
  reflexivity.
Defined.

Lemma data_source_without_case_unknown_aborts_witness :
  (state_given "Delhi" /\ live_mode portals_up None
   /\ PyStr.lower "e-nam" <> "agmarknet" /\ PyStr.lower "e-nam" <> "enam")
  /\ get_crop_prices (pydantic := strict_mode) portals_up "Delhi" None None None "e-nam"
         true None []
     = (Raises (CropPriceError
                  "Unexpected error fetching prices: Unknown data source: e-nam"), [])
  /\ get_crop_prices (pydantic := strict_mode) portals_up "Delhi" None None None
         "AGMARKNET" true None []
     = get_crop_prices (pydantic := strict_mode) portals_up "Delhi" None None None
           "agmarknet" true None [].
Proof.
  assert (Hgiven : state_given "Delhi") by (unfold state_given; discriminate).
  split; [split; [exact Hgiven | split; [reflexivity | split; discriminate]]|].
  split.
  - apply (data_source_without_case_unknown_aborts
             (str_methods := PyStr.ascii_methods) (pydantic := strict_mode)
             portals_up "Delhi" None
             None None "e-nam" true None []);
      [exact Hgiven | reflexivity | discriminate | discriminate].
  - destruct (data_source_without_case_unknown_aborts
                (str_methods := PyStr.ascii_methods) (pydantic := strict_mode)
                portals_up "Delhi" None None None "AGMARKNET" true None [])
      as [Hlower _].
    exact (Hlower (or_introl eq_refl)).
Defined.

Lemma CropPrice_construction_all_or_nothing_witness :
  CropPrice_new (pydantic := strict_mode) example_raw = inr example_price
  /\ fle (min_price example_price) (modal_price example_price) = true
  /\ fle (modal_price example_price) (max_price example_price) = true.
Proof.
  split; [reflexivity|].
  apply (CropPrice_construction_all_or_nothing (pydantic := strict_mode) example_raw).
  reflexivity.
Defined.

(* ===================================================================== *)
(** * The rest of the code: properties                                    *)
(* ===================================================================== *)

(** ** crop_price_fetcher.py: parse_price_data *)

Section ParsePriceData.

Context {str_methods : PyStr.Methods} {pydantic : Pydantic}.

Lemma accepted_as_iff item p : accepted_as item p <-> CropPrice_new item = inr p.
Proof.
  unfold accepted_as. split.
  - intros [Ht Hp]. now apply CropPrice_new_complete.
  - apply CropPrice_new_sound.
Qed.

(** X1. [parse_price_data] returns the records [prices] exactly when every
    item is accepted, item by item and in order, as the record at the same
    position; in particular the result has as many records as there are
    items and every record satisfies the price constraints. *)
Theorem parse_price_data_returns_iff (raw_data : list kwargs) (prices : list CropPrice) :
  (parse_price_data raw_data = Returns prices <-> Forall2 accepted_as raw_data prices)
  /\ (parse_price_data raw_data = Returns prices ->
      length prices = length raw_data /\ Forall price_constraints prices).
Proof.
  assert (Hiff : forall raw ps,
             parse_price_data raw = Returns ps <-> Forall2 accepted_as raw ps).
  { induction raw as [|item rest IH]; intros ps; cbn [parse_price_data].
    - split.
      + intros [= <-]. constructor.
      + intros H. inversion H. reflexivity.
    - destruct (CropPrice_new item) as [errs|p] eqn:Hitem; cbn [construct].
      + split; [discriminate|].
        intros H. inversion H as [|? q ? ? Hacc]; subst.
        apply accepted_as_iff in Hacc. congruence.
      + destruct (parse_price_data rest) as [qs|e] eqn:Hrest.
        * split.
          -- intros [= <-]. constructor; [now apply accepted_as_iff | now apply IH].
          -- intros H. inversion H as [|? q ? qs' Hacc Hall]; subst.
             apply accepted_as_iff in Hacc. apply IH in Hall.
             congruence.
        * split; [discriminate|].
          intros H. inversion H as [|? q ? qs' Hacc Hall]; subst.
          apply IH in Hall. discriminate. }
  split; [apply Hiff|].
  intros Hret. apply Hiff in Hret.
  split.
  - symmetry. eapply Forall2_length. exact Hret.
  - induction Hret as [|item p raw ps [_ Hp] _ IH]; constructor; assumption.
Qed.

(** X2. When the items before some item are all accepted and that item is
    refused, [parse_price_data] raises [DataValidationError] with the text of
    that item's validation error, whatever follows the item: one bad item
    loses the whole batch, and the items after it are not looked at. *)
Theorem parse_price_data_first_refusal
        (good : list kwargs) (bad : kwargs) (rest : list kwargs)
        (errs : list line_error) :
  Forall (fun item => exists p, CropPrice_new item = inr p) good ->
  CropPrice_new bad = inl errs ->
  parse_price_data (good ++ bad :: rest)
  = Raises (DataValidationError ("Invalid price data format: " +:+ error_text errs)).
Proof.
  intros Hgood Hbad. induction Hgood as [|item good [p Hp] _ IH].
  - cbn [app parse_price_data]. rewrite Hbad. reflexivity.
  - cbn [app parse_price_data]. rewrite Hp. cbn [construct]. now rewrite IH.
Qed.

(** X3. Parsing two batches one after the other is parsing their
    concatenation: the records of the first followed by those of the second,
    or the error of the first batch, or else the error of the second; and
    whatever [parse_price_data] raises is a [DataValidationError]. *)
Theorem parse_price_data_app (batch1 batch2 : list kwargs) :
  parse_price_data (batch1 ++ batch2)
  = match parse_price_data batch1 with
    | Raises e => Raises e
    | Returns prices1 =>
        match parse_price_data batch2 with
        | Raises e => Raises e
        | Returns prices2 => Returns (prices1 ++ prices2)
        end
    end
  /\ (forall e, parse_price_data batch1 = Raises e -> exists msg, e = DataValidationError msg).
Proof.
  split.
  - induction batch1 as [|item rest IH]; cbn [app parse_price_data].
    + destruct (parse_price_data batch2); reflexivity.
    + destruct (construct (CropPrice_new item)); [|reflexivity].
      rewrite IH. destruct (parse_price_data rest); [|reflexivity].
      destruct (parse_price_data batch2); reflexivity.
  - induction batch1 as [|item rest IH]; cbn [parse_price_data]; intros e.
    + discriminate.
    + destruct (construct (CropPrice_new item)); [|intros [= <-]; eauto].
      destruct (parse_price_data rest); [discriminate|].
      intros [= <-]. now apply IH.
Qed.

End ParsePriceData.

Lemma parse_price_data_returns_iff_witness :
  parse_price_data (pydantic := strict_mode) [example_raw; example_raw]
  = Returns [example_price; example_price]
  /\ length [example_price; example_price] = length [example_raw; example_raw]
  /\ Forall price_constraints [example_price; example_price].
Proof.
  destruct (parse_price_data_returns_iff (pydantic := strict_mode) [example_raw; example_raw]
              [example_price; example_price]) as [_ Hfacts].
  split; [reflexivity | exact (Hfacts eq_refl)].
Defined.

Lemma parse_price_data_first_refusal_witness :
  parse_price_data (pydantic := strict_mode) [example_raw; bad_modal_raw; example_raw]
  = Raises (DataValidationError "Invalid price data format: 1 validation errors").
Proof.
  apply (parse_price_data_first_refusal (pydantic := strict_mode) [example_raw] bad_modal_raw
           [example_raw]
           [ValueErr "modal_price" "modal_price must be between min_price and max_price"]).
  - constructor; [|constructor]. exists example_price. reflexivity.
  - reflexivity.
Defined.

(** ** models.py: further behaviour of the two models *)

Section ModelBehaviour.

Context {str_methods : PyStr.Methods} {pydantic : Pydantic}.

Lemma required_insert_other {A} raw k v name (validate : pyval -> option A) :
  k <> name -> required (<[k := v]> raw) name validate = required raw name validate.
Proof. intros Hne. unfold required. now rewrite lookup_insert_ne. Qed.

Lemma with_default_insert_other {A} raw k v name (validate : pyval -> option A) dflt :
  k <> name ->
  with_default (<[k := v]> raw) name validate dflt = with_default raw name validate dflt.
Proof. intros Hne. unfold with_default. now rewrite lookup_insert_ne. Qed.

(** X4. A key that is not a field of [CropPrice] is ignored: with or without
    it the construction gives the same record or the same errors. *)
Theorem CropPrice_ignores_extra_keys (raw : kwargs) (k : string) (v : pyval) :
  ~ In k CropPrice_fields ->
  CropPrice_new (<[k := v]> raw) = CropPrice_new raw.
Proof.
  intros Hk. unfold CropPrice_fields in Hk. cbn [In] in Hk.
  unfold CropPrice_new.
  rewrite !required_insert_other, !with_default_insert_other by intuition congruence.
  reflexivity.
Qed.

(** X5. When the three prices are non-negative floats and [max_price] is
    below [min_price], the validation error has exactly one line, on
    [max_price]: the check of [modal_price] against the range is skipped,
    whatever the modal price is, because [max_price] did not validate. *)
Theorem CropPrice_max_below_min_one_error
        (raw : kwargs) (c : CropPrice) :
  typed_input raw c ->
  fle fzero (min_price c) = true ->
  fle fzero (max_price c) = true ->
  fle fzero (modal_price c) = true ->
  flt (max_price c) (min_price c) = true ->
  CropPrice_new raw
  = inl [ValueErr "max_price" "max_price must be greater than or equal to min_price"].
Proof.
  destruct c as [cn mn mx md mk di st pd un].
  unfold typed_input;
    cbn [crop_name min_price max_price modal_price market_name district state
         price_date unit].
  intros (H1 & H2 & H3 & H4 & H5 & H6 & H7 & H8 & H9) Hmn Hmx Hmd Hlt.
  apply required_inr in H1, H2, H3, H4, H5, H6, H7, H8.
  assert (H9' : with_default raw "unit" validate_str "Quintal" = inr un)
    by (apply with_default_inr; destruct (raw !! "unit"); congruence).
  unfold CropPrice_new.
  rewrite H1, H2, H3, H4, H5, H6, H7, H8, H9'.
  cbn [ge0]. rewrite Hmn, Hmx, Hmd.
  cbn [after in_data validate_max_price]. rewrite Hlt.
  cbn [in_data validate_modal_price errors_of app]. reflexivity.
Qed.

(** X6. [count] has to be passed to [PriceResponse] although its value is
    never used: without the key the construction fails with a missing-field
    line for [count]; with the key, when [data] is absent or valid, any two
    values of [count] give the same result. *)
Theorem PriceResponse_count_required_but_unused (now : datetime) (raw : kwargs) :
  (raw !! "count" = None ->
   exists errs, PriceResponse_new now raw = inl errs /\ In (Missing "count") errs)
  /\ (forall v1 v2 da,
         with_default raw "data" validate_data [] = inr da ->
         PriceResponse_new now (<["count" := v1]> raw)
         = PriceResponse_new now (<["count" := v2]> raw)).
Proof.
  split.
  - intros Hnone. unfold PriceResponse_new.
    assert (Hrb : forall before,
               required_before raw "count" before validate_int = inl [Missing "count"])
      by (intros before; unfold required_before; now rewrite Hnone).
    rewrite !Hrb.
    set (f1 := required raw "success" validate_bool).
    set (f2 := with_default raw "data" validate_data []).
    set (f4 := required raw "state" validate_str).
    set (f5 := with_default raw "district" validate_opt_str None).
    set (f6 := with_default raw "crop_name" validate_opt_str None).
    set (f7 := with_default raw "fetched_at" validate_datetime now).
    set (f8 := with_default raw "message" validate_opt_str None).
    assert (Hin : In (Missing "count")
                     (errors_of f1 ++ errors_of f2
                      ++ errors_of (inl [Missing "count"] : field_result Z)
                      ++ errors_of f4 ++ errors_of f5 ++ errors_of f6
                      ++ errors_of f7 ++ errors_of f8))
      by (rewrite !in_app_iff; right; right; left; cbn; auto).
    destruct f1, f2; eexists; (split; [reflexivity | exact Hin]).
  - intros v1 v2 da Hdata. unfold PriceResponse_new.
    rewrite !required_insert_other, !with_default_insert_other by discriminate.
    rewrite Hdata. cbn [in_data].
    unfold required_before. rewrite !lookup_insert_eq.
    reflexivity.
Qed.

(** X7. What is left out of a [PriceResponse] takes its default: without
    [data] the response has no data and count 0 whatever count was passed,
    without [fetched_at] it carries the current time, and without
    [district], [crop_name] or [message] these are [None]. *)
Theorem PriceResponse_defaults (now : datetime) (raw : kwargs) (r : PriceResponse) :
  PriceResponse_new now raw = inr r ->
  (raw !! "data" = None -> data r = [] /\ count r = 0%Z)
  /\ (raw !! "fetched_at" = None -> fetched_at r = now)
  /\ (raw !! "district" = None -> resp_district r = None)
  /\ (raw !! "crop_name" = None -> resp_crop_name r = None)
  /\ (raw !! "message" = None -> message r = None).
Proof.
  unfold PriceResponse_new. intros H.
  destruct (required raw "success" validate_bool) as [|su]; [discriminate|].
  destruct (with_default raw "data" validate_data []) as [|da] eqn:Hda; [discriminate|].
  cbn [in_data set_count] in H.
  destruct (required_before raw "count" _ validate_int) as [|co] eqn:Hco; [discriminate|].
  destruct (required raw "state" validate_str) as [|st]; [discriminate|].
  destruct (with_default raw "district" validate_opt_str None) as [|di] eqn:Hdi;
    [discriminate|].
  destruct (with_default raw "crop_name" validate_opt_str None) as [|cr] eqn:Hcr;
    [discriminate|].
  destruct (with_default raw "fetched_at" validate_datetime now) as [|fe] eqn:Hfe;
    [discriminate|].
  destruct (with_default raw "message" validate_opt_str None) as [|me] eqn:Hme;
    [discriminate|].
  injection H as <-. cbn [data count fetched_at resp_district resp_crop_name message].
  unfold with_default in Hda, Hdi, Hcr, Hfe, Hme. unfold required_before in Hco.
  split; [|split; [|split; [|split]]]; intros Hnone; rewrite Hnone in *;
    try congruence.
  destruct (raw !! "count"); [|discriminate].
  assert (da = []) as -> by congruence.
  cbn [validate_int length] in Hco. injection Hco as <-. split; reflexivity.
Qed.

End ModelBehaviour.

Lemma CropPrice_ignores_extra_keys_witness :
  ~ In "source" CropPrice_fields
  /\ CropPrice_new (pydantic := strict_mode) (<["source" := PyStr "agmarknet"]> example_raw)
     = CropPrice_new (pydantic := strict_mode) example_raw.
Proof.
  assert (Hnot : ~ In "source" CropPrice_fields)
    by (unfold CropPrice_fields; cbn [In]; intuition discriminate).
  split; [exact Hnot|].
  apply (CropPrice_ignores_extra_keys (pydantic := strict_mode) example_raw "source"
           (PyStr "agmarknet") Hnot).
Defined.

Lemma CropPrice_max_below_min_one_error_witness :
  typed_input (pydantic := strict_mode) disordered_raw disordered_price
  /\ CropPrice_new (pydantic := strict_mode) disordered_raw
     = inl [ValueErr "max_price" "max_price must be greater than or equal to min_price"].
Proof.
  assert (Htyped : typed_input (pydantic := strict_mode) disordered_raw disordered_price)
    by (unfold typed_input; repeat split; try (eexists; split; reflexivity)).
  split; [exact Htyped|].
  apply (CropPrice_max_below_min_one_error (pydantic := strict_mode) disordered_raw
           disordered_price Htyped); reflexivity.
Defined.

Lemma PriceResponse_defaults_witness :
  PriceResponse_new (pydantic := strict_mode) ten_thirty no_data_raw
  = inr (mkPriceResponse false [] 0 "Goa" None None ten_thirty None)
  /\ data (mkPriceResponse false [] 0 "Goa" None None ten_thirty None) = []
  /\ count (mkPriceResponse false [] 0 "Goa" None None ten_thirty None) = 0%Z.
Proof.
  split; [reflexivity|].
  apply (PriceResponse_defaults (pydantic := strict_mode) ten_thirty no_data_raw
           (mkPriceResponse false [] 0 "Goa" None None ten_thirty None) eq_refl).
  reflexivity.
Defined.

Lemma PriceResponse_count_required_but_unused_witness :
  (delete "count" no_data_raw) !! "count" = None
  /\ exists errs,
       PriceResponse_new (pydantic := strict_mode) ten_thirty (delete "count" no_data_raw)
       = inl errs
       /\ In (Missing "count") errs.
Proof.
  split; [reflexivity|].
  apply (PriceResponse_count_required_but_unused (pydantic := strict_mode) ten_thirty
           (delete "count" no_data_raw)).
  reflexivity.
Defined.

(** ** crop_price_fetcher.py: what every response of get_crop_prices satisfies *)

Section ResponseInvariants.

Context {str_methods : PyStr.Methods} {pydantic : Pydantic}.

Lemma failure_message_nonempty st d c le : failure_message st d c le <> "".
Proof.
  unfold failure_message.
  assert (H0 : "No price data found for state=" +:+ st <> "") by discriminate.
  set (m0 := "No price data found for state=" +:+ st) in *.
  assert (H1 : match d with
               | Some x => if PyStr.truthy x then m0 +:+ ", district=" +:+ x else m0
               | None => m0
               end <> "").
  { destruct d as [x|]; [destruct (PyStr.truthy x)|]; try assumption.
    now apply string_append_nonempty. }
  set (m1 := match d with Some _ => _ | None => _ end) in *.
  assert (H2 : match c with
               | Some x => if PyStr.truthy x then m1 +:+ ", crop=" +:+ x else m1
               | None => m1
               end <> "").
  { destruct c as [x|]; [destruct (PyStr.truthy x)|]; try assumption.
    now apply string_append_nonempty. }
  destruct le; [now apply string_append_nonempty | assumption].
Qed.

(** Every record that passes both filters satisfies them. *)
Lemma filtered_records_pass d c (l : list CropPrice) :
  Forall (fun p => passes d (district p) = true /\ passes c (crop_name p) = true)
         (by_crop c (by_district d l)).
Proof.
  unfold by_crop, by_district. rewrite !restrict_filter.
  apply List.Forall_forall. intros p Hp.
  apply filter_In in Hp as [Hp Hc]. apply filter_In in Hp as [_ Hd]. auto.
Qed.

(** The shape of the response of a call that returns. *)
Lemma get_crop_prices_returns_cases E st d c req ds umf umo tr r tr' :
  get_crop_prices E st d c req ds umf umo tr = (Returns r, tr') ->
  state_given st
  /\ ((mock_only_mode E umo
       /\ (r = mock_unavailable_response E (normalize st) (normalize_opt d)
                                         (normalize_opt c)
           \/ exists p records,
               catalog_subset (today E) (normalize st) (normalize_opt d)
                              (normalize_opt c) req = p :: records
               /\ r = mock_success_response E (normalize st) (normalize_opt d)
                                            (normalize_opt c) (p :: records)))
      \/ (live_mode E umo
          /\ exists obtained le,
              r = final_response E (normalize st) (normalize_opt d) (normalize_opt c)
                                 obtained le)).
Proof.
  intros Hrun.
  destruct (String.string_dec (PyStr.strip st) "") as [Hblank|Hgiven].
  - rewrite get_crop_prices_blank in Hrun by assumption. discriminate.
  - split; [exact Hgiven|].
    destruct (default (DEV_MODE E) umo) eqn:Hmode.
    + left. split; [exact Hmode|].
      rewrite get_crop_prices_mock_only in Hrun by assumption.
      rewrite mock_only_path_run in Hrun.
      destruct (mock_provider_imported E).
      * destruct (catalog_subset (today E) (normalize st) (normalize_opt d)
                                 (normalize_opt c) req) as [|p records] eqn:Hsub;
          injection Hrun as <- _; [now left | right; eauto].
      * injection Hrun as <- _. now left.
    + right. split; [exact Hmode|].
      rewrite get_crop_prices_live in Hrun by assumption.
      destruct (retry_loop E (normalize st) (normalize_opt d) (normalize_opt c) req ds
                           MAX_RETRIES RETRY_DELAY (seq 0 MAX_RETRIES) [] None tr)
        as [[[prices le]|e] tr1] eqn:Hloop.
      * rewrite (live_path_after_loop E _ _ _ req ds umf tr _ _ _ Hloop) in Hrun.
        injection Hrun as <- _. eauto.
      * rewrite (live_path_loop_raises E _ _ _ req ds umf tr _ _ Hloop) in Hrun.
        discriminate.
Qed.

(** What holds of every response that is returned. *)
Lemma returned_response_facts
        (E : environment) (st : string) (d c : option string) (req : option date)
        (ds : string) (umf : bool) (umo : option bool) (tr tr' : trace)
        (r : PriceResponse) :
  get_crop_prices E st d c req ds umf umo tr = (Returns r, tr') ->
  count r = Z.of_nat (length (data r))
  /\ (success r = true <-> data r <> [])
  /\ resp_state r = normalize st
  /\ resp_district r = normalize_opt d
  /\ resp_crop_name r = normalize_opt c
  /\ fetched_at r = now E
  /\ exists m, message r = Some m /\ m <> "".
Proof.
  intros Hrun.
  destruct (get_crop_prices_returns_cases _ _ _ _ _ _ _ _ _ _ _ Hrun)
    as [_ [[_ [-> | (p & records & _ & ->)]] | [_ (obtained & le & ->)]]].
  - cbn. repeat split; try congruence. eexists. split; [reflexivity | discriminate].
  - cbn -[Z.of_nat]. repeat split; try congruence.
    eexists. split; [reflexivity|]. apply string_append_nonempty. discriminate.
  - unfold final_response.
    destruct (post_filter (normalize_opt d) (normalize_opt c) obtained) as [|p kept].
    + cbn. repeat split; try congruence.
      eexists. split; [reflexivity | apply failure_message_nonempty].
    + cbn -[Z.of_nat]. repeat split; try congruence.
      eexists. split; [reflexivity|]. apply string_append_nonempty. discriminate.
Qed.

(** X8. Every response that [get_crop_prices] returns, in either mode, has
    its count equal to the number of records, [success] true exactly when
    there is at least one record, the normalized state, district and crop of
    the request, the current time and a message that is not empty. *)
Theorem every_response_is_consistent
        (E : environment) (st : string) (d c : option string) (req : option date)
        (ds : string) (umf : bool) (umo : option bool) (tr tr' : trace)
        (r : PriceResponse) :
  get_crop_prices E st d c req ds umf umo tr = (Returns r, tr') ->
  count r = Z.of_nat (length (data r))
  /\ (success r = true <-> data r <> [])
  /\ resp_state r = normalize st
  /\ resp_district r = normalize_opt d
  /\ resp_crop_name r = normalize_opt c
  /\ fetched_at r = now E
  /\ exists m, message r = Some m /\ m <> "".
Proof. apply returned_response_facts. Qed.

(** X9. Every record of a response of [get_crop_prices], in either mode and
    whatever the adapters returned, has the requested district when one is
    given and the requested crop when one is given, both compared without
    case after normalization. *)
Theorem every_record_passes_the_filters
        (E : environment) (st : string) (d c : option string) (req : option date)
        (ds : string) (umf : bool) (umo : option bool) (tr tr' : trace)
        (r : PriceResponse) :
  get_crop_prices E st d c req ds umf umo tr = (Returns r, tr') ->
  Forall (fun p => passes (normalize_opt d) (district p) = true
                   /\ passes (normalize_opt c) (crop_name p) = true)
         (data r).
Proof.
  intros Hrun.
  destruct (get_crop_prices_returns_cases _ _ _ _ _ _ _ _ _ _ _ Hrun)
    as [_ [[_ [-> | (p & records & Hsub & ->)]] | [_ (obtained & le & ->)]]].
  - constructor.
  - cbn [data mock_success_response]. rewrite <- Hsub, <- catalog_subset_filtered.
    apply filtered_records_pass.
  - unfold final_response.
    destruct (post_filter (normalize_opt d) (normalize_opt c) obtained)
      as [|p kept] eqn:Hpost; [constructor|].
    cbn [data success_response]. rewrite <- Hpost. unfold post_filter.
    destruct (nonempty obtained) eqn:Hne; [apply filtered_records_pass|].
    destruct obtained; [constructor | discriminate].
Qed.

End ResponseInvariants.

Lemma every_response_is_consistent_witness :
  get_crop_prices (pydantic := strict_mode) agmarknet_two_districts " punjab"
      (Some "AMRITSAR") None None "agmarknet" true None []
  = (Returns amritsar_response, [Fetch Agmarknet])
  /\ count amritsar_response = Z.of_nat (length (data amritsar_response))
  /\ resp_state amritsar_response = normalize " punjab".
Proof.
  split; [reflexivity|].
  destruct (every_response_is_consistent
              (str_methods := PyStr.ascii_methods) (pydantic := strict_mode)
              agmarknet_two_districts " punjab" (Some "AMRITSAR") None None "agmarknet" true
              None [] [Fetch Agmarknet] amritsar_response eq_refl)
    as (Hcount & _ & Hstate & _).
  split; [exact Hcount | exact Hstate].
Defined.

Lemma every_record_passes_the_filters_witness :
  get_crop_prices (pydantic := strict_mode) agmarknet_two_districts " punjab"
      (Some "AMRITSAR") None None "agmarknet" true None []
  = (Returns amritsar_response, [Fetch Agmarknet])
  /\ Forall (fun p => passes (normalize_opt (Some "AMRITSAR")) (district p) = true
                      /\ passes (normalize_opt None) (crop_name p) = true)
            (data amritsar_response).
Proof.
  split; [reflexivity|].
  apply (every_record_passes_the_filters
           (str_methods := PyStr.ascii_methods) (pydantic := strict_mode)
           agmarknet_two_districts " punjab" (Some "AMRITSAR") None None "agmarknet" true
           None [] [Fetch Agmarknet] amritsar_response eq_refl).
Defined.

(** ** crop_price_fetcher.py: what a call costs at most *)

Lemma mock_calls_app tr tr' : mock_calls (tr ++ tr') = (mock_calls tr + mock_calls tr')%nat.
Proof. unfold mock_calls. now rewrite List.filter_app, length_app. Qed.

Lemma adapter_calls_app tr tr' :
  adapter_calls (tr ++ tr') = (adapter_calls tr + adapter_calls tr')%nat.
Proof. unfold adapter_calls. rewrite !fetches_app. lia. Qed.

Lemma costs_app ext1 ext2 c1 c2 m1 m2 s1 s2 :
  costs_at_most ext1 c1 m1 s1 -> costs_at_most ext2 c2 m2 s2 ->
  costs_at_most (ext1 ++ ext2) (c1 + c2) (m1 + m2) (s1 + s2).
Proof.
  unfold costs_at_most. intros (Ha & Hb & Hc) (Ha' & Hb' & Hc').
  rewrite adapter_calls_app, mock_calls_app, total_sleep_app. lia.
Qed.

Lemma costs_weaken ext c1 c2 m1 m2 s1 s2 :
  costs_at_most ext c1 m1 s1 -> (c1 <= c2)%nat -> (m1 <= m2)%nat -> (s1 <= s2)%Z ->
  costs_at_most ext c2 m2 s2.
Proof. unfold costs_at_most. lia. Qed.

Lemma costs_nil : costs_at_most [] 0 0 0.
Proof. unfold costs_at_most. cbn. lia. Qed.

Lemma costs_fetch src : costs_at_most [Fetch src] 1 0 0.
Proof. unfold costs_at_most. destruct src; cbn; lia. Qed.

Lemma costs_mock : costs_at_most [MockCall] 0 1 0.
Proof. unfold costs_at_most. cbn. lia. Qed.

Lemma costs_sleep n : (0 <= n)%Z -> costs_at_most [Sleep n] 0 0 n.
Proof. unfold costs_at_most. cbn. lia. Qed.

Lemma sleep_budget_nonneg n dl attempts : (0 <= dl)%Z -> (0 <= sleep_budget n dl attempts)%Z.
Proof.
  intros Hdl. induction attempts as [|a rest IH]; cbn [sleep_budget]; [lia|].
  destruct (a <? n - 1)%nat; nia.
Qed.

Section Costs.

Context {str_methods : PyStr.Methods} {pydantic : Pydantic}.
Variable E : environment.

Lemma primary_attempt_cost st d c pd ds tr :
  exists ext, (primary_attempt E st d c pd ds tr).2 = tr ++ ext /\ costs_at_most ext 1 0 0.
Proof.
  unfold primary_attempt.
  destruct (String.eqb (PyStr.lower ds) "agmarknet");
    [|destruct (String.eqb (PyStr.lower ds) "enam")].
  - exists [Fetch Agmarknet]. split; [reflexivity | apply costs_fetch].
  - exists [Fetch Enam]. split; [reflexivity | apply costs_fetch].
  - exists []. split; [symmetry; apply app_nil_r|].
    apply (costs_weaken _ _ _ _ _ _ _ costs_nil); lia.
Qed.

(** Whatever the adapter does, the loop only appends events, at most one
    adapter call per attempt and at most the sleep budget. *)
Lemma retry_loop_cost st d c pd ds n dl attempts prices le tr :
  (0 <= dl)%Z ->
  exists ext,
    (retry_loop E st d c pd ds n dl attempts prices le tr).2 = tr ++ ext
    /\ costs_at_most ext (length attempts) 0 (sleep_budget n dl attempts).
Proof.
  intros Hdl. revert prices le tr.
  induction attempts as [|a rest IH]; intros prices le tr.
  - exists []. split; [symmetry; apply app_nil_r | apply costs_nil].
  - cbn [retry_loop length sleep_budget]. unfold bind at 1, observe.
    destruct (primary_attempt_cost st d c pd ds tr) as (ext0 & Hext0 & Hcost0).
    destruct (primary_attempt E st d c pd ds tr) as [[fetched|e] tr0];
      cbn [snd] in Hext0; subst tr0.
    + destruct (nonempty fetched).
      * exists ext0. split; [reflexivity|].
        apply (costs_weaken _ _ _ _ _ _ _ Hcost0); [lia | lia |].
        pose proof (sleep_budget_nonneg n dl rest Hdl). destruct (a <? n - 1)%nat; nia.
      * destruct (IH fetched le (tr ++ ext0)) as (ext1 & Hext1 & Hcost1).
        exists (ext0 ++ ext1). split; [now rewrite Hext1, app_assoc|].
        apply (costs_weaken _ _ _ _ _ _ _ (costs_app _ _ _ _ _ _ _ _ Hcost0 Hcost1));
          [lia | lia |].
        destruct (a <? n - 1)%nat; nia.
    + destruct (is_network_or_source e).
      * unfold bind, sleep, emit, ret.
        destruct (a <? n - 1)%nat.
        -- destruct (IH prices (Some e)
                        ((tr ++ ext0) ++ [Sleep (dl * (Z.of_nat a + 1))]))
             as (ext1 & Hext1 & Hcost1).
           exists ((ext0 ++ [Sleep (dl * (Z.of_nat a + 1))]) ++ ext1).
           split; [now rewrite Hext1, <- !app_assoc|].
           assert (Hs : costs_at_most [Sleep (dl * (Z.of_nat a + 1))] 0 0
                                      (dl * (Z.of_nat a + 1)))
             by (apply costs_sleep; nia).
           apply (costs_weaken _ _ _ _ _ _ _
                    (costs_app _ _ _ _ _ _ _ _
                       (costs_app _ _ _ _ _ _ _ _ Hcost0 Hs) Hcost1)); lia.
        -- destruct (IH prices (Some e) (tr ++ ext0)) as (ext1 & Hext1 & Hcost1).
           exists (ext0 ++ ext1). split; [now rewrite Hext1, app_assoc|].
           apply (costs_weaken _ _ _ _ _ _ _ (costs_app _ _ _ _ _ _ _ _ Hcost0 Hcost1));
             lia.
      * exists ext0. split; [reflexivity|].
        apply (costs_weaken _ _ _ _ _ _ _ Hcost0); [lia | lia |].
        pose proof (sleep_budget_nonneg n dl rest Hdl). destruct (a <? n - 1)%nat; nia.
Qed.

Lemma failover_step_cost st d c pd ds prices le tr :
  exists ext, (failover_step E st d c pd ds prices le tr).2 = tr ++ ext
              /\ costs_at_most ext 1 0 0.
Proof.
  unfold failover_step.
  destruct (negb (nonempty prices) && bool_decide (is_Some le)).
  - eexists. split; [reflexivity | apply costs_fetch].
  - exists []. split; [symmetry; apply app_nil_r|].
    apply (costs_weaken _ _ _ _ _ _ _ costs_nil); lia.
Qed.

Lemma mock_step_cost st d c pd umf prices tr :
  exists ext, (mock_step E st d c pd umf prices tr).2 = tr ++ ext
              /\ costs_at_most ext 0 (if umf then 1 else 0) 0.
Proof.
  unfold mock_step.
  destruct (negb (nonempty prices)); cbn [andb].
  - destruct umf; cbn [andb].
    + destruct (mock_provider_imported E).
      * exists [MockCall]. split; [reflexivity | apply costs_mock].
      * exists []. split; [symmetry; apply app_nil_r|].
        apply (costs_weaken _ _ _ _ _ _ _ costs_nil); lia.
    + exists []. split; [symmetry; apply app_nil_r | apply costs_nil].
  - exists []. split; [symmetry; apply app_nil_r|].
    apply (costs_weaken _ _ _ _ _ _ _ costs_nil); destruct umf; lia.
Qed.

Lemma live_path_cost st d c pd ds umf tr :
  exists ext,
    (live_path E st d c pd ds umf tr).2 = tr ++ ext
    /\ costs_at_most ext (MAX_RETRIES + 1) (if umf then 1 else 0)
                     (RETRY_DELAY * triangle (MAX_RETRIES - 1)).
Proof.
  destruct (retry_loop_cost st d c pd ds MAX_RETRIES RETRY_DELAY (seq 0 MAX_RETRIES)
                            [] None tr ltac:(unfold RETRY_DELAY; lia))
    as (ext1 & Hext1 & Hcost1).
  rewrite length_seq in Hcost1.
  change (sleep_budget MAX_RETRIES RETRY_DELAY (seq 0 MAX_RETRIES))
    with (RETRY_DELAY * triangle (MAX_RETRIES - 1))%Z in Hcost1.
  destruct (retry_loop E st d c pd ds MAX_RETRIES RETRY_DELAY (seq 0 MAX_RETRIES)
                       [] None tr) as [[[prices le]|e] tr1] eqn:Hloop;
    cbn [snd] in Hext1; subst tr1.
  - rewrite (live_path_after_loop E st d c pd ds umf tr _ _ _ Hloop). cbn [snd].
    destruct (failover_step_cost st d c pd ds prices le (tr ++ ext1))
      as (ext2 & Hext2 & Hcost2).
    destruct (mock_step_cost st d c pd umf
                (failover_step E st d c pd ds prices le (tr ++ ext1)).1
                (failover_step E st d c pd ds prices le (tr ++ ext1)).2)
      as (ext3 & Hext3 & Hcost3).
    exists ((ext1 ++ ext2) ++ ext3).
    split; [now rewrite Hext3, Hext2, <- !app_assoc|].
    apply (costs_weaken _ _ _ _ _ _ _
             (costs_app _ _ _ _ _ _ _ _
                (costs_app _ _ _ _ _ _ _ _ Hcost1 Hcost2) Hcost3)); lia.
  - rewrite (live_path_loop_raises E st d c pd ds umf tr _ _ Hloop). cbn [snd].
    exists ext1. split; [reflexivity|].
    apply (costs_weaken _ _ _ _ _ _ _ Hcost1); [lia | destruct umf; lia | lia].
Qed.

Lemma small_costs_within_limits ext :
  ext = [] \/ ext = [MockCall] ->
  (adapter_calls ext <= MAX_RETRIES + 1)%nat
  /\ (mock_calls ext <= 1)%nat
  /\ (0 <= total_sleep ext <= RETRY_DELAY * triangle (MAX_RETRIES - 1))%Z.
Proof.
  intros [-> | ->];
    unfold adapter_calls, mock_calls, total_sleep, fetches, sleeps, MAX_RETRIES,
      RETRY_DELAY; simpl; lia.
Qed.

(** X10. Whatever the adapters do and whatever the arguments are, a call of
    [get_crop_prices] only adds events to the trace, and it adds at most
    [MAX_RETRIES + 1] adapter calls, at most one call of the mock provider
    and at most [RETRY_DELAY * (1 + ... + (MAX_RETRIES - 1))] seconds of
    sleep, also when it ends by raising. *)
Theorem a_call_costs_at_most
        (st : string) (d c : option string) (req : option date) (ds : string)
        (umf : bool) (umo : option bool) (tr : trace) :
  exists ext,
    (get_crop_prices E st d c req ds umf umo tr).2 = tr ++ ext
    /\ (adapter_calls ext <= MAX_RETRIES + 1)%nat
    /\ (mock_calls ext <= 1)%nat
    /\ (0 <= total_sleep ext <= RETRY_DELAY * triangle (MAX_RETRIES - 1))%Z.
Proof.
  unfold get_crop_prices.
  destruct (negb (PyStr.truthy st) || negb (PyStr.truthy (PyStr.strip st))).
  - exists []. split; [symmetry; apply app_nil_r|]. apply small_costs_within_limits.
    now left.
  - cbv zeta.
    destruct (match umo with Some b => b | None => DEV_MODE E end).
    + rewrite mock_only_path_run.
      destruct (mock_provider_imported E).
      * exists [MockCall]. split; [reflexivity|]. apply small_costs_within_limits.
        now right.
      * exists []. split; [symmetry; apply app_nil_r|]. apply small_costs_within_limits.
        now left.
    + destruct (live_path_cost (normalize st) (normalize_opt d) (normalize_opt c)
                               req ds umf tr) as (ext & Hext & Ha & Hm & Hs).
      exists ext. split; [exact Hext|].
      split; [exact Ha|]. split; [destruct umf; lia | exact Hs].
Qed.

(** X11. The two modes keep to their sources.  In mock-only mode no adapter
    is called and nothing is slept, whether or not the mock provider can be
    imported; in live mode with [use_mock_fallback] false the mock provider
    is never called. *)
Theorem modes_keep_to_their_sources
        (st : string) (d c : option string) (req : option date) (ds : string)
        (umf : bool) (umo : option bool) (tr : trace) :
  exists ext,
    (get_crop_prices E st d c req ds umf umo tr).2 = tr ++ ext
    /\ (mock_only_mode E umo -> adapter_calls ext = 0%nat /\ sleeps ext = [])
    /\ (live_mode E umo -> umf = false -> mock_calls ext = 0%nat).
Proof.
  unfold get_crop_prices, mock_only_mode, live_mode.
  destruct (negb (PyStr.truthy st) || negb (PyStr.truthy (PyStr.strip st))).
  - exists []. split; [symmetry; apply app_nil_r|]. split; intros; [split|]; reflexivity.
  - cbv zeta.
    replace (match umo with Some b => b | None => DEV_MODE E end)
      with (default (DEV_MODE E) umo) by (destruct umo; reflexivity).
    destruct (default (DEV_MODE E) umo).
    + rewrite mock_only_path_run.
      destruct (mock_provider_imported E).
      * exists [MockCall]. split; [reflexivity|].
        split; [intros _; split; reflexivity | discriminate].
      * exists []. split; [symmetry; apply app_nil_r|].
        split; [intros _; split; reflexivity | discriminate].
    + destruct (live_path_cost (normalize st) (normalize_opt d) (normalize_opt c)
                               req ds umf tr) as (ext & Hext & _ & Hm & _).
      exists ext. split; [exact Hext|].
      split; [discriminate|]. intros _ ->. lia.
Qed.

End Costs.

Lemma modes_keep_to_their_sources_witness :
  mock_only_mode portals_up (Some true)
  /\ exists ext,
       (get_crop_prices (pydantic := strict_mode) portals_up "Punjab" None None None
            "agmarknet" true (Some true) []).2 = [] ++ ext
       /\ adapter_calls ext = 0%nat /\ sleeps ext = [].
Proof.
  split; [reflexivity|].
  destruct (modes_keep_to_their_sources
              (str_methods := PyStr.ascii_methods) (pydantic := strict_mode)
              portals_up "Punjab" None None None "agmarknet" true (Some true) [])
    as (ext & Hext & Hmock & _).
  exists ext. split; [exact Hext | exact (Hmock eq_refl)].
Defined.

(** ** crop_price_fetcher.py: the other ways through the live path *)

Section OtherWays.

Context {str_methods : PyStr.Methods} {pydantic : Pydantic}.

(** X12. In live mode, when a primary attempt raises anything other than
    [NetworkError] or [DataSourceError] (for instance the
    [DataNotFoundError] that the adapters' docstrings announce), after
    attempts that all went on, the call raises [CropPriceError] with the
    text of that exception; the failed call of the adapter is the last
    event: no sleep, no further attempt, no failover and no mock data. *)
Theorem unexpected_exception_aborts
        (E : environment) (st : string) (d c : option string) (req : option date)
        (ds : string) (umf : bool) (umo : option bool) (src : source) (tr : trace)
        (k : nat) (e : exn) :
  state_given st ->
  live_mode E umo ->
  selected_source ds = Some src ->
  let outcome := adapter_outcome E src (normalize st) (normalize_opt d)
                                 (normalize_opt c) req in
  (k < MAX_RETRIES)%nat ->
  (forall j, (j < k)%nat -> goes_on (outcome (fetches src tr + j)%nat)) ->
  outcome (fetches src tr + k)%nat = Raises e ->
  is_network_or_source e = false ->
  get_crop_prices E st d c req ds umf umo tr
  = (Raises (CropPriceError ("Unexpected error fetching prices: " +:+ exn_str e)),
     tr ++ attempt_events src outcome MAX_RETRIES RETRY_DELAY (fetches src tr) (seq 0 k)
        ++ [Fetch src]).
Proof.
  intros Hgiven Hlive Hsrc outcome Hk Hgo Hkth Hother.
  rewrite get_crop_prices_live by assumption.
  apply live_path_loop_raises.
  assert (Hsplit : seq 0 MAX_RETRIES = seq 0 k ++ k :: seq (S k) (MAX_RETRIES - S k)).
  { unfold MAX_RETRIES in *.
    destruct k as [|[|[|k]]]; [reflexivity | reflexivity | reflexivity | lia]. }
  rewrite Hsplit.
  rewrite (retry_loop_goes_on E (normalize st) (normalize_opt d) (normalize_opt c) req
             ds src Hsrc)
    by (intros j Hj; rewrite length_seq in Hj; now apply Hgo).
  cbn [retry_loop]. unfold bind at 1, observe.
  rewrite (primary_attempt_known E _ _ _ req ds src Hsrc), call_adapter_run.
  rewrite fetches_app, fetches_attempt_events, length_seq.
  fold outcome. rewrite Hkth, Hother. unfold raise.
  now rewrite <- app_assoc.
Qed.

(** X13. In live mode, when no primary attempt produces records and at least
    one of them raised [NetworkError] or [DataSourceError], and the other
    source then returns records, the response is built from the records of
    the other source: the mock provider is not called, and the error of the
    primary source does not show in a successful response. *)
Theorem failover_records_are_used
        (E : environment) (st : string) (d c : option string) (req : option date)
        (ds : string) (umf : bool) (umo : option bool) (src : source) (tr : trace)
        (ps : list CropPrice) :
  state_given st ->
  live_mode E umo ->
  selected_source ds = Some src ->
  let nst := normalize st in
  let nd := normalize_opt d in
  let nc := normalize_opt c in
  let outcome := adapter_outcome E src nst nd nc req in
  (forall j, (j < MAX_RETRIES)%nat -> goes_on (outcome (fetches src tr + j)%nat)) ->
  is_Some (last_raised outcome (fetches src tr) MAX_RETRIES None) ->
  adapter_outcome E (other_source src) nst nd nc req (fetches (other_source src) tr)
  = Returns ps ->
  ps <> [] ->
  get_crop_prices E st d c req ds umf umo tr
  = (Returns (final_response E nst nd nc ps
                (last_raised outcome (fetches src tr) MAX_RETRIES None)),
     tr ++ attempt_events src outcome MAX_RETRIES RETRY_DELAY (fetches src tr)
                          (seq 0 MAX_RETRIES)
        ++ [Fetch (other_source src)]).
Proof.
  intros Hgiven Hlive Hsrc nst nd nc outcome Hgo Herr Hother Hps.
  rewrite get_crop_prices_live by assumption. fold nst nd nc.
  pose proof (retry_loop_exhausted E nst nd nc req ds src Hsrc MAX_RETRIES RETRY_DELAY
                (seq 0 MAX_RETRIES) None tr) as Hloop.
  rewrite length_seq in Hloop. specialize (Hloop Hgo). fold outcome in Hloop.
  rewrite (live_path_after_loop E nst nd nc req ds umf tr _ _ _ Hloop).
  cbv zeta. unfold failover_step. cbn [nonempty negb andb].
  rewrite (bool_decide_eq_true_2 _ Herr), (fallback_of_selected _ _ Hsrc).
  rewrite fetches_app, fetches_other_attempt_events, Nat.add_0_r, Hother.
  cbn [fst snd]. unfold mock_step.
  destruct ps as [|p ps]; [congruence|]. cbn [nonempty negb andb fst snd].
  now rewrite <- app_assoc.
Qed.

(** X14. With the adapters of the repository as they are, whatever the
    portals answer, every live call with a state and a data source that
    names an adapter runs the whole schedule: [MAX_RETRIES] calls of the
    primary adapter with the two sleeps between them, one call of the other
    adapter, and then the mock provider when [use_mock_fallback] is true.
    The response is successful exactly when [use_mock_fallback] is true and
    the mock catalog has records for the request, and its data are those
    records: live mode never serves anything but mock data. *)
Theorem repository_live_call_serves_mock_data
        (agmarknet_replies enam_replies : nat -> http_reply) (dev_mode : bool)
        (today_is : date) (now_is : datetime)
        (st : string) (d c : option string) (req : option date)
        (ds : string) (umf : bool) (umo : option bool) (src : source) (tr : trace) :
  let E := repository_environment agmarknet_replies enam_replies dev_mode today_is
                                  now_is in
  state_given st ->
  live_mode E umo ->
  selected_source ds = Some src ->
  let records := if umf
                 then catalog_subset today_is (normalize st) (normalize_opt d)
                                     (normalize_opt c) req
                 else [] in
  exists r,
    get_crop_prices E st d c req ds umf umo tr
    = (Returns r,
       tr ++ backoff src MAX_RETRIES RETRY_DELAY ++ [Fetch (other_source src)]
          ++ (if umf then [MockCall] else []))
    /\ data r = records
    /\ (success r = true <-> records <> []).
Proof.
  intros E Hgiven Hlive Hsrc records.
  set (nst := normalize st). set (nd := normalize_opt d). set (nc := normalize_opt c).
  assert (Hraise : forall s n, raises_retryable (adapter_outcome E s nst nd nc req n))
    by (intros [] n; apply stubs_raise_retryable).
  rewrite get_crop_prices_live by assumption. fold nst nd nc.
  destruct (retry_loop_all_raise E nst nd nc req ds src MAX_RETRIES RETRY_DELAY tr Hsrc)
    as (le & Hloop & Hle); [intros k _; apply Hraise|].
  specialize (Hle ltac:(discriminate)).
  rewrite (live_path_after_loop E nst nd nc req ds umf tr _ _ _ Hloop).
  cbv zeta. unfold failover_step. cbn [nonempty negb andb].
  rewrite (bool_decide_eq_true_2 _ Hle), (fallback_of_selected _ _ Hsrc).
  destruct (Hraise (other_source src)
                   (fetches (other_source src)
                            (tr ++ backoff src MAX_RETRIES RETRY_DELAY)))
    as (e & -> & _).
  cbn [fst snd]. unfold mock_step. cbn [nonempty negb andb].
  replace (mock_provider_imported E) with true by reflexivity.
  rewrite andb_true_r.
  eexists. split.
  - f_equal. destruct umf; cbn [snd]; now rewrite <- !app_assoc.
  - unfold records. replace (today E) with today_is by reflexivity.
    destruct umf; cbn [fst].
    + pose proof (final_response_facts E nst nd nc
                    (catalog_subset today_is nst nd nc req) le)
        as (_ & _ & _ & _ & Hdata & Hsucc & _).
      rewrite post_filter_catalog_subset in Hdata, Hsucc. split; assumption.
    + pose proof (final_response_facts E nst nd nc [] le)
        as (_ & _ & _ & _ & Hdata & Hsucc & _).
      split; assumption.
Qed.

Lemma filter_all_pass {A} (f : A -> bool) (l : list A) :
  Forall (fun x => f x = true) l -> List.filter f l = l.
Proof.
  induction 1 as [|x l Hx _ IH]; simpl; [reflexivity|]. now rewrite Hx, IH.
Qed.

Lemma post_filter_all_pass d c (ps : list CropPrice) :
  Forall (fun p => passes d (district p) = true /\ passes c (crop_name p) = true) ps ->
  post_filter d c ps = ps.
Proof.
  intros Hall. unfold post_filter, by_crop, by_district.
  destruct (nonempty ps); [|reflexivity].
  rewrite !restrict_filter, filter_filter.
  apply filter_all_pass.
  eapply List.Forall_impl; [|exact Hall].
  intros p [Hd Hc]. now rewrite Hd, Hc.
Qed.

(** X21. In live mode, when a primary attempt returns records after attempts
    that all went on, the response is built from these records and the call
    of the adapter that returned them is the last event: no failover and no
    mock data.  When every record passes the district and crop filters the
    response is successful and carries all of them, whatever state the
    records name, and an error of an earlier attempt does not show. *)
Theorem primary_records_are_used
        (E : environment) (st : string) (d c : option string) (req : option date)
        (ds : string) (umf : bool) (umo : option bool) (src : source) (tr : trace)
        (k : nat) (ps : list CropPrice) :
  state_given st ->
  live_mode E umo ->
  selected_source ds = Some src ->
  let nst := normalize st in
  let nd := normalize_opt d in
  let nc := normalize_opt c in
  let outcome := adapter_outcome E src nst nd nc req in
  (k < MAX_RETRIES)%nat ->
  (forall j, (j < k)%nat -> goes_on (outcome (fetches src tr + j)%nat)) ->
  outcome (fetches src tr + k)%nat = Returns ps ->
  ps <> [] ->
  get_crop_prices E st d c req ds umf umo tr
  = (Returns (final_response E nst nd nc ps (last_raised outcome (fetches src tr) k None)),
     tr ++ attempt_events src outcome MAX_RETRIES RETRY_DELAY (fetches src tr) (seq 0 k)
        ++ [Fetch src])
  /\ (Forall (fun p => passes nd (district p) = true /\ passes nc (crop_name p) = true)
             ps ->
      final_response E nst nd nc ps (last_raised outcome (fetches src tr) k None)
      = success_response E nst nd nc ps).
Proof.
  intros Hgiven Hlive Hsrc nst nd nc outcome Hk Hgo Hkth Hps.
  split.
  - rewrite get_crop_prices_live by assumption. fold nst nd nc.
    assert (Hsplit : seq 0 MAX_RETRIES = seq 0 k ++ k :: seq (S k) (MAX_RETRIES - S k)).
    { unfold MAX_RETRIES in *.
      destruct k as [|[|[|k]]]; [reflexivity | reflexivity | reflexivity | lia]. }
    assert (Hloop := retry_loop_stops E nst nd nc req ds src Hsrc MAX_RETRIES RETRY_DELAY
                       (seq 0 k) k (seq (S k) (MAX_RETRIES - S k)) None tr ps).
    rewrite length_seq, <- Hsplit in Hloop.
    specialize (Hloop Hgo Hkth Hps).
    rewrite (live_path_after_loop E nst nd nc req ds umf tr _ _ _ Hloop).
    unfold failover_step, mock_step.
    destruct ps as [|p ps]; [congruence|]. cbn [nonempty negb andb fst snd].
    reflexivity.
  - intros Hall. unfold final_response.
    rewrite (post_filter_all_pass nd nc ps Hall).
    destruct ps as [|p ps]; [congruence|reflexivity].
Qed.

(** X22. In live mode, when no primary attempt and no failover produces
    records, mock fallback is on and the catalog has records for the
    request, the response carries exactly the records, the count and the
    success flag of the mock-only response to the same request.  The two
    responses differ only in their message: the live one does not say that
    its records are mock data, and it does not mention the error of the
    sources. *)
Theorem live_mock_fallback_is_unmarked
        (E : environment) (st : string) (d c : option string) (req : option date)
        (ds ds' : string) (umf' : bool) (umo umo' : option bool) (src : source)
        (tr : trace) :
  state_given st ->
  live_mode E umo ->
  mock_only_mode E umo' ->
  selected_source ds = Some src ->
  mock_provider_imported E = true ->
  let nst := normalize st in
  let nd := normalize_opt d in
  let nc := normalize_opt c in
  let outcome := adapter_outcome E src nst nd nc req in
  let last_error := last_raised outcome (fetches src tr) MAX_RETRIES None in
  let records := catalog_subset (today E) nst nd nc req in
  (forall j, (j < MAX_RETRIES)%nat -> goes_on (outcome (fetches src tr + j)%nat)) ->
  (is_Some last_error ->
   ~ produces (adapter_outcome E (other_source src) nst nd nc req
                               (fetches (other_source src) tr))) ->
  records <> [] ->
  get_crop_prices E st d c req ds true umo tr
  = (Returns (success_response E nst nd nc records),
     tr ++ attempt_events src outcome MAX_RETRIES RETRY_DELAY (fetches src tr)
                          (seq 0 MAX_RETRIES)
        ++ (if bool_decide (is_Some last_error) then [Fetch (other_source src)] else [])
        ++ [MockCall])
  /\ get_crop_prices E st d c req ds' umf' umo' tr
     = (Returns (mock_success_response E nst nd nc records), tr ++ [MockCall])
  /\ message (success_response E nst nd nc records)
     = Some ("Successfully fetched " +:+ PyStr.of_nat (length records) +:+ " price entries").
Proof.
  intros Hgiven Hlive Hmock Hsrc Himp nst nd nc outcome last_error records Hgo Hfail Hrec.
  subst records.
  split; [|split; [|reflexivity]].
  - rewrite get_crop_prices_live by assumption. fold nst nd nc.
    pose proof (retry_loop_exhausted E nst nd nc req ds src Hsrc MAX_RETRIES RETRY_DELAY
                  (seq 0 MAX_RETRIES) None tr) as Hloop.
    rewrite length_seq in Hloop. specialize (Hloop Hgo).
    fold outcome in Hloop. fold last_error in Hloop.
    rewrite (live_path_after_loop E nst nd nc req ds true tr _ _ _ Hloop).
    cbv zeta. unfold failover_step. cbn [nonempty negb andb].
    destruct (bool_decide (is_Some last_error)) eqn:Herr.
    + apply bool_decide_eq_true_1 in Herr. specialize (Hfail Herr).
      rewrite (fallback_of_selected _ _ Hsrc).
      rewrite fetches_app, fetches_other_attempt_events, Nat.add_0_r.
      assert (Hnone : match adapter_outcome E (other_source src) nst nd nc req
                              (fetches (other_source src) tr) with
                      | Returns ps => ps
                      | Raises _ => []
                      end = []).
      { destruct (adapter_outcome E (other_source src) nst nd nc req
                                  (fetches (other_source src) tr)) as [[|p ps]|e];
          [reflexivity| |reflexivity].
        exfalso. apply Hfail. exists (p :: ps). split; [reflexivity|discriminate]. }
      cbn [fst snd]. rewrite Hnone.
      unfold mock_step. cbn [nonempty negb andb]. rewrite Himp. cbn [fst snd].
      unfold final_response. rewrite post_filter_catalog_subset.
      destruct (catalog_subset (today E) nst nd nc req) as [|p ps]; [congruence|].
      now rewrite <- !app_assoc.
    + cbn [fst snd]. unfold mock_step. cbn [nonempty negb andb]. rewrite Himp.
      cbn [fst snd]. unfold final_response. rewrite post_filter_catalog_subset.
      destruct (catalog_subset (today E) nst nd nc req) as [|p ps]; [congruence|].
      now rewrite <- !app_assoc.
  - rewrite get_crop_prices_mock_only by assumption. fold nst nd nc.
    rewrite mock_only_path_run, Himp.
    destruct (catalog_subset (today E) nst nd nc req) as [|p ps]; [congruence|reflexivity].
Qed.

End OtherWays.

Lemma primary_records_are_used_witness :
  get_crop_prices (pydantic := strict_mode) agmarknet_recovers "punjab" None
      (Some "wheat") None "AGMARKNET" true None []
  = (Returns (success_response agmarknet_recovers "Punjab" None (Some "Wheat")
                               [ludhiana_wheat]),
     [Fetch Agmarknet; Sleep 2; Fetch Agmarknet]).
Proof.
  destruct (primary_records_are_used
              (str_methods := PyStr.ascii_methods) (pydantic := strict_mode)
              agmarknet_recovers "punjab" None (Some "wheat") None "AGMARKNET" true None
              Agmarknet [] 1 [ludhiana_wheat])
    as [Hrun Hall].
  - discriminate.
  - reflexivity.
  - reflexivity.
  - unfold MAX_RETRIES. lia.
  - intros j Hj. assert (j = 0)%nat as -> by lia.
    right. eexists. split; reflexivity.
  - reflexivity.
  - discriminate.
  - rewrite Hrun, Hall; [reflexivity|].
    constructor; [split; reflexivity|constructor].
Defined.

Lemma live_mock_fallback_is_unmarked_witness :
  get_crop_prices (pydantic := strict_mode) portals_up "punjab" None (Some "wheat") None
      "enam" true (Some false) []
  = (Returns (success_response portals_up "Punjab" None (Some "Wheat") [ludhiana_wheat]),
     [Fetch Enam; Sleep 2; Fetch Enam; Sleep 4; Fetch Enam; Fetch Agmarknet; MockCall])
  /\ get_crop_prices (pydantic := strict_mode) portals_up "punjab" None (Some "wheat")
         None "nowhere" false (Some true) []
     = (Returns (mock_success_response portals_up "Punjab" None (Some "Wheat")
                                       [ludhiana_wheat]),
        [MockCall]).
Proof.
  destruct (live_mock_fallback_is_unmarked
              (str_methods := PyStr.ascii_methods) (pydantic := strict_mode)
              portals_up "punjab" None (Some "wheat") None "enam" "nowhere" false
              (Some false) (Some true) Enam [])
    as (Hlive & Hmock & _).
  - discriminate.
  - reflexivity.
  - reflexivity.
  - reflexivity.
  - reflexivity.
  - intros j _. right. apply stubs_raise_retryable.
  - intros _ (ps & Hps & _). discriminate Hps.
  - discriminate.
  - split; [exact Hlive | exact Hmock].
Defined.

Lemma unexpected_exception_aborts_witness :
  (state_given "Punjab" /\ live_mode agmarknet_not_found None
   /\ selected_source "agmarknet" = Some Agmarknet)
  /\ get_crop_prices (pydantic := strict_mode) agmarknet_not_found "Punjab" None None None
         "agmarknet" true None []
     = (Raises (CropPriceError "Unexpected error fetching prices: no rows"),
        [] ++ [Fetch Agmarknet; Sleep 2] ++ [Fetch Agmarknet]).
Proof.
  assert (Hgiven : state_given "Punjab") by (unfold state_given; discriminate).
  split; [split; [exact Hgiven | split; reflexivity]|].
  apply (unexpected_exception_aborts
           (str_methods := PyStr.ascii_methods) (pydantic := strict_mode)
           agmarknet_not_found "Punjab" None None None "agmarknet" true None Agmarknet [] 1
           (DataNotFoundError "no rows" (Some "Punjab") None) Hgiven eq_refl eq_refl).
  - unfold MAX_RETRIES. lia.
  - intros j Hj. replace j with 0%nat by lia. right. eexists. split; reflexivity.
  - reflexivity.
  - reflexivity.
Defined.

Lemma failover_records_are_used_witness :
  (state_given "Punjab" /\ live_mode enam_answers None
   /\ selected_source "agmarknet" = Some Agmarknet)
  /\ get_crop_prices (pydantic := strict_mode) enam_answers "Punjab" None None None
         "agmarknet" true None []
     = (Returns (mkPriceResponse true [ludhiana_wheat] 1 "Punjab" None None ten_thirty
                   (Some "Successfully fetched 1 price entries")),
        [Fetch Agmarknet; Sleep 2; Fetch Agmarknet; Sleep 4; Fetch Agmarknet; Fetch Enam]).
Proof.
  assert (Hgiven : state_given "Punjab") by (unfold state_given; discriminate).
  split; [split; [exact Hgiven | split; reflexivity]|].
  apply (failover_records_are_used
           (str_methods := PyStr.ascii_methods) (pydantic := strict_mode)
           enam_answers "Punjab" None None None "agmarknet" true None Agmarknet []
           [ludhiana_wheat] Hgiven eq_refl eq_refl).
  - intros j _. right. eexists. split; reflexivity.
  - eexists. reflexivity.
  - reflexivity.
  - discriminate.
Defined.

Lemma repository_live_call_serves_mock_data_witness :
  (state_given "Punjab" /\ live_mode portals_up None
   /\ selected_source "enam" = Some Enam)
  /\ exists r,
       get_crop_prices (pydantic := strict_mode) portals_up "Punjab" None (Some "rice")
           None "enam" true None []
       = (Returns r,
          [] ++ backoff Enam MAX_RETRIES RETRY_DELAY ++ [Fetch (other_source Enam)]
             ++ [MockCall])
       /\ data r = catalog_subset jan15 "Punjab" None (Some "Rice") None.
Proof.
  assert (Hgiven : state_given "Punjab") by (unfold state_given; discriminate).
  split; [split; [exact Hgiven | split; reflexivity]|].
  destruct (repository_live_call_serves_mock_data
              (str_methods := PyStr.ascii_methods) (pydantic := strict_mode)
              (fun _ => Status 200)
              (fun _ => Status 200) false jan15 ten_thirty "Punjab" None (Some "rice")
              None "enam" true None Enam [] Hgiven eq_refl eq_refl)
    as (r & Hrun & Hdata & _).
  exists r. split; [exact Hrun | exact Hdata].
Defined.

(** ** crop_price_fetcher.py: normalization of the request *)

Lemma case_mapping_facts (a : ascii) :
  PyStr.is_space (PyStr.lower_char a) = PyStr.is_space a
  /\ PyStr.is_space (PyStr.upper_char a) = PyStr.is_space a
  /\ PyStr.is_cased (PyStr.lower_char a) = PyStr.is_cased a
  /\ PyStr.is_cased (PyStr.upper_char a) = PyStr.is_cased a
  /\ PyStr.upper_char (PyStr.upper_char a) = PyStr.upper_char a
  /\ (PyStr.is_space a = true -> PyStr.is_cased a = false).
Proof.
  destruct a as [[] [] [] [] [] [] [] []];
    (split; [reflexivity|]); (split; [reflexivity|]); (split; [reflexivity|]);
    (split; [reflexivity|]); (split; [reflexivity|]);
    first [reflexivity | discriminate].
Qed.

Lemma title_char_space (b : bool) (a : ascii) :
  PyStr.is_space (if b then PyStr.lower_char a else PyStr.upper_char a) = PyStr.is_space a.
Proof. destruct b; apply case_mapping_facts. Qed.

Lemma lstrip_title (s : string) :
  PyStr.ascii_lstrip (PyStr.ascii_title_from false s)
  = PyStr.ascii_title_from false (PyStr.ascii_lstrip s).
Proof.
  induction s as [|a s IH]; [reflexivity|].
  cbn [PyStr.ascii_title_from PyStr.ascii_lstrip].
  rewrite (title_char_space false a).
  destruct (PyStr.is_space a) eqn:Hsp; [|reflexivity].
  destruct (case_mapping_facts a) as (_ & _ & _ & _ & _ & Hcased).
  rewrite (Hcased Hsp). exact IH.
Qed.

Lemma title_from_empty (b : bool) (s : string) :
  PyStr.ascii_title_from b s = "" <-> s = "".
Proof. destruct s; cbn; split; congruence. Qed.

Lemma rstrip_title (b : bool) (s : string) :
  PyStr.ascii_rstrip (PyStr.ascii_title_from b s)
  = PyStr.ascii_title_from b (PyStr.ascii_rstrip s).
Proof.
  revert b. induction s as [|a s IH]; intros b; [reflexivity|].
  cbn [PyStr.ascii_title_from PyStr.ascii_rstrip]. rewrite IH.
  destruct (PyStr.ascii_rstrip s) as [|x y] eqn:Hr.
  - cbn [PyStr.ascii_title_from]. rewrite title_char_space.
    destruct (PyStr.is_space a); reflexivity.
  - cbn [PyStr.ascii_title_from]. reflexivity.
Qed.

Lemma strip_title (s : string) :
  PyStr.ascii_strip (PyStr.ascii_title s) = PyStr.ascii_title (PyStr.ascii_strip s).
Proof. unfold PyStr.ascii_strip, PyStr.ascii_title. now rewrite lstrip_title, rstrip_title. Qed.

Lemma title_idempotent (b : bool) (s : string) :
  PyStr.ascii_title_from b (PyStr.ascii_title_from b s) = PyStr.ascii_title_from b s.
Proof.
  revert b. induction s as [|a s IH]; intros b; [reflexivity|].
  cbn [PyStr.ascii_title_from].
  destruct (case_mapping_facts a) as (_ & _ & Hl & Hu & Huu & _).
  destruct b.
  - rewrite lower_char_idempotent, Hl, IH. reflexivity.
  - rewrite Huu, Hu, IH. reflexivity.
Qed.

Lemma lstrip_idempotent (s : string) :
  PyStr.ascii_lstrip (PyStr.ascii_lstrip s) = PyStr.ascii_lstrip s.
Proof.
  induction s as [|a s IH]; [reflexivity|].
  cbn [PyStr.ascii_lstrip]. destruct (PyStr.is_space a) eqn:Hsp; [exact IH|].
  cbn [PyStr.ascii_lstrip]. now rewrite Hsp.
Qed.

Lemma rstrip_idempotent (s : string) :
  PyStr.ascii_rstrip (PyStr.ascii_rstrip s) = PyStr.ascii_rstrip s.
Proof.
  induction s as [|a s IH]; [reflexivity|].
  cbn [PyStr.ascii_rstrip]. destruct (PyStr.ascii_rstrip s) as [|x y] eqn:Hr.
  - destruct (PyStr.is_space a) eqn:Hsp; [reflexivity|].
    cbn [PyStr.ascii_rstrip]. now rewrite Hsp.
  - cbn [PyStr.ascii_rstrip] in *. rewrite IH. reflexivity.
Qed.

Lemma lstrip_rstrip (s : string) :
  PyStr.ascii_lstrip (PyStr.ascii_rstrip s) = PyStr.ascii_rstrip (PyStr.ascii_lstrip s).
Proof.
  induction s as [|a s IH]; [reflexivity|].
  cbn [PyStr.ascii_rstrip PyStr.ascii_lstrip].
  destruct (PyStr.is_space a) eqn:Hsp.
  - rewrite <- IH. destruct (PyStr.ascii_rstrip s) as [|x y]; [reflexivity|].
    cbn [PyStr.ascii_lstrip]. now rewrite Hsp.
  - cbn [PyStr.ascii_rstrip].
    destruct (PyStr.ascii_rstrip s) as [|x y]; cbn [PyStr.ascii_lstrip]; now rewrite Hsp.
Qed.

Lemma strip_idempotent (s : string) :
  PyStr.ascii_strip (PyStr.ascii_strip s) = PyStr.ascii_strip s.
Proof.
  unfold PyStr.ascii_strip.
  rewrite lstrip_rstrip, lstrip_idempotent, rstrip_idempotent. reflexivity.
Qed.

Lemma ascii_chars_stay_ascii (a : ascii) :
  (PyStr.code a <? 128)%nat = true ->
  (PyStr.code (PyStr.lower_char a) <? 128)%nat = true
  /\ (PyStr.code (PyStr.upper_char a) <? 128)%nat = true.
Proof.
  destruct a as [[] [] [] [] [] [] [] []]; intros H; vm_compute in H;
    try discriminate H; split; reflexivity.
Qed.

Lemma is_ascii_lstrip (s : string) :
  PyStr.is_ascii s = true -> PyStr.is_ascii (PyStr.ascii_lstrip s) = true.
Proof.
  induction s as [|a s IH]; [reflexivity|].
  intros H. cbn [PyStr.ascii_lstrip]. destruct (PyStr.is_space a); [|exact H].
  cbn [PyStr.is_ascii] in H. apply andb_true_iff in H as [_ H]. now apply IH.
Qed.

Lemma is_ascii_rstrip (s : string) :
  PyStr.is_ascii s = true -> PyStr.is_ascii (PyStr.ascii_rstrip s) = true.
Proof.
  induction s as [|a s IH]; [reflexivity|].
  intros H. cbn [PyStr.is_ascii] in H. apply andb_true_iff in H as [Ha H].
  specialize (IH H). cbn [PyStr.ascii_rstrip].
  destruct (PyStr.ascii_rstrip s) as [|x y].
  - destruct (PyStr.is_space a); [reflexivity|].
    cbn [PyStr.is_ascii]. now rewrite Ha.
  - cbn [PyStr.is_ascii] in *. now rewrite Ha.
Qed.

Lemma is_ascii_strip (s : string) :
  PyStr.is_ascii s = true -> PyStr.is_ascii (PyStr.ascii_strip s) = true.
Proof. intros H. unfold PyStr.ascii_strip. now apply is_ascii_rstrip, is_ascii_lstrip. Qed.

Lemma is_ascii_title_from (b : bool) (s : string) :
  PyStr.is_ascii s = true -> PyStr.is_ascii (PyStr.ascii_title_from b s) = true.
Proof.
  revert b. induction s as [|a s IH]; intros b; [reflexivity|].
  intros H. cbn [PyStr.is_ascii] in H. apply andb_true_iff in H as [Ha H].
  cbn [PyStr.ascii_title_from PyStr.is_ascii].
  destruct (ascii_chars_stay_ascii a Ha) as [Hl Hu].
  rewrite (IH _ H). destruct b; [now rewrite Hl | now rewrite Hu].
Qed.

Section Normalization.

Context {str_methods : PyStr.Methods} {pydantic : Pydantic}.

(** On ASCII text [normalize] is the ASCII strip followed by the ASCII
    title, and its result is ASCII text. *)
Lemma normalize_ascii (s : string) :
  PyStr.is_ascii s = true ->
  normalize s = PyStr.ascii_title (PyStr.ascii_strip s)
  /\ PyStr.is_ascii (normalize s) = true.
Proof.
  intros H. unfold normalize.
  rewrite (PyStr.strip_ascii s H).
  rewrite (PyStr.title_ascii _ (is_ascii_strip s H)).
  split; [reflexivity|]. apply is_ascii_title_from. now apply is_ascii_strip.
Qed.

Lemma normalize_idempotent (s : string) :
  PyStr.is_ascii s = true -> normalize (normalize s) = normalize s.
Proof.
  intros H. destruct (normalize_ascii s H) as [Hn Ha].
  destruct (normalize_ascii _ Ha) as [Hnn _]. rewrite Hnn, Hn.
  rewrite (strip_title (PyStr.ascii_strip s)), strip_idempotent.
  unfold PyStr.ascii_title. now rewrite title_idempotent.
Qed.

Lemma strip_normalize (s : string) :
  PyStr.is_ascii s = true -> PyStr.strip (normalize s) = normalize s.
Proof.
  intros H. destruct (normalize_ascii s H) as [Hn Ha].
  rewrite (PyStr.strip_ascii _ Ha), Hn.
  now rewrite strip_title, strip_idempotent.
Qed.

Lemma normalize_blank (s : string) :
  PyStr.is_ascii s = true -> (PyStr.strip (normalize s) = "" <-> PyStr.strip s = "").
Proof.
  intros H. rewrite (strip_normalize s H).
  destruct (normalize_ascii s H) as [-> _]. rewrite (PyStr.strip_ascii s H).
  unfold PyStr.ascii_title. apply title_from_empty.
Qed.

Lemma normalize_opt_idempotent (o : option string) :
  opt_is_ascii o = true -> normalize_opt (normalize_opt o) = normalize_opt o.
Proof.
  destruct o as [s|]; [|reflexivity]. cbn [opt_is_ascii normalize_opt]. intros H.
  destruct (PyStr.truthy s) eqn:Hs; cbn [normalize_opt]; [|now rewrite Hs].
  rewrite (normalize_idempotent s H). destruct (PyStr.truthy (normalize s)); reflexivity.
Qed.

(** X15. On ASCII text normalization is idempotent, so the filters echoed
    in a response can be sent again: when the state, the district and the
    crop of a request are ASCII text, a call with their normalized forms
    does exactly what the call with the original ones does (the same
    result, the same events), for every environment and every other
    argument, also when the state is blank. *)
Theorem normalized_request_replays
        (E : environment) (st : string) (d c : option string)
        (req : option date) (ds : string) (umf : bool) (umo : option bool)
        (tr : trace) :
  PyStr.is_ascii st = true ->
  opt_is_ascii d = true ->
  opt_is_ascii c = true ->
  normalize (normalize st) = normalize st
  /\ normalize_opt (normalize_opt d) = normalize_opt d
  /\ normalize_opt (normalize_opt c) = normalize_opt c
  /\ get_crop_prices E (normalize st) (normalize_opt d) (normalize_opt c) req ds umf
                     umo tr
     = get_crop_prices E st d c req ds umf umo tr.
Proof.
  intros Hst Hd Hc.
  split; [now apply normalize_idempotent|].
  split; [now apply normalize_opt_idempotent|].
  split; [now apply normalize_opt_idempotent|].
  pose proof (normalize_blank st Hst) as Hblank.
  destruct (String.string_dec (PyStr.strip st) "") as [Hb|Hgiven].
  - rewrite !get_crop_prices_blank; [reflexivity | exact Hb | now apply Hblank].
  - assert (Hgiven' : state_given (normalize st))
      by (unfold state_given; rewrite Hblank; exact Hgiven).
    destruct (default (DEV_MODE E) umo) eqn:Hmode.
    + rewrite !get_crop_prices_mock_only by assumption.
      now rewrite normalize_idempotent, !normalize_opt_idempotent.
    + rewrite !get_crop_prices_live by assumption.
      now rewrite normalize_idempotent, !normalize_opt_idempotent.
Qed.

End Normalization.

Lemma normalized_request_replays_witness :
  normalize "  north DELHI " = "North Delhi"
  /\ get_crop_prices (pydantic := strict_mode) portals_up (normalize " deLHi ")
         (normalize_opt (Some " north DELHI ")) (normalize_opt None) None "enam" true
         (Some true) []
     = get_crop_prices (pydantic := strict_mode) portals_up "  deLHi "
           (Some " north DELHI ") None None "enam" true (Some true) [].
Proof.
  split; [reflexivity|].
  apply (normalized_request_replays
           (str_methods := PyStr.ascii_methods) (pydantic := strict_mode)
           portals_up "  deLHi " (Some "  north DELHI ") None
           None "enam" true (Some true) []); reflexivity.
Defined.

(** ** mock_data_provider.py: further behaviour of get_mock_prices *)

Lemma passes_same_wanted {str_methods : PyStr.Methods} (a b : option string) (actual : string) :
  same_wanted a b -> passes a actual = passes b actual.
Proof.
  unfold same_wanted, given_filter, passes, same_ci.
  destruct a as [x|], b as [y|];
    try destruct (PyStr.truthy x); try destruct (PyStr.truthy y);
    try tauto.
  intros Hxy. now rewrite Hxy.
Qed.

Lemma filter_ext_bool {A} (f g : A -> bool) (l : list A) :
  (forall x, f x = g x) -> List.filter f l = List.filter g l.
Proof.
  intros Hfg. induction l as [|x l IH]; simpl; [reflexivity|].
  now rewrite Hfg, IH.
Qed.

Lemma sublist_filter_map {A B} (h : A -> B) (f g : A -> bool) (l : list A) :
  (forall x, f x = true -> g x = true) ->
  sublist (map h (List.filter f l)) (map h (List.filter g l)).
Proof.
  intros Himp. induction l as [|x l IH]; simpl; [constructor|].
  destruct (f x) eqn:Hf.
  - rewrite (Himp x Hf). simpl. now constructor.
  - destruct (g x); simpl; [now apply sublist_cons | exact IH].
Qed.

Section MockProviderBehaviour.

Context {str_methods : PyStr.Methods} {pydantic : Pydantic}.

(** X16. The mock provider does not see the case of its arguments, and it
    takes an empty district or crop for an absent one: two queries whose
    states are equal without case, and whose districts and crops are both
    not given ([None] or empty) or both given and equal without case,
    return the same records. *)
Theorem mock_provider_ignores_case
        (today : date) (st st' : string) (d d' c c' : option string)
        (req : option date) :
  PyStr.lower st = PyStr.lower st' ->
  same_wanted d d' ->
  same_wanted c c' ->
  get_mock_prices today st d c req = get_mock_prices today st' d' c' req.
Proof.
  intros Hst Hd Hc. rewrite !get_mock_prices_subset. f_equal.
  unfold catalog_subset. f_equal. apply filter_ext_bool. intros e.
  unfold matches, same_ci.
  now rewrite Hst, (passes_same_wanted d d'), (passes_same_wanted c c').
Qed.

(** X17. Every record the mock provider returns satisfies the constraints
    of [CropPrice], is of the requested state (without case) and is priced
    per quintal; and a query with a district or a crop returns a sublist, in
    the same order, of what the query on the state alone returns. *)
Theorem mock_provider_records_are_valid
        (today : date) (st : string) (d c : option string) (req : option date)
        (ps : list CropPrice) :
  get_mock_prices today st d c req = Returns ps ->
  Forall (fun p => price_constraints p
                   /\ PyStr.lower (state p) = PyStr.lower st
                   /\ unit p = "Quintal") ps
  /\ exists whole,
       get_mock_prices today st None None req = Returns whole /\ sublist ps whole.
Proof.
  rewrite !get_mock_prices_subset. intros [= <-]. split.
  - unfold catalog_subset. apply List.Forall_forall. intros p Hp.
    apply in_map_iff in Hp as (e & <- & He).
    apply filter_In in He as [He Hm].
    pose proof all_crops_ok as Hok.
    rewrite List.Forall_forall in Hok. specialize (Hok e He).
    split; [exact Hok|]. split; [|reflexivity].
    unfold matches in Hm. apply andb_true_iff in Hm as [Hm _].
    unfold same_ci in Hm. now apply String.eqb_eq in Hm.
  - eexists. split; [reflexivity|].
    unfold catalog_subset. apply sublist_filter_map.
    intros e He. unfold matches in *. apply andb_true_iff in He as [-> _]. reflexivity.
Qed.

End MockProviderBehaviour.

Lemma mock_provider_ignores_case_witness :
  (PyStr.lower "DELHI" = PyStr.lower "delhi"
   /\ same_wanted (Some "North DELHI") (Some "north delhi")
   /\ same_wanted None (Some ""))
  /\ get_mock_prices (pydantic := strict_mode) jan15 "DELHI" (Some "North DELHI") None
         None
     = get_mock_prices (pydantic := strict_mode) jan15 "delhi" (Some "north delhi")
           (Some "") None.
Proof.
  split; [split; [reflexivity | split; [reflexivity | exact I]]|].
  apply (mock_provider_ignores_case
           (str_methods := PyStr.ascii_methods) (pydantic := strict_mode)
           jan15 "DELHI" "delhi" (Some "North DELHI")
           (Some "north delhi") None (Some "") None);
    [reflexivity | reflexivity | exact I].
Defined.

Lemma mock_provider_records_are_valid_witness :
  get_mock_prices (pydantic := strict_mode) jan15 "punjab" None (Some "rice") None
  = Returns [mkCropPrice "Rice" (fl 1750) (fl 1950) (fl 1850) "Khanna Mandi" "Ludhiana"
                         "Punjab" jan15 "Quintal"]
  /\ exists whole,
       get_mock_prices (pydantic := strict_mode) jan15 "punjab" None None None = Returns whole
       /\ sublist [mkCropPrice "Rice" (fl 1750) (fl 1950) (fl 1850) "Khanna Mandi"
                               "Ludhiana" "Punjab" jan15 "Quintal"] whole.
Proof.
  split; [reflexivity|].
  apply (mock_provider_records_are_valid
           (str_methods := PyStr.ascii_methods) (pydantic := strict_mode)
           jan15 "punjab" None (Some "rice") None _ eq_refl).
Defined.

(** ** fastapi_integration_example.py: the route fetch_crop_prices *)

Section Route.

Context {str_methods : PyStr.Methods} {pydantic : Pydantic}.

(** [str(e)] of an [HTTPException], which belongs to the web framework. *)
Variable http_exception_str : Z -> string -> string.

(** What [get_crop_prices] raises is the input error or the generic
    orchestration error. *)
Lemma get_crop_prices_raises_cases E st d c req ds umf umo tr e tr' :
  get_crop_prices E st d c req ds umf umo tr = (Raises e, tr') ->
  (PyStr.strip st = ""
   /\ e = ValueError "State parameter is required and cannot be empty" /\ tr' = tr)
  \/ (state_given st /\ live_mode E umo /\ exists m, e = CropPriceError m).
Proof.
  intros Hrun.
  destruct (String.string_dec (PyStr.strip st) "") as [Hblank|Hgiven].
  - rewrite get_crop_prices_blank in Hrun by assumption.
    injection Hrun as <- <-. left. auto.
  - right. split; [exact Hgiven|].
    destruct (default (DEV_MODE E) umo) eqn:Hmode.
    + rewrite get_crop_prices_mock_only in Hrun by assumption.
      destruct (mock_only_path_returns E (normalize st) (normalize_opt d)
                  (normalize_opt c) req tr) as (r & t & Hr).
      rewrite Hr in Hrun. discriminate.
    + split; [exact Hmode|].
      rewrite get_crop_prices_live in Hrun by assumption.
      destruct (live_path_outcome E (normalize st) (normalize_opt d) (normalize_opt c)
                  req ds umf tr) as [(r & t & Hr) | (m & t & Hr)];
        rewrite Hr in Hrun; [discriminate|].
      injection Hrun as <- _. eauto.
Qed.

(** X18. Whatever happens, the route answers with status 200 or raises an
    [HTTPException] with status 500: it answers 200, with the response of
    [get_crop_prices] unchanged, exactly when that response is successful
    with at least one record, and it never raises with status 404, 503 or
    any other status, because the 404 it raises for an empty response is
    caught by its own [except Exception] and what [get_crop_prices] raises
    is never a [DataNotFoundError] or a [NetworkError]. *)
Theorem route_answers_200_or_500
        (E : environment) (st : string) (d c : option string) (req : option date)
        (ds : string) (umf : bool) (umo : option bool) (tr : trace) :
  let answer := fetch_crop_prices http_exception_str E st d c req ds umf umo tr in
  answer.2 = (get_crop_prices E st d c req ds umf umo tr).2
  /\ match answer.1 with
     | Responds body =>
         (get_crop_prices E st d c req ds umf umo tr).1 = Returns body
         /\ success body = true /\ data body <> []
     | RaisesHTTP status_code _ =>
         status_code = 500%Z
         /\ forall body, (get_crop_prices E st d c req ds umf umo tr).1 = Returns body ->
                         success body = false /\ data body = []
     end.
Proof.
  intros answer. unfold answer, fetch_crop_prices, route_try.
  destruct (get_crop_prices E st d c req ds umf umo tr) as [[r|e] tr'] eqn:Hrun.
  - destruct (returned_response_facts _ _ _ _ _ _ _ _ _ _ _ Hrun)
      as (Hcount & Hsucc & _).
    unfold no_data. destruct (success r) eqn:Hs; cbn [negb orb].
    + assert (Hdata : data r <> []) by now apply Hsucc.
      replace (count r =? 0)%Z with false.
      * cbn [fst snd]. split; [reflexivity|]. auto.
      * symmetry. apply Z.eqb_neq. rewrite Hcount.
        destruct (data r); [congruence | cbn; lia].
    + cbn [fst snd route_except]. split; [reflexivity|]. split; [reflexivity|].
      intros body [= <-]. split; [exact Hs|].
      destruct (data r) eqn:Hd; [reflexivity|].
      assert (false = true) by (apply Hsucc; discriminate). discriminate.
  - cbn [fst snd]. split; [reflexivity|].
    destruct (get_crop_prices_raises_cases _ _ _ _ _ _ _ _ _ _ _ Hrun)
      as [(_ & -> & _) | (_ & _ & m & ->)];
      cbn [route_except]; (split; [reflexivity | discriminate]).
Qed.

(** X19. When [get_crop_prices] returns a response without success, the
    route raises [HTTPException] with status 500, not 404: the detail is
    ["Unexpected error: "] followed by the text of the 404 exception that
    carried the message of the response. *)
Theorem route_turns_no_data_into_500
        (E : environment) (st : string) (d c : option string) (req : option date)
        (ds : string) (umf : bool) (umo : option bool) (tr tr' : trace)
        (r : PriceResponse) :
  get_crop_prices E st d c req ds umf umo tr = (Returns r, tr') ->
  success r = false ->
  exists m,
    message r = Some m
    /\ fetch_crop_prices http_exception_str E st d c req ds umf umo tr
       = (RaisesHTTP 500 ("Unexpected error: " +:+ http_exception_str 404 m), tr').
Proof.
  intros Hrun Hs.
  destruct (returned_response_facts _ _ _ _ _ _ _ _ _ _ _ Hrun)
    as (_ & _ & _ & _ & _ & _ & m & Hm & Hne).
  exists m. split; [exact Hm|].
  unfold fetch_crop_prices, route_try. rewrite Hrun.
  unfold no_data. rewrite Hs. cbn [negb orb route_except].
  unfold detail_of. rewrite Hm.
  destruct m as [|a m]; [congruence | reflexivity].
Qed.

(** X20. What [get_crop_prices] raises reaches the client as status 500: a
    blank state gives the detail ["Unexpected error: "] followed by the
    message of the input error, before any event, so that no [ValueError]
    leaves the route; an unknown data source in live mode gives
    ["Error fetching prices: "] followed by the message of the
    orchestration error. *)
Theorem route_turns_errors_into_500
        (E : environment) (st : string) (d c : option string) (req : option date)
        (ds : string) (umf : bool) (umo : option bool) (tr : trace) :
  (PyStr.strip st = "" ->
   fetch_crop_prices http_exception_str E st d c req ds umf umo tr
   = (RaisesHTTP 500 ("Unexpected error: "
                      +:+ "State parameter is required and cannot be empty"), tr))
  /\ (state_given st -> live_mode E umo -> selected_source ds = None ->
      fetch_crop_prices http_exception_str E st d c req ds umf umo tr
      = (RaisesHTTP 500 ("Error fetching prices: "
                         +:+ "Unexpected error fetching prices: Unknown data source: "
                         +:+ ds), tr)).
Proof.
  split.
  - intros Hblank. unfold fetch_crop_prices, route_try.
    now rewrite get_crop_prices_blank.
  - intros Hgiven Hlive Hnone. unfold fetch_crop_prices, route_try.
    rewrite get_crop_prices_live by assumption.
    rewrite (live_path_loop_raises E _ _ _ req ds umf tr
               (CropPriceError
                  ("Unexpected error fetching prices: Unknown data source: " +:+ ds)) tr).
    + reflexivity.
    + change (seq 0 MAX_RETRIES) with (0%nat :: seq 1 (MAX_RETRIES - 1)).
      now apply retry_loop_unknown_source.
Qed.

End Route.

Lemma route_answers_200_or_500_witness :
  (fetch_crop_prices (pydantic := strict_mode) starlette_str agmarknet_two_districts
       " punjab" (Some "AMRITSAR") None None "agmarknet" true None []).1
  = Responds amritsar_response
  /\ success amritsar_response = true /\ data amritsar_response <> [].
Proof.
  split; [reflexivity|].
  destruct (route_answers_200_or_500
              (str_methods := PyStr.ascii_methods) (pydantic := strict_mode)
              starlette_str agmarknet_two_districts " punjab" (Some "AMRITSAR") None None
              "agmarknet" true None [])
    as [_ Hanswer].
  exact (proj2 Hanswer).
Defined.

Lemma route_turns_no_data_into_500_witness :
  get_crop_prices (pydantic := strict_mode) portals_up "Atlantis" None None None
      "agmarknet" true (Some true) []
  = (Returns (mock_unavailable_response portals_up "Atlantis" None None), [MockCall])
  /\ exists m,
       message (mock_unavailable_response portals_up "Atlantis" None None) = Some m
       /\ fetch_crop_prices (pydantic := strict_mode) starlette_str portals_up "Atlantis"
              None None None "agmarknet" true (Some true) []
          = (RaisesHTTP 500 ("Unexpected error: " +:+ starlette_str 404 m), [MockCall]).
Proof.
  split; [reflexivity|].
  apply (route_turns_no_data_into_500
           (str_methods := PyStr.ascii_methods) (pydantic := strict_mode)
           starlette_str portals_up "Atlantis" None None None "agmarknet" true (Some true) []
           [MockCall] (mock_unavailable_response portals_up "Atlantis" None None));
    reflexivity.
Defined.

Example route_no_data_detail :
  fetch_crop_prices (pydantic := strict_mode) starlette_str portals_up "Atlantis" None
      None None "agmarknet" true (Some true) []
  = (RaisesHTTP 500 "Unexpected error: 404: Mock data provider unavailable", [MockCall]).
Proof. reflexivity. Qed.

Lemma route_turns_errors_into_500_witness :
  PyStr.strip "  " = ""
  /\ fetch_crop_prices (pydantic := strict_mode) starlette_str portals_up "  " None None
         None "agmarknet" true None []
     = (RaisesHTTP 500 "Unexpected error: State parameter is required and cannot be empty",
        []).
Proof.
  split; [reflexivity|].
  apply (route_turns_errors_into_500
           (str_methods := PyStr.ascii_methods) (pydantic := strict_mode)
           starlette_str portals_up "  " None None None "agmarknet" true None []).
  reflexivity.
Defined.
